(** * core-stitch: the UX Architect agent's conversation core

    A shallow embedding of [UXArchitectAgent] (the agent class) and of the
    [/api/chat] route of the Worker, followed by the properties of the
    chat turn: history/store agreement, tool failure containment, tool
    ordering, the single follow-up completion, LLM failure propagation,
    thread loading and the reload round trip.

    Conventions.
    - JavaScript [undefined]/[null] are [None]; a value tested for
      truthiness is tested with [truthy]/[truthy_opt], so the empty string
      is falsy as in the source.
    - Everything outside the class (the UUID generator, the clock, the
      completion API, the MCP servers, JSON, the SQL engine's ORDER BY) is a
      field of [World].  Each consultation of the outside world reads the
      oracle at the current [tick] and advances it, so two calls never have
      to answer alike.
    - The agent's two SQLite tables are lists of rows in insertion (rowid)
      order; INSERT enforces the PRIMARY KEY and NOT NULL constraints of the
      CREATE TABLE statements in [onStart].
    - Exceptions are explicit: a computation returns [Ok] or [Throw] together
      with the state it has reached, state changes made before a throw are
      kept, exactly as mutations made before a JavaScript exception are. *)

From Stdlib Require Import String List ZArith Bool Arith Lia Sorted.
From Stdlib Require Import DecimalString DecimalNat.
Import ListNotations.
Open Scope string_scope.
Open Scope list_scope.

(** ** JavaScript values *)

#[local] Unset Elimination Schemes.
Inductive json : Type :=
| JNull
| JBool (b : bool)
| JNum (z : Z)
| JStr (s : string)
| JArr (items : list json)
| JObj (fields : list (string * json)).
#[local] Set Elimination Schemes.

(** A thrown value: an [Error] with its message, or anything else. *)
Inductive Exn : Type :=
| JsError (message : string)
| JsThrown (v : json).

Inductive Res (A : Type) : Type :=
| Ok (a : A)
| Throw (e : Exn).
Arguments Ok {A} a.
Arguments Throw {A} e.

Definition truthy (s : string) : bool := negb (s =? "").

Definition truthy_opt (o : option string) : bool :=
  match o with
  | Some s => truthy s
  | None => false
  end.

(** [x || ""] *)
Definition or_empty (o : option string) : string :=
  match o with
  | Some s => s
  | None => ""
  end.

(** [x || null] and [x || undefined] *)
Definition or_null (o : option string) : option string :=
  if truthy_opt o then o else None.

(** [error instanceof Error ? error.message : dflt] *)
Definition error_message (e : Exn) (dflt : string) : string :=
  match e with
  | JsError m => m
  | JsThrown _ => dflt
  end.

(** ** Data model *)

Record ToolCallFunction : Type := mkToolCallFunction {
  fn_name : string;
  fn_arguments : string
}.

(** [OpenAI.Chat.Completions.ChatCompletionMessageToolCall] *)
Record ToolCall : Type := mkToolCall {
  tc_id : string;
  tc_type : string;
  tc_function : ToolCallFunction
}.

Inductive Role : Type := user | assistant | system | tool.

Definition Role_eqb (a b : Role) : bool :=
  match a, b with
  | user, user | assistant, assistant | system, system | tool, tool => true
  | _, _ => false
  end.

Record Message : Type := mkMessage {
  m_id : string;
  role : Role;
  content : string;
  toolCalls : option (list ToolCall);
  toolCallId : option string;
  createdAt : Z
}.

Record AgentState : Type := mkAgentState {
  threadId : option string;
  systemPrompt : string;
  conversationHistory : list Message
}.

(** A row of [agent_threads]. *)
Record Thread : Type := mkThread {
  t_id : string;
  title : option string;
  t_created_at : Z;
  updated_at : Z
}.

(** A row of [agent_messages]. *)
Record MessageRow : Type := mkMessageRow {
  row_id : string;
  thread_id : string;
  row_role : Role;
  row_content : string;
  tool_calls : option string;
  tool_call_id : option string;
  created_at : Z
}.

(** [MCPServerInfo] and its tools; a client is named by a handle. *)
Record MCPTool : Type := mkMCPTool {
  name : string;
  description : option string;
  inputSchema : json
}.

Record MCPServerInfo : Type := mkMCPServerInfo {
  state : option string;
  tools : option (list MCPTool);
  client : option nat
}.

(** [ChatCompletionTool], always of type "function". *)
Record ChatTool : Type := mkChatTool {
  ct_name : string;
  ct_description : string;
  ct_parameters : json
}.

(** [ChatCompletionMessageParam]: the three shapes the projection builds. *)
Inductive MessageParam : Type :=
| ParamTool (content : string) (tool_call_id : string)
| ParamAssistantCalls (content : string) (tool_calls : list ToolCall)
| ParamPlain (r : Role) (content : string).

Record ChatRequest : Type := mkChatRequest {
  model : string;
  messages : list MessageParam;
  req_tools : option (list ChatTool);
  tool_choice : option string
}.

(** [completion.choices[i].message] *)
Record ChoiceMessage : Type := mkChoiceMessage {
  cm_content : option string;
  cm_tool_calls : option (list ToolCall)
}.

Record Completion : Type := mkCompletion {
  choices : list ChoiceMessage
}.

(** What [chat] returns; [res_threadId] is [this.state.threadId] as it is
    at the return. *)
Record ChatResult : Type := mkChatResult {
  response : string;
  res_threadId : option string
}.

Record ConnectResult : Type := mkConnectResult {
  success : bool;
  error : option string
}.

(** ** The outside world *)

Record World : Type := mkWorld {
  randomUUID : nat -> string;
  Date_now : nat -> Z;
  chat_completions_create : nat -> ChatRequest -> Res Completion;
  addMcpServer : nat -> Res (option string);
  getMcpServers : nat -> option (list (string * option MCPServerInfo));
  callTool : nat -> nat -> string -> json -> Res json;
  JSON_parse : string -> Res json;
  JSON_stringify : json -> string;
  JSON_stringify_toolCalls : list ToolCall -> string;
  JSON_parse_toolCalls : string -> Res (list ToolCall);
  order_by_created_at : list MessageRow -> list MessageRow
}.

(** What the run has asked of the completion API and of the tools, in
    order.  The trace is not part of the program; it records the requests
    the program made so that properties about them can be stated. *)
Inductive Event : Type :=
| EvCompletion (req : ChatRequest) (r : Res Completion)
| EvTool (tc : ToolCall) (r : Res json).

(** ** The agent: Durable Object state, flags, tables *)

Record St : Type := mkSt {
  agent : AgentState;
  mcpConnected : bool;
  agent_messages : list MessageRow;
  agent_threads : list Thread;
  tick : nat;
  trace : list Event
}.

Definition UX_ARCHITECT_SYSTEM_PROMPT : string :=
  "You are a UX Architect, an expert in user experience design and interface architecture. Your role is to:

1. **Analyze Design Systems**: Break down complex UI/UX requirements into actionable design specifications.
2. **Drill Down into Details**: When discussing any design element, provide comprehensive details about:
   - Layout and composition
   - Typography and color schemes
   - Interaction patterns and micro-interactions
   - Accessibility considerations (WCAG compliance)
   - Responsive design strategies
   - Component hierarchy and reusability

3. **Use Stitch Tools**: Leverage the Stitch MCP server to access design resources, research user patterns, and validate design decisions.

4. **Be Collaborative**: Engage in iterative design discussions, ask clarifying questions, and propose multiple solutions when appropriate.

5. **Document Decisions**: Provide clear rationale for design recommendations and document key decisions for future reference.

Always prioritize user-centered design principles and maintain consistency with established design systems.".

(** The agent after its first [onStart]: state initialised, tables empty. *)
Definition onStart_state : St :=
  mkSt (mkAgentState None UX_ARCHITECT_SYSTEM_PROMPT []) false [] [] 0 [].

(** ** State and exception monad *)

Definition M (A : Type) : Type := St -> Res A * St.

Definition ret {A} (a : A) : M A := fun s => (Ok a, s).

Definition bind {A B} (m : M A) (k : A -> M B) : M B :=
  fun s =>
    match m s with
    | (Ok a, s') => k a s'
    | (Throw e, s') => (Throw e, s')
    end.

Definition throw {A} (e : Exn) : M A := fun s => (Throw e, s).

(** [try { m } catch (error) { h error }] *)
Definition try_catch {A} (m : M A) (h : Exn -> M A) : M A :=
  fun s =>
    match m s with
    | (Ok a, s') => (Ok a, s')
    | (Throw e, s') => h e s'
    end.

Definition lift {A} (r : Res A) : M A := fun s => (r, s).

Declare Scope agent_scope.
Delimit Scope agent_scope with agent.
Notation "x <- m ;; k" := (bind m (fun x => k))
  (at level 61, m at next level, right associativity) : agent_scope.
Notation "m ;; k" := (bind m (fun _ => k))
  (at level 61, right associativity) : agent_scope.
Open Scope agent_scope.

Definition get_agent : M AgentState := fun s => (Ok (agent s), s).

(** [this.setState(a)] *)
Definition setState (a : AgentState) : M unit :=
  fun s => (Ok tt, mkSt a (mcpConnected s) (agent_messages s) (agent_threads s)
                        (tick s) (trace s)).

Definition advance (s : St) : St :=
  mkSt (agent s) (mcpConnected s) (agent_messages s) (agent_threads s)
       (S (tick s)) (trace s).

Definition record (ev : Event) (s : St) : St :=
  mkSt (agent s) (mcpConnected s) (agent_messages s) (agent_threads s)
       (tick s) (trace s ++ [ev]).

(** Runs [m] and notes its outcome in the trace. *)
Definition logged {A} (ev : Res A -> Event) (m : M A) : M A :=
  fun s => let (r, s') := m s in (r, record (ev r) s').

(** ** The agent's operations *)

Section Agent.

Variable W : World.

Definition crypto_randomUUID : M string :=
  fun s => (Ok (randomUUID W (tick s)), advance s).

Definition now_ : M Z :=
  fun s => (Ok (Date_now W (tick s)), advance s).

(** [openai.chat.completions.create(req)] *)
Definition create_completion (req : ChatRequest) : M Completion :=
  logged (EvCompletion req)
    (fun s => (chat_completions_create W (tick s) req, advance s)).

Definition this_addMcpServer : M (option string) :=
  fun s => (addMcpServer W (tick s), advance s).

Definition this_getMcpServers : M (option (list (string * option MCPServerInfo))) :=
  fun s => (Ok (getMcpServers W (tick s)), advance s).

Definition client_callTool (c : nat) (toolName : string) (args : json) : M json :=
  fun s => (callTool W (tick s) c toolName args, advance s).

(** *** SQL *)

(** [INSERT INTO agent_threads]: [id] is the PRIMARY KEY. *)
Definition sql_insert_thread (t : Thread) : M unit :=
  fun s =>
    if existsb (fun r => t_id r =? t_id t) (agent_threads s)
    then (Throw (JsError "UNIQUE constraint failed: agent_threads.id"), s)
    else (Ok tt, mkSt (agent s) (mcpConnected s) (agent_messages s)
                      (agent_threads s ++ [t]) (tick s) (trace s)).

(** [INSERT INTO agent_messages]: [id] is the PRIMARY KEY, [thread_id] is
    NOT NULL and is bound to [this.state.threadId]. *)
Definition sql_insert_message (tid : option string) (row : string -> MessageRow)
  : M unit :=
  fun s =>
    match tid with
    | None => (Throw (JsError "NOT NULL constraint failed: agent_messages.thread_id"), s)
    | Some t =>
        if existsb (fun r => row_id r =? row_id (row t)) (agent_messages s)
        then (Throw (JsError "UNIQUE constraint failed: agent_messages.id"), s)
        else (Ok tt, mkSt (agent s) (mcpConnected s) (agent_messages s ++ [row t])
                          (agent_threads s) (tick s) (trace s))
    end.

Definition touch (now : Z) (tid : option string) (t : Thread) : Thread :=
  match tid with
  | Some i => if t_id t =? i
              then mkThread (t_id t) (title t) (t_created_at t) now
              else t
  | None => t
  end.

(** [UPDATE agent_threads SET updated_at = now WHERE id = tid] *)
Definition sql_update_thread (now : Z) (tid : option string) : M unit :=
  fun s => (Ok tt, mkSt (agent s) (mcpConnected s) (agent_messages s)
                        (map (touch now tid) (agent_threads s)) (tick s) (trace s)).

(** [SELECT id FROM agent_threads WHERE id = threadId] *)
Definition sql_select_thread (i : string) : M (list string) :=
  fun s => (Ok (map t_id (filter (fun t => t_id t =? i) (agent_threads s))), s).

Definition rows_of_thread (i : string) (rows : list MessageRow) : list MessageRow :=
  filter (fun r => thread_id r =? i) rows.

(** [SELECT * FROM agent_messages WHERE thread_id = threadId ORDER BY created_at ASC] *)
Definition sql_select_messages (i : string) : M (list MessageRow) :=
  fun s => (Ok (order_by_created_at W (rows_of_thread i (agent_messages s))), s).

(** *** connectToStitch *)

Definition connectToStitch : M ConnectResult :=
  fun s =>
    if mcpConnected s then (Ok (mkConnectResult true None), s)
    else
      try_catch
        (authUrl <- this_addMcpServer ;;
         if negb (truthy_opt authUrl)
         then (fun s' => (Ok (mkConnectResult true None),
                          mkSt (agent s') true (agent_messages s') (agent_threads s')
                               (tick s') (trace s')))
         else ret (mkConnectResult false
                     (Some ("Authentication required: " ++ or_empty authUrl)%string)))
        (fun e => ret (mkConnectResult false (Some (error_message e "Unknown error"))))
        s.

(** *** getMcpTools *)

Definition is_ready (server : MCPServerInfo) : bool :=
  match state server with
  | Some st => st =? "ready"
  | None => false
  end.

Definition chat_tool (t : MCPTool) : ChatTool :=
  mkChatTool (name t) (or_empty (description t)) (inputSchema t).

Definition server_chat_tools (entry : string * option MCPServerInfo) : list ChatTool :=
  match snd entry with
  | Some server =>
      match tools server with
      | Some ts => if is_ready server then map chat_tool ts else []
      | None => []
      end
  | None => []
  end.

Definition getMcpTools : M (list ChatTool) :=
  mcpServers <- this_getMcpServers ;;
  match mcpServers with
  | None => ret []
  | Some entries => ret (flat_map server_chat_tools entries)
  end.

(** *** executeMcpTool *)

Definition tool_not_found (toolName : string) : Exn :=
  JsError ("Tool not found: " ++ toolName)%string.

Definition has_tool (toolName : string) (ts : list MCPTool) : bool :=
  existsb (fun t => name t =? toolName) ts.

Fixpoint find_and_call (toolName : string) (args : json)
    (entries : list (string * option MCPServerInfo)) : M json :=
  match entries with
  | [] => throw (tool_not_found toolName)
  | (_, Some server) :: rest =>
      match tools server, client server with
      | Some ts, Some c =>
          if is_ready server && has_tool toolName ts
          then client_callTool c toolName args
          else find_and_call toolName args rest
      | _, _ => find_and_call toolName args rest
      end
  | (_, None) :: rest => find_and_call toolName args rest
  end.

Definition executeMcpTool (toolName : string) (args : json) : M json :=
  mcpServers <- this_getMcpServers ;;
  match mcpServers with
  | None => throw (tool_not_found toolName)
  | Some entries => find_and_call toolName args entries
  end.

(** *** createThread, loadThread, persistMessage *)

Definition createThread (title : option string) : M string :=
  threadId <- crypto_randomUUID ;;
  now <- now_ ;;
  sql_insert_thread (mkThread threadId (or_null title) now now) ;;
  a <- get_agent ;;
  setState (mkAgentState (Some threadId) (systemPrompt a) []) ;;
  ret threadId.

(** One row of [agent_messages] back into a [Message]. *)
Definition message_of_row (msg : MessageRow) : Res Message :=
  match (if truthy_opt (tool_calls msg)
         then match JSON_parse_toolCalls W (or_empty (tool_calls msg)) with
              | Ok tcs => Ok (Some tcs)
              | Throw e => Throw e
              end
         else Ok None) with
  | Ok tcs => Ok (mkMessage (row_id msg) (row_role msg) (row_content msg) tcs
                            (or_null (tool_call_id msg)) (created_at msg))
  | Throw e => Throw e
  end.

Fixpoint map_rows (rows : list MessageRow) : Res (list Message) :=
  match rows with
  | [] => Ok []
  | r :: rest =>
      match message_of_row r with
      | Ok m => match map_rows rest with
                | Ok ms => Ok (m :: ms)
                | Throw e => Throw e
                end
      | Throw e => Throw e
      end
  end.

Definition loadThread (threadId : string) : M bool :=
  threads <- sql_select_thread threadId ;;
  if (length threads =? 0)%nat then ret false
  else
    messages <- sql_select_messages threadId ;;
    conversationHistory <- lift (map_rows messages) ;;
    a <- get_agent ;;
    setState (mkAgentState (Some threadId) (systemPrompt a) conversationHistory) ;;
    ret true.

(** The row [persistMessage] writes for [message] under thread [tid]. *)
Definition row_of_message (message : Message) (tid : string) : MessageRow :=
  mkMessageRow (m_id message) tid (role message) (content message)
    (match toolCalls message with
     | Some tcs => Some (JSON_stringify_toolCalls W tcs)
     | None => None
     end)
    (or_null (toolCallId message))
    (createdAt message).

Definition persistMessage (message : Message) : M unit :=
  a <- get_agent ;;
  sql_insert_message (threadId a) (row_of_message message) ;;
  now <- now_ ;;
  a <- get_agent ;;
  sql_update_thread now (threadId a).

(** *** chat *)

(** The projection of one history entry into the completion request; the
    source writes it out twice, before the first and before the follow-up
    completion, with the same text. *)
Definition project (msg : Message) : MessageParam :=
  if Role_eqb (role msg) tool && truthy_opt (toolCallId msg)
  then ParamTool (content msg) (or_empty (toolCallId msg))
  else
    match toolCalls msg with
    | Some tcs =>
        if Role_eqb (role msg) assistant
        then ParamAssistantCalls (content msg) tcs
        else ParamPlain (role msg) (content msg)
    | None => ParamPlain (role msg) (content msg)
    end.

Definition request_messages (a : AgentState) (history : list Message)
  : list MessageParam :=
  ParamPlain system (systemPrompt a) :: map project history.

(** [completion.choices[0].message] *)
Definition first_choice (completion : Completion) : M ChoiceMessage :=
  match choices completion with
  | m :: _ => ret m
  | [] => throw (JsError "Cannot read properties of undefined (reading 'message')")
  end.

(** [this.setState({ ...this.state, conversationHistory: [...history, msg] })] *)
Definition append_history (msg : Message) : M unit :=
  a <- get_agent ;;
  setState (mkAgentState (threadId a) (systemPrompt a)
                         (conversationHistory a ++ [msg])).

Definition error_payload (e : Exn) : json :=
  JObj [("error", JStr (error_message e "Tool execution failed"))].

(** The body of the loop over [assistantMessage.tool_calls]. *)
Definition run_tool_call (toolCall : ToolCall) : M unit :=
  try_catch
    (toolResult <-
       logged (EvTool toolCall)
         (args <- lift (JSON_parse W (fn_arguments (tc_function toolCall))) ;;
          executeMcpTool (fn_name (tc_function toolCall)) args) ;;
     id <- crypto_randomUUID ;;
     now <- now_ ;;
     let toolMsg :=
       mkMessage id tool (JSON_stringify W toolResult) None
                 (Some (tc_id toolCall)) now in
     append_history toolMsg ;;
     persistMessage toolMsg)
    (fun error =>
     id <- crypto_randomUUID ;;
     now <- now_ ;;
     let errorMsg :=
       mkMessage id tool (JSON_stringify W (error_payload error)) None
                 (Some (tc_id toolCall)) now in
     append_history errorMsg ;;
     persistMessage errorMsg).

Fixpoint run_tool_calls (tool_calls : list ToolCall) : M unit :=
  match tool_calls with
  | [] => ret tt
  | toolCall :: rest => run_tool_call toolCall ;; run_tool_calls rest
  end.

Definition MODEL : string := "gpt-4-turbo-preview".

Definition first_request (messages : list MessageParam) (tools : list ChatTool)
  : ChatRequest :=
  mkChatRequest MODEL messages
    (if (0 <? length tools)%nat then Some tools else None)
    (if (0 <? length tools)%nat then Some "auto" else None).

Definition followUp_request (messages : list MessageParam) : ChatRequest :=
  mkChatRequest MODEL messages None None.

Definition chat (userMessage : string) : M ChatResult :=
  a <- get_agent ;;
  (if negb (truthy_opt (threadId a))
   then (_ <- createThread None ;; ret tt)
   else ret tt) ;;
  connectToStitch ;;
  id <- crypto_randomUUID ;;
  now <- now_ ;;
  let userMsg := mkMessage id user userMessage None None now in
  a <- get_agent ;;
  let updatedHistory := conversationHistory a ++ [userMsg] in
  setState (mkAgentState (threadId a) (systemPrompt a) updatedHistory) ;;
  persistMessage userMsg ;;
  a <- get_agent ;;
  let messages := request_messages a updatedHistory in
  tools <- getMcpTools ;;
  completion <- create_completion (first_request messages tools) ;;
  assistantMessage <- first_choice completion ;;
  let responseContent := or_empty (cm_content assistantMessage) in
  responseContent <-
    match cm_tool_calls assistantMessage with
    | Some ((_ :: _) as tool_calls) =>
        id <- crypto_randomUUID ;;
        now <- now_ ;;
        let assistantMsg :=
          mkMessage id assistant responseContent (Some tool_calls) None now in
        append_history assistantMsg ;;
        persistMessage assistantMsg ;;
        run_tool_calls tool_calls ;;
        a <- get_agent ;;
        let followUpMessages := request_messages a (conversationHistory a) in
        followUpCompletion <- create_completion (followUp_request followUpMessages) ;;
        followUp <- first_choice followUpCompletion ;;
        ret (or_empty (cm_content followUp))
    | _ => ret responseContent
    end ;;
  id <- crypto_randomUUID ;;
  now <- now_ ;;
  let finalAssistantMsg := mkMessage id assistant responseContent None None now in
  append_history finalAssistantMsg ;;
  persistMessage finalAssistantMsg ;;
  a <- get_agent ;;
  ret (mkChatResult responseContent (threadId a)).

(** The [/chat] branch of [onRequest]. *)
Definition onRequest_chat (message : string) (body_threadId : option string)
  : M ChatResult :=
  (if truthy_opt body_threadId
   then (_ <- loadThread (or_empty body_threadId) ;; ret tt)
   else ret tt) ;;
  chat message.

End Agent.

(** ** Sequences of turns *)

Fixpoint chats (W : World) (userMessages : list string) : M (list ChatResult) :=
  match userMessages with
  | [] => ret []
  | userMessage :: rest =>
      r <- chat W userMessage ;;
      rs <- chats W rest ;;
      ret (r :: rs)
  end.

(** ** The Worker's [/api/chat] route *)

(** The JSON body of the request; both fields may be missing. *)
Record ChatBody : Type := mkChatBody {
  body_message : option string;
  body_threadId : option string
}.

(** A row of the D1 table [threads]; SQLite lets a TEXT PRIMARY KEY be NULL. *)
Record D1Thread : Type := mkD1Thread {
  d1t_id : option string;
  d1t_title : option string;
  d1t_created_at : Z;
  d1t_updated_at : Z
}.

(** A row of the D1 table [messages]. *)
Record D1Message : Type := mkD1Message {
  d1m_id : string;
  d1m_thread_id : string;
  d1m_role : Role;
  d1m_content : string;
  d1m_created_at : Z
}.

(** The Worker's bindings: the Durable Object namespace (one agent per
    name, a name never used yet standing for an agent fresh from
    [onStart]) and the D1 database. *)
Record Worker : Type := mkWorker {
  UX_ARCHITECT_AGENT : string -> St;
  DB_threads : list D1Thread;
  DB_messages : list D1Message;
  worker_tick : nat
}.

Inductive Response : Type :=
| JsonError (status : nat) (error : string)
| JsonChat (result : ChatResult).

Definition opt_string_eqb (a b : option string) : bool :=
  match a, b with
  | Some x, Some y => x =? y
  | _, _ => false
  end.

(** [INSERT INTO threads ... ON CONFLICT(id) DO UPDATE SET updated_at = now] *)
Definition d1_upsert_thread (threadId : option string) (now : Z)
    (rows : list D1Thread) : list D1Thread :=
  if existsb (fun t => opt_string_eqb (d1t_id t) threadId) rows
  then map (fun t => if opt_string_eqb (d1t_id t) threadId
                     then mkD1Thread (d1t_id t) (d1t_title t) (d1t_created_at t) now
                     else t) rows
  else rows ++ [mkD1Thread threadId None now now].

(** [INSERT INTO messages]: [id] is the PRIMARY KEY, [thread_id] is NOT NULL
    and references [threads(id)]. *)
Definition d1_insert_message (id : string) (threadId : option string)
    (r : Role) (content : string) (now : Z)
    (threads : list D1Thread) (rows : list D1Message) : Res (list D1Message) :=
  match threadId with
  | None => Throw (JsError "NOT NULL constraint failed: messages.thread_id")
  | Some t =>
      if existsb (fun m => d1m_id m =? id) rows
      then Throw (JsError "UNIQUE constraint failed: messages.id")
      else if existsb (fun th => opt_string_eqb (d1t_id th) threadId) threads
      then Ok (rows ++ [mkD1Message id t r content now])
      else Throw (JsError "FOREIGN KEY constraint failed")
  end.

Definition set_agent_instance (agentId : string) (st : St) (ns : string -> St)
  : string -> St :=
  fun n => if n =? agentId then st else ns n.

Definition FAILED : Response := JsonError 500 "Failed to process chat message".

(** [app.post("/api/chat", ...)].  [body] is what [c.req.json()] gives; an
    exception escaping the agent's [onRequest] reaches the route as a
    rejected fetch or as a body that is not JSON, and either way ends in
    the route's [catch]. *)
Definition api_chat (W : World) (body : Res ChatBody) (w : Worker)
  : Response * Worker :=
  match body with
  | Throw _ => (FAILED, w)
  | Ok body =>
      if negb (truthy_opt (body_message body))
      then (JsonError 400 "Message is required", w)
      else
        let message := or_empty (body_message body) in
        let (agentId, t0) :=
          if truthy_opt (body_threadId body)
          then (or_empty (body_threadId body), worker_tick w)
          else (randomUUID W (worker_tick w), S (worker_tick w)) in
        let (result, st) :=
          onRequest_chat W message (body_threadId body)
                         (UX_ARCHITECT_AGENT w agentId) in
        let agents := set_agent_instance agentId st (UX_ARCHITECT_AGENT w) in
        match result with
        | Throw _ => (FAILED, mkWorker agents (DB_threads w) (DB_messages w) t0)
        | Ok result =>
            let threadId := res_threadId result in
            let now := (Date_now W t0 / 1000)%Z in
            let threads := d1_upsert_thread threadId now (DB_threads w) in
            match d1_insert_message (randomUUID W (S t0)) threadId user message
                                    now threads (DB_messages w) with
            | Throw _ => (FAILED, mkWorker agents threads (DB_messages w) (S (S t0)))
            | Ok rows1 =>
                match d1_insert_message (randomUUID W (S (S t0))) threadId
                        assistant (response result) now threads rows1 with
                | Throw _ => (FAILED, mkWorker agents threads rows1 (S (S (S t0))))
                | Ok rows2 =>
                    (JsonChat result, mkWorker agents threads rows2 (S (S (S t0))))
                end
            end
        end
  end.

(** ** The agent's handlers: listThreads, onConnect, onMessage, onRequest *)

(** The JSON of a WebSocket message, through the fields [onMessage] reads. *)
Record WsData : Type := mkWsData {
  ws_type : option string;
  ws_message : option string;
  ws_title : option string;
  ws_threadId : option string
}.

(** The JSON body of a request to the agent, through the fields
    [onRequest] reads. *)
Record RequestBody : Type := mkRequestBody {
  rb_title : option string;
  rb_message : string;
  rb_threadId : option string
}.

(** A request as [onRequest] sees it: method, [url.pathname], and what
    [request.json()] gives when it is asked for. *)
Record AgentRequest : Type := mkAgentRequest {
  req_method : string;
  req_path : string;
  req_body : Res RequestBody
}.

Inductive AgentResponse : Type :=
| RespThreadId (threadId : string)
| RespThreads (threads : list Thread)
| RespChat (result : ChatResult)
| RespThread (threadId : string) (messages : list Message)
| RespError (status : nat) (error : string)
| RespNotFound.

(** [data.type === t] *)
Definition has_type (data : WsData) (t : string) : bool :=
  match ws_type data with
  | Some x => x =? t
  | None => false
  end.

(** [path.replace("/threads/", "")] for a path that starts with it. *)
Definition thread_of_path (path : string) : string :=
  substring 9 (String.length path - 9) path.

Section Handlers.

Variable W : World.

(** The engine's [ORDER BY updated_at DESC] on [agent_threads]. *)
Variable order_by_updated_at_desc : list Thread -> list Thread.

(** [SELECT * FROM agent_threads ORDER BY updated_at DESC] *)
Definition listThreads : M (list Thread) :=
  fun s => (Ok (order_by_updated_at_desc (agent_threads s)), s).

Definition onConnect : M unit :=
  _ <- connectToStitch W ;; ret tt.

(** [message] is [None] for a message that is not a string, and otherwise
    what [JSON.parse] makes of it. *)
Definition onMessage (message : option (Res WsData)) : M unit :=
  match message with
  | None => ret tt
  | Some parsed =>
      try_catch
        (data <- lift parsed ;;
         if has_type data "chat" && truthy_opt (ws_message data)
         then (_ <- chat W (or_empty (ws_message data)) ;; ret tt)
         else if has_type data "create_thread"
         then (_ <- createThread W (ws_title data) ;; ret tt)
         else if has_type data "load_thread" && truthy_opt (ws_threadId data)
         then (_ <- loadThread W (or_empty (ws_threadId data)) ;; ret tt)
         else if has_type data "list_threads"
         then (_ <- listThreads ;; ret tt)
         else ret tt)
        (fun _ => ret tt)
  end.

Definition onRequest (request : AgentRequest) : M AgentResponse :=
  let path := req_path request in
  if (path =? "/threads") && (req_method request =? "POST") then
    body <- lift (req_body request) ;;
    threadId <- createThread W (rb_title body) ;;
    ret (RespThreadId threadId)
  else if (path =? "/threads") && (req_method request =? "GET") then
    threads <- listThreads ;;
    ret (RespThreads threads)
  else if (path =? "/chat") && (req_method request =? "POST") then
    body <- lift (req_body request) ;;
    result <- onRequest_chat W (rb_message body) (rb_threadId body) ;;
    ret (RespChat result)
  else if prefix "/threads/" path && (req_method request =? "GET") then
    let threadId := thread_of_path path in
    loaded <- loadThread W threadId ;;
    if negb loaded then ret (RespError 404 "Thread not found")
    else
      a <- get_agent ;;
      ret (RespThread threadId (conversationHistory a))
  else ret RespNotFound.

End Handlers.

(** ** The Worker's other routes *)

Inductive ApiResponse : Type :=
| ApiError (status : nat) (error : string)
| ApiCreated (threadId : string)
| ApiThread (thread : D1Thread) (messages : list D1Message)
| ApiThreads (threads : list D1Thread)
| ApiSuccess.

(** [INSERT INTO threads]: [id] is the PRIMARY KEY. *)
Definition d1_insert_thread (t : D1Thread) (rows : list D1Thread)
  : Res (list D1Thread) :=
  if existsb (fun r => opt_string_eqb (d1t_id r) (d1t_id t)) rows
  then Throw (JsError "UNIQUE constraint failed: threads.id")
  else Ok (rows ++ [t]).

(** [SELECT * FROM threads WHERE id = ?] and [.first()] *)
Definition d1_first_thread (threadId : string) (rows : list D1Thread)
  : option D1Thread :=
  find (fun t => opt_string_eqb (d1t_id t) (Some threadId)) rows.

(** [DELETE FROM threads WHERE id = ?] *)
Definition d1_delete_thread (threadId : string) (rows : list D1Thread)
  : list D1Thread :=
  filter (fun t => negb (opt_string_eqb (d1t_id t) (Some threadId))) rows.

(** What [ON DELETE CASCADE] of [messages.thread_id] removes with it. *)
Definition d1_cascade (threadId : string) (rows : list D1Message)
  : list D1Message :=
  filter (fun m => negb (d1m_thread_id m =? threadId)) rows.

Section Routes.

Variable W : World.

(** The engine's [ORDER BY updated_at DESC] on [threads] and
    [ORDER BY created_at ASC] on [messages]. *)
Variable d1_order_threads : list D1Thread -> list D1Thread.
Variable d1_order_messages : list D1Message -> list D1Message.

(** [app.get("/api/threads", ...)] *)
Definition api_list_threads (w : Worker) : ApiResponse * Worker :=
  (ApiThreads (d1_order_threads (DB_threads w)), w).

(** [app.post("/api/threads", ...)]; [body] is what [c.req.json()] gives,
    seen through its [title]. *)
Definition api_create_thread (body : Res (option string)) (w : Worker)
  : ApiResponse * Worker :=
  match body with
  | Throw _ => (ApiError 500 "Failed to create thread", w)
  | Ok title =>
      let threadId := randomUUID W (worker_tick w) in
      let now := (Date_now W (S (worker_tick w)) / 1000)%Z in
      match d1_insert_thread (mkD1Thread (Some threadId) (or_null title) now now)
                             (DB_threads w) with
      | Throw _ =>
          (ApiError 500 "Failed to create thread",
           mkWorker (UX_ARCHITECT_AGENT w) (DB_threads w) (DB_messages w)
                    (S (S (worker_tick w))))
      | Ok threads =>
          (ApiCreated threadId,
           mkWorker (UX_ARCHITECT_AGENT w) threads (DB_messages w)
                    (S (S (worker_tick w))))
      end
  end.

(** [app.get("/api/threads/:threadId", ...)] *)
Definition api_get_thread (threadId : string) (w : Worker)
  : ApiResponse * Worker :=
  match d1_first_thread threadId (DB_threads w) with
  | None => (ApiError 404 "Thread not found", w)
  | Some thread =>
      (ApiThread thread
         (d1_order_messages
            (filter (fun m => d1m_thread_id m =? threadId) (DB_messages w))),
       w)
  end.

(** [app.delete("/api/threads/:threadId", ...)] *)
Definition api_delete_thread (threadId : string) (w : Worker)
  : ApiResponse * Worker :=
  (ApiSuccess,
   mkWorker (UX_ARCHITECT_AGENT w)
            (d1_delete_thread threadId (DB_threads w))
            (if existsb (fun t => opt_string_eqb (d1t_id t) (Some threadId))
                        (DB_threads w)
             then d1_cascade threadId (DB_messages w)
             else DB_messages w)
            (worker_tick w)).

End Routes.

(** ** Vocabulary of the properties *)

Section Vocabulary.

Variable W : World.

(** *** Well-formed agent states *)

(** From tick [n] on, the generator returns ids that are neither stored
    yet nor repeated: what [crypto.randomUUID] promises. *)
Definition fresh_from (n : nat) (s : St) : Prop :=
  (forall k, n <= k -> ~ In (randomUUID W k) (map row_id (agent_messages s))) /\
  (forall k, n <= k -> ~ In (randomUUID W k) (map t_id (agent_threads s))) /\
  (forall i j, n <= i -> n <= j -> randomUUID W i = randomUUID W j -> i = j).

(** Every stored message belongs to a stored thread, and so does the
    active thread. *)
Definition referential (s : St) : Prop :=
  (forall r, In r (agent_messages s) -> In (thread_id r) (map t_id (agent_threads s))) /\
  (forall i, threadId (agent s) = Some i -> In i (map t_id (agent_threads s))).

(** A state the agent can be in: from its current tick on the ids are
    fresh, and the tables are consistent with each other. *)
Definition wf (s : St) : Prop := fresh_from (tick s) s /\ referential s.

(** *** How a state grows *)

(** [delta tid msgs evs s s']: from [s] to [s'] exactly [msgs] were appended
    to the history and, as rows of thread [tid], to [agent_messages];
    exactly [evs] were appended to the trace; nothing else that matters
    changed. *)
Definition delta (tid : string) (msgs : list Message) (evs : list Event)
    (s s' : St) : Prop :=
  threadId (agent s') = threadId (agent s) /\
  systemPrompt (agent s') = systemPrompt (agent s) /\
  conversationHistory (agent s') = conversationHistory (agent s) ++ msgs /\
  agent_messages s' =
    agent_messages s ++ map (fun m => row_of_message W m tid) msgs /\
  map t_id (agent_threads s') = map t_id (agent_threads s) /\
  trace s' = trace s ++ evs /\
  tick s <= tick s' /\
  Forall (fun m => exists k, tick s <= k < tick s' /\ m_id m = randomUUID W k) msgs.

(** [quiet s s']: only the clock, the connection flag moved. *)
Definition quiet (s s' : St) : Prop :=
  agent s' = agent s /\ agent_messages s' = agent_messages s /\
  agent_threads s' = agent_threads s /\ trace s' = trace s /\
  tick s <= tick s'.

(** The descriptors [getMcpTools] collects when asked at tick [n]. *)
Definition available_tools (n : nat) : list ChatTool :=
  match getMcpServers W n with
  | None => []
  | Some entries => flat_map server_chat_tools entries
  end.

(** The state [persistMessage message] leaves when the insert succeeds. *)
Definition persisted (message : Message) (tid : string) (s : St) : St :=
  mkSt (agent s) (mcpConnected s)
       (agent_messages s ++ [row_of_message W message tid])
       (map (touch (Date_now W (tick s)) (Some tid)) (agent_threads s))
       (S (tick s)) (trace s).

(** The state after [m], with an id minted at the current tick and a
    timestamp read at the next, has been appended and persisted. *)
Definition pushed (m : Message) (tid : string) (s : St) : St :=
  persisted m tid
    (mkSt (mkAgentState (threadId (agent s)) (systemPrompt (agent s))
                        (conversationHistory (agent s) ++ [m]))
          (mcpConnected s) (agent_messages s) (agent_threads s)
          (S (S (tick s))) (trace s)).

(** *** The messages of a turn *)

(** The user message of the turn. *)
Definition is_user_msg (text : string) (m : Message) : Prop :=
  role m = user /\ content m = text /\ toolCalls m = None /\ toolCallId m = None.

(** The assistant message that carries the tool calls. *)
Definition is_assistant_calls (text : string) (tcs : list ToolCall) (m : Message)
  : Prop :=
  role m = assistant /\ content m = text /\ toolCalls m = Some tcs /\
  toolCallId m = None.

(** The final assistant message: text only. *)
Definition is_final (text : string) (m : Message) : Prop :=
  role m = assistant /\ content m = text /\ toolCalls m = None /\
  toolCallId m = None.

(** The text of the tool message for an invocation that ended in [out]. *)
Definition tool_content (out : Res json) : string :=
  match out with
  | Ok toolResult => JSON_stringify W toolResult
  | Throw e => JSON_stringify W (error_payload e)
  end.

(** The tool message for call [tc] whose invocation ended in [out]. *)
Definition is_tool_msg (tc : ToolCall) (out : Res json) (m : Message) : Prop :=
  role m = tool /\ content m = tool_content out /\ toolCalls m = None /\
  toolCallId m = Some (tc_id tc).

(** One tool round: call by call, the invocation noted in the trace and
    the tool message it produced. *)
Inductive tool_round : list ToolCall -> list Event -> list Message -> Prop :=
| tool_round_nil : tool_round [] [] []
| tool_round_cons tc out m tcs evs ms :
    is_tool_msg tc out m -> tool_round tcs evs ms ->
    tool_round (tc :: tcs) (EvTool tc out :: evs) (m :: ms).

(** The state [createThread title] leaves when the insert succeeds. *)
Definition created (title : option string) (s : St) : St :=
  mkSt (mkAgentState (Some (randomUUID W (tick s))) (systemPrompt (agent s)) [])
       (mcpConnected s) (agent_messages s)
       (agent_threads s ++
          [mkThread (randomUUID W (tick s)) (or_null title)
                    (Date_now W (S (tick s))) (Date_now W (S (tick s)))])
       (S (S (tick s))) (trace s).

(** [completion.choices[0].message], or what is thrown instead. *)
Definition choice_of (r : Res Completion) : Res ChoiceMessage :=
  match r with
  | Ok completion =>
      match choices completion with
      | m :: _ => Ok m
      | [] => Throw (JsError "Cannot read properties of undefined (reading 'message')")
      end
  | Throw e => Throw e
  end.

(** The tool calls that send the turn into the tool branch. *)
Definition offered_calls (m : ChoiceMessage) : list ToolCall :=
  match cm_tool_calls m with
  | Some tcs => tcs
  | None => []
  end.

(** The first request of a turn that starts from [a0] with user message
    [u], and the follow-up request once [msgs] have been appended. *)
Definition first_request_of (a0 : AgentState) (u : Message) (tools : list ChatTool)
  : ChatRequest :=
  first_request (request_messages a0 (conversationHistory a0 ++ [u])) tools.

Definition followUp_request_of (a0 : AgentState) (msgs : list Message)
  : ChatRequest :=
  followUp_request (request_messages a0 (conversationHistory a0 ++ msgs)).

(** The four ways a turn can go, with the messages appended, the requests
    made and the result.  [a0] is the agent state the turn starts from once
    the thread exists, [tid] its thread. *)
Inductive turn_shape (userMessage : string) (a0 : AgentState) (tid : string)
  : list Message -> list Event -> Res ChatResult -> Prop :=
| turn_first_failed u tools r1 e :
    is_user_msg userMessage u ->
    choice_of r1 = Throw e ->
    turn_shape userMessage a0 tid
      [u] [EvCompletion (first_request_of a0 u tools) r1] (Throw e)
| turn_plain u tools r1 m f :
    is_user_msg userMessage u ->
    choice_of r1 = Ok m ->
    offered_calls m = [] ->
    is_final (or_empty (cm_content m)) f ->
    turn_shape userMessage a0 tid
      [u; f] [EvCompletion (first_request_of a0 u tools) r1]
      (Ok (mkChatResult (or_empty (cm_content m)) (Some tid)))
| turn_tools_failed u tools r1 m a tevs tms r2 e :
    is_user_msg userMessage u ->
    choice_of r1 = Ok m ->
    offered_calls m <> [] ->
    is_assistant_calls (or_empty (cm_content m)) (offered_calls m) a ->
    tool_round (offered_calls m) tevs tms ->
    choice_of r2 = Throw e ->
    turn_shape userMessage a0 tid
      (u :: a :: tms)
      (EvCompletion (first_request_of a0 u tools) r1 :: tevs ++
       [EvCompletion (followUp_request_of a0 (u :: a :: tms)) r2])
      (Throw e)
| turn_tools_done u tools r1 m a tevs tms r2 m2 f :
    is_user_msg userMessage u ->
    choice_of r1 = Ok m ->
    offered_calls m <> [] ->
    is_assistant_calls (or_empty (cm_content m)) (offered_calls m) a ->
    tool_round (offered_calls m) tevs tms ->
    choice_of r2 = Ok m2 ->
    is_final (or_empty (cm_content m2)) f ->
    turn_shape userMessage a0 tid
      (u :: a :: tms ++ [f])
      (EvCompletion (first_request_of a0 u tools) r1 :: tevs ++
       [EvCompletion (followUp_request_of a0 (u :: a :: tms)) r2])
      (Ok (mkChatResult (or_empty (cm_content m2)) (Some tid))).

(** The state the turn works from: [s] itself when it has a thread, the
    state [createThread()] leaves otherwise. *)
Definition turn_start (s : St) : St :=
  if truthy_opt (threadId (agent s)) then s else created None s.

(** The tick at which a turn started in [s] calls [getMcpTools]: after the
    thread was made when there was none, after the connection attempt (one
    consultation unless the agent is connected already) and after the user
    message (its id, its timestamp, the thread's updated_at). *)
Definition tools_tick (s : St) : nat :=
  S (S (S ((if mcpConnected s then 0 else 1) + tick (turn_start s)))).

(** A completion request of the turn that came back with a message. *)
Definition answered (ev : Event) : Prop :=
  match ev with
  | EvCompletion _ r => exists m, choice_of r = Ok m
  | EvTool _ _ => True
  end.

(** *** History, store and reload *)

(** The stored rows of the active thread are the history, message by
    message, in order. *)
Definition agrees (s : St) : Prop :=
  forall tid, threadId (agent s) = Some tid ->
    rows_of_thread tid (agent_messages s) =
    map (fun m => row_of_message W m tid) (conversationHistory (agent s)).

(** The state [loadThread] installs: same tables, new agent state. *)
Definition loaded (threadId : string) (history : list Message) (s : St) : St :=
  mkSt (mkAgentState (Some threadId) (systemPrompt (agent s)) history)
       (mcpConnected s) (agent_messages s) (agent_threads s) (tick s) (trace s).

(** Not later than, by [created_at] and by [createdAt]. *)
Definition earlier_row (a b : MessageRow) : Prop :=
  (created_at a <= created_at b)%Z.

Definition earlier (a b : Message) : Prop := (createdAt a <= createdAt b)%Z.

(** An ORDER BY that returns rows already in order as they are (one that
    keeps rows of equal key in insertion order does). *)
Definition keeps_insertion_order : Prop :=
  forall rows, Sorted earlier_row rows -> order_by_created_at W rows = rows.

(** [JSON.parse(JSON.stringify(calls))] gives [calls] back, and the text is
    not empty. *)
Definition calls_survive_json (m : Message) : Prop :=
  forall tcs, toolCalls m = Some tcs ->
    JSON_stringify_toolCalls W tcs <> "" /\
    JSON_parse_toolCalls W (JSON_stringify_toolCalls W tcs) = Ok tcs.

(** *** The route *)

(** The agent instance the route talks to. *)
Definition agent_of_request (body : ChatBody) (w : Worker) : string :=
  if truthy_opt (body_threadId body) then or_empty (body_threadId body)
  else randomUUID W (worker_tick w).

(** The turn the route has that agent run. *)
Definition turn_of_request (body : ChatBody) (w : Worker)
  : Res ChatResult * St :=
  onRequest_chat W (or_empty (body_message body)) (body_threadId body)
                 (UX_ARCHITECT_AGENT w (agent_of_request body w)).

(** The tick at which the route reads the clock: one later when it minted
    the agent's name itself. *)
Definition route_tick (body : ChatBody) (w : Worker) : nat :=
  if truthy_opt (body_threadId body) then worker_tick w else S (worker_tick w).

(** The two ids the route mints for its D1 rows are new and differ: what
    [crypto.randomUUID] promises. *)
Definition d1_ids_fresh (body : ChatBody) (w : Worker) : Prop :=
  ~ In (randomUUID W (S (route_tick body w))) (map d1m_id (DB_messages w)) /\
  ~ In (randomUUID W (S (S (route_tick body w)))) (map d1m_id (DB_messages w)) /\
  randomUUID W (S (route_tick body w)) <> randomUUID W (S (S (route_tick body w))).

End Vocabulary.

(** ** A sample world

    Concrete oracles to run the model on: ids "id-0", "id-1", ... by tick, a
    clock, a completion service and tool servers given as arguments, a
    small JSON printer, and an ORDER BY that keeps rows with equal keys in
    insertion order. *)

Definition sample_uuid (n : nat) : string :=
  "id-" ++ NilEmpty.string_of_uint (Nat.to_uint n).

Definition dquote : string := String (Ascii.ascii_of_nat 34) EmptyString.

Fixpoint sample_stringify (j : json) : string :=
  match j with
  | JNull => "null"
  | JBool true => "true"
  | JBool false => "false"
  | JNum z => NilZero.string_of_int (Z.to_int z)
  | JStr s => dquote ++ s ++ dquote
  | JArr items =>
      "[" ++ (fix go (l : list json) : string :=
                match l with
                | [] => ""
                | [x] => sample_stringify x
                | x :: r => sample_stringify x ++ "," ++ go r
                end) items ++ "]"
  | JObj fields =>
      "{" ++ (fix go (l : list (string * json)) : string :=
                match l with
                | [] => ""
                | [(k, v)] => dquote ++ k ++ dquote ++ ":" ++ sample_stringify v
                | (k, v) :: r =>
                    dquote ++ k ++ dquote ++ ":" ++ sample_stringify v ++ "," ++ go r
                end) fields ++ "}"
  end%string.

(** Parses the empty object only; every other text is a syntax error. *)
Definition sample_parse (text : string) : Res json :=
  if text =? "{}" then Ok (JObj [])
  else Throw (JsError "Unexpected token in JSON").

Definition sample_stringify_toolCall (tc : ToolCall) : string :=
  ("{" ++ tc_id tc ++ "," ++ tc_type tc ++ "," ++ fn_name (tc_function tc) ++ ","
       ++ fn_arguments (tc_function tc) ++ "}")%string.

Definition sample_stringify_toolCalls (tcs : list ToolCall) : string :=
  ("[" ++ String.concat "," (map sample_stringify_toolCall tcs) ++ "]")%string.

(** Reads back the arrays listed in [known], which is all a sample run
    ever stores. *)
Fixpoint sample_parse_toolCalls (known : list (list ToolCall)) (text : string)
  : Res (list ToolCall) :=
  match known with
  | [] => Throw (JsError "Unexpected token in JSON")
  | tcs :: rest =>
      if text =? sample_stringify_toolCalls tcs then Ok tcs
      else sample_parse_toolCalls rest text
  end.

Fixpoint insert_row (r : MessageRow) (rows : list MessageRow) : list MessageRow :=
  match rows with
  | [] => [r]
  | x :: rest =>
      if (created_at r <? created_at x)%Z then r :: x :: rest
      else x :: insert_row r rest
  end.

(** Insertion sort on [created_at], later rows after earlier rows of the
    same key. *)
Definition stable_order_by (rows : list MessageRow) : list MessageRow :=
  fold_left (fun acc r => insert_row r acc) rows [].

Definition sample_world
    (clock : nat -> Z)
    (llm : nat -> ChatRequest -> Res Completion)
    (servers : option (list (string * option MCPServerInfo)))
    (call : string -> json -> Res json)
    (known : list (list ToolCall)) : World :=
  mkWorld sample_uuid clock llm
          (fun _ => Ok None) (fun _ => servers) (fun _ _ => call)
          sample_parse sample_stringify
          sample_stringify_toolCalls (sample_parse_toolCalls known)
          stable_order_by.

Definition steady_clock (n : nat) : Z := 1700000000000 + Z.of_nat n.

Definition completion_text (text : string) : Res Completion :=
  Ok (mkCompletion [mkChoiceMessage (Some text) None]).

Definition completion_calls (tcs : list ToolCall) : Res Completion :=
  Ok (mkCompletion [mkChoiceMessage None (Some tcs)]).

Definition search_call : ToolCall :=
  mkToolCall "call_1" "function" (mkToolCallFunction "search" "{}").

(** Offers tools: asks for [search_call] when tools are offered, answers
    in text when they are not. *)
Definition llm_with_tool (_ : nat) (req : ChatRequest) : Res Completion :=
  match req_tools req with
  | Some _ => completion_calls [search_call]
  | None => completion_text "Here is the design."
  end.

Definition stitch_server : MCPServerInfo :=
  mkMCPServerInfo (Some "ready")
    (Some [mkMCPTool "search" (Some "Search design resources") (JObj [])])
    (Some 0).

(** A world with the Stitch server ready, whose tool answers. *)
Definition world_tool_ok : World :=
  sample_world steady_clock llm_with_tool (Some [("Stitch", Some stitch_server)])
    (fun _ _ => Ok (JStr "found")) [[search_call]].

(** The same world with the tool failing. *)
Definition world_tool_fails : World :=
  sample_world steady_clock llm_with_tool (Some [("Stitch", Some stitch_server)])
    (fun _ _ => Throw (JsError "upstream timeout")) [[search_call]].

(** A world without tools whose completions are plain text. *)
Definition world_plain : World :=
  sample_world steady_clock (fun _ _ => completion_text "Use a single column.")
    None (fun _ _ => Ok JNull) [].

(** A world whose completion service is down. *)
Definition world_llm_down : World :=
  sample_world steady_clock (fun _ _ => Throw (JsError "503 Service Unavailable"))
    None (fun _ _ => Ok JNull) [].

(** A world whose completions carry no content at all. *)
Definition world_silent : World :=
  sample_world steady_clock
    (fun _ _ => Ok (mkCompletion [mkChoiceMessage None None]))
    None (fun _ _ => Ok JNull) [].

(** A world whose clock is set back five seconds while the first
    completion is under way (the request is made at tick 7). *)
Definition world_clock_back : World :=
  sample_world
    (fun n => if (n <? 7)%nat then 1700000005000 + Z.of_nat n
              else 1700000000000 + Z.of_nat n)%Z
    (fun _ _ => completion_text "Use a single column.")
    None (fun _ _ => Ok JNull) [].

(** A tool call whose id is the empty string. *)
Definition anonymous_call : ToolCall :=
  mkToolCall "" "function" (mkToolCallFunction "search" "{}").

(** A world whose first completion asks for [anonymous_call]. *)
Definition world_anonymous_call : World :=
  sample_world steady_clock
    (fun _ req => match req_tools req with
                  | Some _ => completion_calls [anonymous_call]
                  | None => completion_text "Here is the design."
                  end)
    (Some [("Stitch", Some stitch_server)])
    (fun _ _ => Ok (JStr "found")) [[anonymous_call]].

(** A world whose clock stands still. *)
Definition world_frozen_clock : World :=
  sample_world (fun _ => 1700000000000%Z) llm_with_tool
    (Some [("Stitch", Some stitch_server)])
    (fun _ _ => Ok (JStr "found")) [[search_call]].

(** A world without tool servers whose first completion asks for a tool
    all the same. *)
Definition world_no_servers : World :=
  sample_world steady_clock
    (fun n _ => if (n <? 10)%nat then completion_calls [search_call]
                else completion_text "Here is the design.")
    None (fun _ _ => Ok JNull) [[search_call]].

(** *** Sample runs *)

(** createThread() on a new agent, then two turns. *)
Definition two_turns (W : World) : Res (list ChatResult) * St :=
  chats W ["Design a login form"; "Make it darker"]
        (snd (createThread W None onStart_state)).

Definition frozen_reload : Res bool * St :=
  loadThread world_frozen_clock "id-0" (snd (two_turns world_frozen_clock)).

(** After the two turns the agent starts a second thread and has a turn
    there: its history is now that of the second thread. *)
Definition elsewhere : St :=
  snd (chat world_tool_ok "Something else"
         (snd (createThread world_tool_ok None (snd (two_turns world_tool_ok))))).

Definition results_of (run : Res (list ChatResult) * St) : list ChatResult :=
  match fst run with
  | Ok rs => rs
  | Throw _ => []
  end.

(** The first completion request and the events after it, for reading a
    sample trace. *)
Definition first_request_in (evs : list Event) : ChatRequest :=
  match evs with
  | EvCompletion req _ :: _ => req
  | _ => mkChatRequest "" [] None None
  end.

(** One turn on a new agent, in each of the worlds. *)
Definition failing_turn : Res ChatResult * St :=
  chat world_tool_fails "Design a login form" onStart_state.

Definition tool_turn : Res ChatResult * St :=
  chat world_tool_ok "Design a login form" onStart_state.

(** The message of the first completion of [tool_turn]. *)
Definition asks_for_search : ChoiceMessage :=
  mkChoiceMessage None (Some [search_call]).

Definition down_turn : Res ChatResult * St :=
  chat world_llm_down "Design a login form" onStart_state.

Definition silent_turn : Res ChatResult * St :=
  chat world_silent "Design a login form" onStart_state.

Definition silent_result : ChatResult := mkChatResult "" (Some "id-0").

(** A tool message that lost its call id. *)
Definition orphan_message : Message :=
  mkMessage "m-1" tool "stale result" None None 1699999999000.

(** A thread whose only stored message is [orphan_message]. *)
Definition orphan_state : St :=
  mkSt (mkAgentState (Some "t-1") UX_ARCHITECT_SYSTEM_PROMPT [orphan_message])
       false
       [row_of_message world_plain orphan_message "t-1"]
       [mkThread "t-1" None 1699999998000 1699999999000]
       0 [].

Definition orphan_turn : Res ChatResult * St :=
  chat world_plain "And the footer?" orphan_state.

(** The same thread in a world whose completion asks for a tool, so that
    the turn makes a follow-up request as well. *)
Definition orphan_tool_turn : Res ChatResult * St :=
  chat world_tool_ok "And the footer?" orphan_state.

(** The second completion request in a trace. *)
Definition followUp_request_in (evs : list Event) : ChatRequest :=
  first_request_in
    (filter (fun ev => match ev with EvCompletion _ _ => true | EvTool _ _ => false end)
            (tl evs)).

(** createThread(), one turn, then a reload, with the clock running
    backwards. *)
Definition back_turn : Res (list ChatResult) * St :=
  chats world_clock_back ["Design a login form"]
        (snd (createThread world_clock_back None onStart_state)).

Definition back_reload : Res bool * St :=
  loadThread world_clock_back "id-0" (snd back_turn).

Definition anonymous_turn : Res ChatResult * St :=
  chat world_anonymous_call "Design a login form" onStart_state.

Definition anonymous_reload : Res bool * St :=
  loadThread world_anonymous_call "id-0" (snd anonymous_turn).

(** A Worker with no agent used yet and an empty database. *)
Definition fresh_worker : Worker := mkWorker (fun _ => onStart_state) [] [] 100.

Definition login_request : ChatBody :=
  mkChatBody (Some "Design a login form") None.

(** ** Vocabulary of the further properties *)

(** A server that can serve [toolName] through client [c]: ready, with the
    tool in its list, and with a client. *)
Definition serves (toolName : string) (server : MCPServerInfo) (c : nat) : Prop :=
  state server = Some "ready" /\
  client server = Some c /\
  exists ts t, tools server = Some ts /\ In t ts /\ name t = toolName.


(** The ids of the D1 table [threads] (a NULL id is no id). *)
Definition d1_thread_ids (rows : list D1Thread) : list string :=
  flat_map (fun t => match d1t_id t with Some i => [i] | None => [] end) rows.

(** What the schema of the D1 database promises: thread ids and message ids
    are unique, and every message belongs to a stored thread. *)
Definition d1_consistent (w : Worker) : Prop :=
  NoDup (d1_thread_ids (DB_threads w)) /\
  NoDup (map d1m_id (DB_messages w)) /\
  forall m, In m (DB_messages w) ->
            In (d1m_thread_id m) (d1_thread_ids (DB_threads w)).

(** *** Further sample runs *)

(** The tool the Stitch server of the sample worlds advertises. *)
Definition search_tool : ChatTool :=
  mkChatTool "search" "Search design resources" (JObj []).

Definition login_thread : Res string * St :=
  createThread world_plain (Some "Login") onStart_state.

(** A turn with a tool call, the thread loaded again, and a second turn. *)
Definition tool_reload : Res bool * St :=
  loadThread world_tool_ok "id-0" (snd tool_turn).

Definition darker_turn : Res ChatResult * St :=
  chat world_tool_ok "Make it darker" (snd tool_reload).

Definition plain_turn : Res ChatResult * St :=
  chat world_plain "Design a login form" onStart_state.

Definition plain_result : ChatResult :=
  mkChatResult "Use a single column." (Some "id-0").

Definition tool_result : ChatResult :=
  mkChatResult "Here is the design." (Some "id-0").

Definition header_message : Message :=
  mkMessage "m-2" user "And the header?" None None 1700000000000.

Definition header_stored : Res unit * St :=
  persistMessage world_plain header_message orphan_state.

(** An engine that returns the rows in the order they are stored. *)
Definition as_stored {A : Type} (rows : list A) : list A := rows.

(** A chat message over the WebSocket with no text. *)
Definition chat_without_message : WsData :=
  mkWsData (Some "chat") None None None.

(** The Worker after one chat request, and after one thread was created. *)
Definition login_answer : Response * Worker :=
  api_chat world_plain (Ok login_request) fresh_worker.

Definition titled_thread : ApiResponse * Worker :=
  api_create_thread world_plain (Ok (Some "Login")) fresh_worker.

(** ** Stepping through monadic code *)

Lemma bind_ok {A B} (m : M A) (k : A -> M B) s a s' :
  m s = (Ok a, s') -> bind m k s = k a s'.
Proof. intros H. unfold bind. now rewrite H. Qed.

Lemma bind_throw {A B} (m : M A) (k : A -> M B) s e s' :
  m s = (Throw e, s') -> bind m k s = (Throw e, s').
Proof. intros H. unfold bind. now rewrite H. Qed.

Lemma bind_inv {A B} (m : M A) (k : A -> M B) s r s' :
  bind m k s = (r, s') ->
  (exists a s1, m s = (Ok a, s1) /\ k a s1 = (r, s')) \/
  (exists e, m s = (Throw e, s') /\ r = Throw e).
Proof.
  unfold bind. destruct (m s) as [[a|e] s1]; intros H.
  - left. now exists a, s1.
  - right. exists e. now inversion H.
Qed.

(** ** Well-formed agent states *)

Section Invariants.

Variable W : World.

Lemma wf_onStart :
  (forall i j, randomUUID W i = randomUUID W j -> i = j) -> wf W onStart_state.
Proof.
  intros Hinj. repeat split; cbn; intros; try tauto; try discriminate.
  now apply Hinj.
Qed.

Lemma delta_refl tid s : delta W tid [] [] s s.
Proof.
  unfold delta. cbn. rewrite !app_nil_r. repeat split; auto.
Qed.

Lemma delta_trans tid m1 e1 m2 e2 s s1 s2 :
  delta W tid m1 e1 s s1 -> delta W tid m2 e2 s1 s2 ->
  delta W tid (m1 ++ m2) (e1 ++ e2) s s2.
Proof.
  intros (A1 & A2 & A3 & A4 & A5 & A6 & A7 & A8)
         (B1 & B2 & B3 & B4 & B5 & B6 & B7 & B8).
  unfold delta. repeat split.
  - congruence.
  - congruence.
  - rewrite B3, A3. now rewrite app_assoc.
  - rewrite B4, A4, map_app. now rewrite app_assoc.
  - congruence.
  - rewrite B6, A6. now rewrite app_assoc.
  - lia.
  - apply Forall_app. split.
    + eapply Forall_impl; [|exact A8]. intros m (k & Hk & E). exists k. split; [lia|easy].
    + eapply Forall_impl; [|exact B8]. intros m (k & Hk & E). exists k. split; [lia|easy].
Qed.

Lemma row_id_row_of_message m tid : row_id (row_of_message W m tid) = m_id m.
Proof. reflexivity. Qed.

Lemma thread_id_row_of_message m tid : thread_id (row_of_message W m tid) = tid.
Proof. reflexivity. Qed.

Lemma delta_fresh tid msgs evs s s' :
  fresh_from W (tick s) s -> delta W tid msgs evs s s' -> fresh_from W (tick s') s'.
Proof.
  intros (F1 & F2 & F3) (A1 & A2 & A3 & A4 & A5 & A6 & A7 & A8).
  repeat split.
  - intros k Hk. rewrite A4, map_app, in_app_iff. intros [H|H].
    + apply (F1 k); [lia|exact H].
    + rewrite map_map in H. apply in_map_iff in H. destruct H as (m & E & Hm).
      rewrite row_id_row_of_message in E.
      rewrite Forall_forall in A8. destruct (A8 m Hm) as (j & Hj & Ej).
      rewrite Ej in E. apply F3 in E; lia.
  - intros k Hk. rewrite A5. apply F2. lia.
  - intros i j Hi Hj. apply F3; lia.
Qed.

Lemma delta_referential tid msgs evs s s' :
  referential s -> threadId (agent s) = Some tid ->
  delta W tid msgs evs s s' -> referential s'.
Proof.
  intros (R1 & R2) Ht (A1 & A2 & A3 & A4 & A5 & A6 & A7 & A8). split.
  - intros r. rewrite A4, A5, in_app_iff. intros [H|H]; [now apply R1|].
    apply in_map_iff in H. destruct H as (m & <- & _).
    rewrite thread_id_row_of_message. now apply R2.
  - intros i. rewrite A1, A5. apply R2.
Qed.

Lemma delta_wf tid msgs evs s s' :
  wf W s -> threadId (agent s) = Some tid -> delta W tid msgs evs s s' -> wf W s'.
Proof.
  intros [F R] Ht D. split.
  - eapply delta_fresh; eauto.
  - eapply delta_referential; eauto.
Qed.

Lemma quiet_delta tid s s' : quiet s s' -> delta W tid [] [] s s'.
Proof.
  intros (A & B & C & D & E). unfold delta. rewrite A, B, C, D. cbn.
  rewrite !app_nil_r. repeat split; auto.
Qed.

Lemma quiet_refl s : quiet s s.
Proof. repeat split; auto. Qed.

Lemma quiet_advance s : quiet s (advance s).
Proof. repeat split; cbn; auto. Qed.

Lemma quiet_trans s s1 s2 : quiet s s1 -> quiet s1 s2 -> quiet s s2.
Proof.
  intros (A & B & C & D & E) (A' & B' & C' & D' & E').
  repeat split; try congruence. lia.
Qed.

(** *** The operations that only consult the world *)

Lemma connectToStitch_quiet s :
  exists c s1, connectToStitch W s = (Ok c, s1) /\ quiet s s1.
Proof.
  unfold connectToStitch. destruct (mcpConnected s).
  - eexists _, _. split; [reflexivity|apply quiet_refl].
  - unfold try_catch, bind, this_addMcpServer, ret.
    destruct (addMcpServer W (tick s)) as [authUrl|e].
    + destruct (negb (truthy_opt authUrl));
        eexists _, _; (split; [reflexivity|]); repeat split; cbn; auto.
    + eexists _, _. split; [reflexivity|apply quiet_advance].
Qed.

Lemma connectToStitch_tick s c s1 :
  connectToStitch W s = (Ok c, s1) ->
  tick s1 = (if mcpConnected s then 0 else 1) + tick s.
Proof.
  unfold connectToStitch. destruct (mcpConnected s).
  - now intros [= _ <-].
  - unfold try_catch, bind, this_addMcpServer, ret.
    destruct (addMcpServer W (tick s)) as [authUrl|e].
    + destruct (negb (truthy_opt authUrl)); now intros [= _ <-].
    + now intros [= _ <-].
Qed.

Lemma getMcpTools_eq s :
  getMcpTools W s = (Ok (available_tools W (tick s)), advance s).
Proof.
  unfold getMcpTools, available_tools, bind, this_getMcpServers.
  now destruct (getMcpServers W (tick s)).
Qed.

Lemma find_and_call_quiet toolName args entries s :
  exists out s1, find_and_call W toolName args entries s = (out, s1) /\ quiet s s1.
Proof.
  induction entries as [|[key [server|]] rest IH]; cbn.
  - eexists _, _. split; [reflexivity|apply quiet_refl].
  - destruct (tools server) as [ts|]; [|exact IH].
    destruct (client server) as [c|]; [|exact IH].
    destruct (is_ready server && has_tool toolName ts); [|exact IH].
    eexists _, _. split; [reflexivity|apply quiet_advance].
  - exact IH.
Qed.

Lemma executeMcpTool_quiet toolName args s :
  exists out s1, executeMcpTool W toolName args s = (out, s1) /\ quiet s s1.
Proof.
  unfold executeMcpTool, bind, this_getMcpServers.
  destruct (getMcpServers W (tick s)) as [entries|].
  - destruct (find_and_call_quiet toolName args entries (advance s))
      as (out & s1 & E & Q).
    rewrite E. exists out, s1. split.
    + now destruct out.
    + eapply quiet_trans; [apply quiet_advance|exact Q].
  - eexists _, _. split; [reflexivity|apply quiet_advance].
Qed.

(** *** persistMessage *)

Lemma existsb_row_id_false i l :
  ~ In i (map row_id l) -> existsb (fun r => row_id r =? i) l = false.
Proof.
  induction l as [|r l IH]; cbn; intros H; [reflexivity|].
  destruct (String.eqb_spec (row_id r) i) as [E|E]; [tauto|].
  cbn. apply IH. tauto.
Qed.

Lemma existsb_t_id_false i l :
  ~ In i (map t_id l) -> existsb (fun r => t_id r =? i) l = false.
Proof.
  induction l as [|r l IH]; cbn; intros H; [reflexivity|].
  destruct (String.eqb_spec (t_id r) i) as [E|E]; [tauto|].
  cbn. apply IH. tauto.
Qed.

Lemma map_t_id_touch now tid l : map t_id (map (touch now tid) l) = map t_id l.
Proof.
  rewrite map_map. apply map_ext. intros t. unfold touch.
  destruct tid as [i|]; [|reflexivity]. now destruct (t_id t =? i).
Qed.

Lemma persistMessage_eq message tid s :
  threadId (agent s) = Some tid ->
  ~ In (m_id message) (map row_id (agent_messages s)) ->
  persistMessage W message s = (Ok tt, persisted W message tid s).
Proof.
  intros Ht Hfresh.
  unfold persistMessage, bind, get_agent, sql_insert_message. rewrite Ht.
  rewrite row_id_row_of_message, (existsb_row_id_false _ _ Hfresh).
  cbn. now rewrite Ht.
Qed.

Lemma pushed_delta m tid s :
  m_id m = randomUUID W (tick s) -> delta W tid [m] [] s (pushed W m tid s).
Proof.
  intros Hid. unfold delta, pushed, persisted. cbn.
  rewrite map_t_id_touch, app_nil_r. repeat split; auto; try lia.
  constructor; [|constructor]. exists (tick s). split; [lia|exact Hid].
Qed.

Lemma asked_delta tid ev s :
  delta W tid [] [ev] s (record ev (advance s)).
Proof.
  unfold delta. cbn. rewrite !app_nil_r. repeat split; auto.
Qed.

Lemma advance_delta tid s : delta W tid [] [] s (advance s).
Proof. apply quiet_delta, quiet_advance. Qed.

Lemma create_completion_eq req s :
  create_completion W req s =
  (chat_completions_create W (tick s) req,
   record (EvCompletion req (chat_completions_create W (tick s) req)) (advance s)).
Proof. reflexivity. Qed.

Lemma request_messages_eq a a' h h' :
  systemPrompt a = systemPrompt a' -> h = h' ->
  request_messages a h = request_messages a' h'.
Proof. unfold request_messages. now intros -> ->. Qed.

Lemma delta_thread tid msgs evs s s' :
  delta W tid msgs evs s s' -> threadId (agent s) = Some tid ->
  threadId (agent s') = Some tid.
Proof. intros (A & _) H. now rewrite A. Qed.

(** *** The shape of the messages a turn produces *)

Lemma invocation_quiet (tc : ToolCall) s :
  exists out s1,
    logged (EvTool tc)
      (bind (lift (JSON_parse W (fn_arguments (tc_function tc))))
            (fun args => executeMcpTool W (fn_name (tc_function tc)) args)) s
    = (out, s1) /\
    agent s1 = agent s /\ agent_messages s1 = agent_messages s /\
    agent_threads s1 = agent_threads s /\
    trace s1 = trace s ++ [EvTool tc out] /\ tick s <= tick s1.
Proof.
  unfold logged, bind, lift.
  destruct (JSON_parse W (fn_arguments (tc_function tc))) as [args|e].
  - destruct (executeMcpTool_quiet (fn_name (tc_function tc)) args s)
      as (out & s1 & E & (A & B & C & D & T)).
    rewrite E. exists out, (record (EvTool tc out) s1).
    split; [now destruct out|]. cbn. rewrite D. repeat split; auto.
  - eexists _, _. split; [reflexivity|]. cbn. repeat split; auto.
Qed.

Ltac run_monad :=
  cbv beta iota zeta delta
    [bind ret throw lift crypto_randomUUID now_ append_history get_agent
     setState advance];
  cbn [agent tick trace agent_messages agent_threads mcpConnected
       threadId systemPrompt conversationHistory fst snd m_id].

Lemma run_tool_call_spec tc tid s :
  threadId (agent s) = Some tid -> fresh_from W (tick s) s ->
  exists out m s1,
    run_tool_call W tc s = (Ok tt, s1) /\
    is_tool_msg W tc out m /\ delta W tid [m] [EvTool tc out] s s1.
Proof.
  intros Ht (F1 & F2 & F3). unfold run_tool_call, try_catch.
  destruct (invocation_quiet tc s) as (out & s1 & E & A & B & C & D & T).
  unfold bind at 1. rewrite E.
  assert (Hfresh : ~ In (randomUUID W (tick s1)) (map row_id (agent_messages s1))).
  { rewrite B. apply F1. exact T. }
  destruct out as [toolResult|e]; run_monad.
  - rewrite (persistMessage_eq _ tid); cbn; [|now rewrite A|exact Hfresh].
    exists (Ok toolResult),
      (mkMessage (randomUUID W (tick s1)) tool (JSON_stringify W toolResult) None
                 (Some (tc_id tc)) (Date_now W (S (tick s1)))).
    eexists. split; [reflexivity|]. split.
    + repeat split.
    + unfold delta, persisted. cbn.
      rewrite map_t_id_touch, A, B, C, D. repeat split; auto; try lia.
      constructor; [|constructor]. exists (tick s1). split; [lia|reflexivity].
  - rewrite (persistMessage_eq _ tid); cbn; [|now rewrite A|exact Hfresh].
    exists (Throw e),
      (mkMessage (randomUUID W (tick s1)) tool
                 (JSON_stringify W (error_payload e)) None
                 (Some (tc_id tc)) (Date_now W (S (tick s1)))).
    eexists. split; [reflexivity|]. split.
    + repeat split.
    + unfold delta, persisted. cbn.
      rewrite map_t_id_touch, A, B, C, D. repeat split; auto; try lia.
      constructor; [|constructor]. exists (tick s1). split; [lia|reflexivity].
Qed.

Lemma run_tool_calls_spec tcs tid : forall s,
  threadId (agent s) = Some tid -> fresh_from W (tick s) s ->
  exists evs ms s1,
    run_tool_calls W tcs s = (Ok tt, s1) /\
    tool_round W tcs evs ms /\ delta W tid ms evs s s1.
Proof.
  induction tcs as [|tc tcs IH]; intros s Ht F.
  - exists [], [], s. split; [reflexivity|]. split; [constructor|apply delta_refl].
  - destruct (run_tool_call_spec tc tid s Ht F) as (out & m & s1 & E & Hm & D).
    assert (Ht1 : threadId (agent s1) = Some tid).
    { destruct D as (D1 & _). now rewrite D1. }
    destruct (IH s1 Ht1 (delta_fresh _ _ _ _ _ F D)) as (evs & ms & s2 & E2 & R & D2).
    exists (EvTool tc out :: evs), (m :: ms), s2. split.
    + cbn. erewrite bind_ok by exact E. exact E2.
    + split; [now constructor|]. exact (delta_trans _ _ _ _ _ _ _ _ D D2).
Qed.

(** *** createThread *)

Lemma createThread_eq title s :
  wf W s -> createThread W title s = (Ok (randomUUID W (tick s)), created W title s).
Proof.
  intros ((F1 & F2 & F3) & R). unfold createThread. run_monad.
  unfold sql_insert_thread. cbn.
  rewrite (existsb_t_id_false _ _ (F2 _ (le_n _))). reflexivity.
Qed.

Lemma created_wf title s : wf W s -> wf W (created W title s).
Proof.
  intros ((F1 & F2 & F3) & (R1 & R2)). split; [repeat split|split]; cbn.
  - intros k Hk. apply F1. lia.
  - intros k Hk. rewrite map_app, in_app_iff. cbn. intros [H|[H|[]]].
    + apply (F2 k); [lia|exact H].
    + apply F3 in H; lia.
  - intros i j Hi Hj. apply F3; lia.
  - intros r Hr. rewrite map_app, in_app_iff. left. now apply R1.
  - intros i [= <-]. rewrite map_app, in_app_iff. right. now left.
Qed.

Lemma rows_of_thread_fresh s :
  wf W s -> rows_of_thread (randomUUID W (tick s)) (agent_messages s) = [].
Proof.
  intros ((F1 & F2 & F3) & (R1 & R2)). unfold rows_of_thread.
  assert (H : forall r, In r (agent_messages s) ->
                   (thread_id r =? randomUUID W (tick s)) = false).
  { intros r Hr. destruct (String.eqb_spec (thread_id r) (randomUUID W (tick s)))
      as [E|E]; [|reflexivity].
    exfalso. apply (F2 (tick s) (le_n _)). rewrite <- E. now apply R1. }
  clear F1 R1. revert H.
  induction (agent_messages s) as [|r l IH]; intros H; [reflexivity|]. cbn.
  rewrite (H r (or_introl eq_refl)). apply IH. intros r' Hr'. apply H. now right.
Qed.

(** *** The turn *)

Lemma turn_start_wf s : wf W s -> wf W (turn_start W s).
Proof.
  intros H. unfold turn_start. destruct (truthy_opt (threadId (agent s))); auto.
  now apply created_wf.
Qed.

Lemma turn_start_thread s : exists tid, threadId (agent (turn_start W s)) = Some tid.
Proof.
  unfold turn_start. destruct (threadId (agent s)) as [i|] eqn:E; cbn.
  - destruct (truthy i); cbn; eauto.
  - eauto.
Qed.

Lemma mcpConnected_turn_start s : mcpConnected (turn_start W s) = mcpConnected s.
Proof. unfold turn_start. now destruct (truthy_opt (threadId (agent s))). Qed.

(** The turn, step by step; the first request carries the tools
    [getMcpTools] returned. *)
Lemma chat_turn_tools userMessage s :
  wf W s ->
  exists r s' tid msgs evs,
    chat W userMessage s = (r, s') /\
    threadId (agent (turn_start W s)) = Some tid /\
    delta W tid msgs evs (turn_start W s) s' /\
    turn_shape W userMessage (agent (turn_start W s)) tid msgs evs r /\
    exists u r1 rest,
      is_user_msg userMessage u /\
      evs = EvCompletion
              (first_request_of (agent (turn_start W s)) u
                 (available_tools W (tools_tick W s))) r1 :: rest.
Proof.
  intros Hwf. unfold chat.
  set (rest := bind (connectToStitch W) _).
  assert (Hrest : forall s0 tid, wf W s0 -> threadId (agent s0) = Some tid ->
            exists r s' msgs evs,
              rest s0 = (r, s') /\ delta W tid msgs evs s0 s' /\
              turn_shape W userMessage (agent s0) tid msgs evs r /\
              exists u0 r0 rest0,
                is_user_msg userMessage u0 /\
                evs = EvCompletion
                        (first_request_of (agent s0) u0
                           (available_tools W
                              (S (S (S ((if mcpConnected s0 then 0 else 1) + tick s0))))))
                        r0 :: rest0).
  { clear s Hwf. intros s0 tid Hwf Ht. subst rest.
    destruct (connectToStitch_quiet s0) as (c & s1 & Ec & Q).
    erewrite bind_ok by exact Ec.
    run_monad.
    destruct Hwf as (F & R).
    pose proof (quiet_delta tid _ _ Q) as D1.
    pose proof (delta_fresh _ _ _ _ _ F D1) as F1.
    pose proof (delta_thread _ _ _ _ _ D1 Ht) as Ht1.
    set (u := mkMessage (randomUUID W (tick s1)) user userMessage None None
                        (Date_now W (S (tick s1)))).
    rewrite (persistMessage_eq u tid);
      [|exact Ht1|apply F1; apply le_n].
    change (persisted W u tid _) with (pushed W u tid s1).
    rewrite getMcpTools_eq, create_completion_eq.
    set (tools := available_tools W _).
    assert (Etools : tools =
              available_tools W
                (S (S (S ((if mcpConnected s0 then 0 else 1) + tick s0))))).
    { unfold tools. f_equal. cbn. now rewrite (connectToStitch_tick _ _ _ Ec). }
    set (req1 := first_request _ tools).
    assert (Ereq1 : req1 = first_request_of (agent s0) u tools).
    { unfold req1, first_request_of. f_equal. destruct D1 as (_ & P & H & _).
      apply request_messages_eq; [exact P|]. rewrite H. now rewrite app_nil_r. }
    set (r1 := chat_completions_create W _ req1).
    set (s2 := record (EvCompletion req1 r1) _).
    assert (D2 : delta W tid [u] [EvCompletion req1 r1] s0 s2).
    { exact (delta_trans _ _ _ _ _ _ _ _ D1
              (delta_trans _ _ _ _ _ _ _ _ (pushed_delta u tid s1 eq_refl)
                 (delta_trans _ _ _ _ _ _ _ _ (advance_delta tid _)
                    (asked_delta tid (EvCompletion req1 r1) _)))). }
    clearbody s2. clearbody r1. rewrite Ereq1 in *. clear Ereq1. clearbody req1.
    assert (Hu : is_user_msg userMessage u) by (repeat split).
    clearbody u tools. clear Ec c Q D1 F1 Ht1 s1 req1.
    assert (Hfin : forall sx msgs evs text,
      delta W tid msgs evs s0 sx ->
      exists f,
        is_final text f /\
        persistMessage W
          (mkMessage (randomUUID W (tick sx)) assistant text None None
                     (Date_now W (S (tick sx))))
          (mkSt (mkAgentState (threadId (agent sx)) (systemPrompt (agent sx))
                   (conversationHistory (agent sx) ++
                    [mkMessage (randomUUID W (tick sx)) assistant text None None
                               (Date_now W (S (tick sx)))]))
                (mcpConnected sx) (agent_messages sx) (agent_threads sx)
                (S (S (tick sx))) (trace sx))
        = (Ok tt, pushed W f tid sx) /\
        threadId (agent (pushed W f tid sx)) = Some tid /\
        delta W tid (msgs ++ [f]) evs s0 (pushed W f tid sx)).
    { intros sx msgs evs text D.
      exists (mkMessage (randomUUID W (tick sx)) assistant text None None
                        (Date_now W (S (tick sx)))).
      split; [repeat split|].
      pose proof (delta_thread _ _ _ _ _ D Ht) as Htx.
      pose proof (delta_fresh _ _ _ _ _ F D) as Fx.
      split; [|split].
      - rewrite (persistMessage_eq _ tid); [reflexivity|exact Htx|].
        apply Fx. apply le_n.
      - exact Htx.
      - rewrite <- (app_nil_r evs).
        eapply delta_trans; [exact D|]. now apply pushed_delta. }
    destruct r1 as [c1|e1].
    2:{ exists (Throw e1), s2, [u], [EvCompletion (first_request_of (agent s0) u tools) (Throw e1)].
        split; [reflexivity|]. split; [exact D2|].
        split; [now constructor|]. rewrite Etools. eexists _, _, _. split; [exact Hu|reflexivity]. }
    unfold first_choice at 1.
    destruct (choices c1) as [|m others] eqn:Ech.
    { cbv beta iota delta [throw].
      eexists _, s2, [u], [EvCompletion (first_request_of (agent s0) u tools) (Ok c1)].
      split; [reflexivity|]. split; [exact D2|].
      split; [|rewrite Etools; eexists _, _, _; split; [exact Hu|reflexivity]].
      constructor; [exact Hu|]. cbn. now rewrite Ech. }
    assert (Ech1 : choice_of (Ok c1) = Ok m) by (cbn; now rewrite Ech).
    cbv beta iota delta [ret].
    destruct (cm_tool_calls m) as [[|tc tcs]|] eqn:Etc.
    - (* an empty list of tool calls *)
      destruct (Hfin s2 _ _ (or_empty (cm_content m)) D2) as (f & Hf & E & Htf & Df).
      rewrite E. cbv beta iota.
      eexists _, _, _, _. split; [reflexivity|]. split; [exact Df|].
      split; [|rewrite Etools; eexists _, _, _; split; [exact Hu|reflexivity]].
      rewrite Htf. eapply turn_plain; eauto.
      unfold offered_calls. now rewrite Etc.
    - (* the tool branch *)
      set (a := mkMessage (randomUUID W (tick s2)) assistant
                  (or_empty (cm_content m)) (Some (tc :: tcs)) None
                  (Date_now W (S (tick s2)))).
      assert (Ha : is_assistant_calls (or_empty (cm_content m)) (offered_calls m) a).
      { unfold offered_calls. rewrite Etc.  repeat split. }
      assert (Hoff : offered_calls m <> []).
      { unfold offered_calls. now rewrite Etc. }
      assert (Eoff : tc :: tcs = offered_calls m).
      { unfold offered_calls. now rewrite Etc. }
      rewrite (persistMessage_eq a tid);
        [|exact (delta_thread _ _ _ _ _ D2 Ht)
         |apply (delta_fresh _ _ _ _ _ F D2); apply le_n].
      change (persisted W a tid _) with (pushed W a tid s2).
      assert (D3 : delta W tid ([u] ++ [a])
                     ([EvCompletion (first_request_of (agent s0) u tools) (Ok c1)] ++ [])
                     s0 (pushed W a tid s2)).
      { eapply delta_trans; [exact D2|]. now apply pushed_delta. }
      clearbody a. cbv beta iota.
      destruct (run_tool_calls_spec (tc :: tcs) tid (pushed W a tid s2)
                  (delta_thread _ _ _ _ _ D3 Ht) (delta_fresh _ _ _ _ _ F D3))
        as (tevs & tms & s4 & E4 & Round & D4).
      rewrite E4. cbv beta iota. rewrite create_completion_eq.
      pose proof (delta_trans _ _ _ _ _ _ _ _ D3 D4) as D34.
      set (req2 := followUp_request _).
      assert (Ereq2 : req2 = followUp_request_of (agent s0) (u :: a :: tms)).
      { unfold req2, followUp_request_of. f_equal.
        destruct D34 as (_ & P & H & _).
        apply request_messages_eq; [exact P|exact H]. }
      set (r2 := chat_completions_create W _ req2).
      set (s5 := record (EvCompletion req2 r2) _).
      assert (D5 : delta W tid (u :: a :: tms)
                (EvCompletion (first_request_of (agent s0) u tools) (Ok c1) ::
                 tevs ++ [EvCompletion req2 r2]) s0 s5).
      { pose proof (delta_trans _ _ _ _ _ _ _ _ D34
                      (asked_delta tid (EvCompletion req2 r2) s4)) as D.
        cbn in D. rewrite app_nil_r in D. exact D. }
      clearbody s5 r2. rewrite Ereq2 in *. clear Ereq2. clearbody req2.
      rewrite Eoff in Round.
      destruct r2 as [c2|e2].
      2:{ eexists _, s5, _, _. split; [reflexivity|]. split; [exact D5|].
          split; [|rewrite Etools; eexists _, _, _; split; [exact Hu|reflexivity]].
          eapply turn_tools_failed; eauto. }
      unfold first_choice at 1.
      destruct (choices c2) as [|m2 others2] eqn:Ech2.
      { cbv beta iota delta [throw].
        eexists _, s5, _, _. split; [reflexivity|]. split; [exact D5|].
        split; [|rewrite Etools; eexists _, _, _; split; [exact Hu|reflexivity]].
        eapply turn_tools_failed; eauto. cbn. now rewrite Ech2. }
      cbv beta iota delta [ret].
      destruct (Hfin s5 _ _ (or_empty (cm_content m2)) D5) as (f & Hf & E & Htf & Df).
      rewrite E. cbv beta iota.
      eexists _, _, _, _. split; [reflexivity|]. split; [exact Df|].
      split; [|rewrite Etools; eexists _, _, _; split; [exact Hu|reflexivity]].
      rewrite Htf. eapply turn_tools_done; eauto. cbn. now rewrite Ech2.
    - (* no tool calls *)
      destruct (Hfin s2 _ _ (or_empty (cm_content m)) D2) as (f & Hf & E & Htf & Df).
      rewrite E. cbv beta iota.
      eexists _, _, _, _. split; [reflexivity|]. split; [exact Df|].
      split; [|rewrite Etools; eexists _, _, _; split; [exact Hu|reflexivity]].
      rewrite Htf. eapply turn_plain; eauto.
      unfold offered_calls. now rewrite Etc. }
  clearbody rest.
  destruct (turn_start_thread s) as (tid & Ht).
  destruct (Hrest (turn_start W s) tid (turn_start_wf s Hwf) Ht)
    as (r & s' & msgs & evs & E & D & T & Hfirst).
  exists r, s', tid, msgs, evs. split; [|split; [exact Ht|split; [exact D|split; [exact T|]]]].
  - rewrite <- E. unfold turn_start, bind at 1, get_agent.
    destruct (truthy_opt (threadId (agent s))); cbn [negb].
    + reflexivity.
    + unfold bind. now rewrite (createThread_eq None s Hwf).
  - unfold tools_tick. now rewrite <- (mcpConnected_turn_start s).
Qed.

Lemma chat_turn userMessage s :
  wf W s ->
  exists r s' tid msgs evs,
    chat W userMessage s = (r, s') /\
    threadId (agent (turn_start W s)) = Some tid /\
    delta W tid msgs evs (turn_start W s) s' /\
    turn_shape W userMessage (agent (turn_start W s)) tid msgs evs r.
Proof.
  intros Hwf.
  destruct (chat_turn_tools userMessage s Hwf)
    as (r & s' & tid & msgs & evs & E & Ht & D & T & _).
  now exists r, s', tid, msgs, evs.
Qed.

Lemma chat_wf userMessage s r s' :
  wf W s -> chat W userMessage s = (r, s') -> wf W s'.
Proof.
  intros Hwf E.
  destruct (chat_turn userMessage s Hwf) as (r0 & s0 & tid & msgs & evs & E0 & Ht & D & _).
  rewrite E in E0. injection E0 as <- <-.
  exact (delta_wf _ _ _ _ _ (turn_start_wf s Hwf) Ht D).
Qed.

End Invariants.

(** ** History and store *)

Section Agreement.

Variable W : World.

Lemma rows_of_thread_app tid l1 l2 :
  rows_of_thread tid (l1 ++ l2) = rows_of_thread tid l1 ++ rows_of_thread tid l2.
Proof. apply filter_app. Qed.

Lemma rows_of_thread_own tid msgs :
  rows_of_thread tid (map (fun m => row_of_message W m tid) msgs) =
  map (fun m => row_of_message W m tid) msgs.
Proof.
  induction msgs as [|m msgs IH]; [reflexivity|].
  cbn. rewrite String.eqb_refl. f_equal. exact IH.
Qed.

Lemma delta_agrees tid msgs evs s s' :
  threadId (agent s) = Some tid -> agrees W s ->
  delta W tid msgs evs s s' -> agrees W s'.
Proof.
  intros Ht A (D1 & D2 & D3 & D4 & _) tid' Ht'.
  rewrite D1, Ht in Ht'. injection Ht' as <-.
  rewrite D4, D3, rows_of_thread_app, rows_of_thread_own, map_app.
  f_equal. now apply A.
Qed.

Lemma created_agrees title s : wf W s -> agrees W (created W title s).
Proof.
  intros Hwf tid [= <-]. cbn. now apply rows_of_thread_fresh.
Qed.

Lemma turn_start_agrees s : wf W s -> agrees W s -> agrees W (turn_start W s).
Proof.
  intros Hwf A. unfold turn_start.
  destruct (truthy_opt (threadId (agent s))); [exact A|].
  now apply created_agrees.
Qed.

Lemma chat_inv userMessage s r s' :
  wf W s -> chat W userMessage s = (r, s') ->
  exists tid msgs evs,
    threadId (agent (turn_start W s)) = Some tid /\
    delta W tid msgs evs (turn_start W s) s' /\
    turn_shape W userMessage (agent (turn_start W s)) tid msgs evs r.
Proof.
  intros Hwf E.
  destruct (chat_turn W userMessage s Hwf)
    as (r0 & s0 & tid & msgs & evs & E0 & Ht & D & T).
  rewrite E in E0. injection E0 as <- <-. now exists tid, msgs, evs.
Qed.

Lemma chat_agrees userMessage s r s' :
  wf W s -> agrees W s -> chat W userMessage s = (r, s') -> agrees W s'.
Proof.
  intros Hwf A E.
  destruct (chat_inv userMessage s r s' Hwf E) as (tid & msgs & evs & Ht & D & _).
  exact (delta_agrees tid msgs evs _ _ Ht (turn_start_agrees s Hwf A) D).
Qed.

Lemma chat_thread userMessage s r s' :
  wf W s -> chat W userMessage s = (r, s') ->
  (exists active, threadId (agent s') = Some active) /\
  (forall tid, threadId (agent s) = Some tid -> truthy tid = true ->
               threadId (agent s') = Some tid).
Proof.
  intros Hwf E.
  destruct (chat_inv userMessage s r s' Hwf E) as (tid & msgs & evs & Ht & D & _).
  split.
  - exists tid. exact (delta_thread W _ _ _ _ _ D Ht).
  - intros tid' Ht' Hy. destruct D as (D1 & _). rewrite D1.
    unfold turn_start. rewrite Ht'. cbn. now rewrite Hy.
Qed.

Lemma chats_invariant userMessages : forall s results s',
  wf W s -> agrees W s ->
  chats W userMessages s = (Ok results, s') ->
  wf W s' /\ agrees W s' /\
  (forall tid, threadId (agent s) = Some tid -> truthy tid = true ->
               threadId (agent s') = Some tid) /\
  ((exists a, threadId (agent s) = Some a) ->
   exists active, threadId (agent s') = Some active).
Proof.
  induction userMessages as [|userMessage rest IH]; intros s results s' Hwf A E.
  - cbn in E. injection E as <- <-. auto.
  - cbn in E. apply bind_inv in E.
    destruct E as [(r & s1 & E1 & E)|(e & _ & [=])].
    apply bind_inv in E. destruct E as [(rs & s2 & E2 & E)|(e & _ & [=])].
    injection E as <- <-.
    destruct (chat_thread userMessage s (Ok r) s1 Hwf E1) as (Hact & Hkeep).
    destruct (IH s1 rs s2 (chat_wf W userMessage s (Ok r) s1 Hwf E1)
                 (chat_agrees userMessage s (Ok r) s1 Hwf A E1) E2)
      as (Hwf2 & A2 & Hkeep2 & Hact2).
    split; [exact Hwf2|]. split; [exact A2|]. split.
    + intros tid Ht Hy. apply Hkeep2; auto.
    + intros _. apply Hact2. exact Hact.
Qed.

Lemma chats_firstn n : forall userMessages s results s',
  chats W userMessages s = (Ok results, s') ->
  exists rs sn, chats W (firstn n userMessages) s = (Ok rs, sn).
Proof.
  induction n as [|n IH]; intros userMessages s results s' E.
  - exists [], s. reflexivity.
  - destruct userMessages as [|userMessage rest]; [exists [], s; reflexivity|].
    cbn in E. apply bind_inv in E.
    destruct E as [(r & s1 & E1 & E)|(e & _ & [=])].
    apply bind_inv in E. destruct E as [(rs & s2 & E2 & E)|(e & _ & [=])].
    destruct (IH rest s1 rs s2 E2) as (rs' & sn & En).
    exists (r :: rs'), sn. cbn.
    erewrite bind_ok by exact E1. erewrite bind_ok by exact En. reflexivity.
Qed.

End Agreement.

(** C1. After createThread() and a sequence of successful chat() calls,
    at every point of the sequence (after the first [n] calls, for every
    [n]) the rows stored for the active thread are exactly the rows
    persistMessage writes for the messages of conversationHistory, in the
    same order; so the history is as long as the thread has stored
    messages.  The state is one whose ids come from randomUUID ([wf]). *)
Theorem history_agrees_with_store W title s0 tid s1 userMessages results s2 :
  wf W s0 ->
  createThread W title s0 = (Ok tid, s1) ->
  chats W userMessages s1 = (Ok results, s2) ->
  forall n, exists rs sn active,
    chats W (firstn n userMessages) s1 = (Ok rs, sn) /\
    threadId (agent sn) = Some active /\
    (truthy tid = true -> active = tid) /\
    rows_of_thread active (agent_messages sn) =
      map (fun m => row_of_message W m active) (conversationHistory (agent sn)) /\
    length (conversationHistory (agent sn)) =
      length (rows_of_thread active (agent_messages sn)).
Proof.
  intros Hwf Ec Eseq n.
  rewrite (createThread_eq W title s0 Hwf) in Ec. injection Ec as <- <-.
  destruct (chats_firstn W n userMessages _ _ _ Eseq) as (rs & sn & En).
  destruct (chats_invariant W (firstn n userMessages) (created W title s0) rs sn
              (created_wf W title s0 Hwf) (created_agrees W title s0 Hwf) En)
    as (_ & A & Hkeep & Hact).
  destruct Hact as (active & Ha); [now eexists|].
  exists rs, sn, active. split; [exact En|]. split; [exact Ha|]. split.
  - intros Hy. specialize (Hkeep _ eq_refl Hy). congruence.
  - rewrite (A active Ha). split; [reflexivity|]. now rewrite length_map.
Qed.

(** ** What one turn does *)

Section Turn.

Variable W : World.

Lemma turn_start_frame s :
  trace (turn_start W s) = trace s /\
  agent_messages (turn_start W s) = agent_messages s.
Proof.
  unfold turn_start. now destruct (truthy_opt (threadId (agent s))).
Qed.

(** The outcome of a turn, read off the final state. *)
Lemma chat_outcome userMessage s r s' :
  wf W s -> chat W userMessage s = (r, s') ->
  exists tid msgs evs,
    threadId (agent s') = Some tid /\
    conversationHistory (agent s') =
      conversationHistory (agent (turn_start W s)) ++ msgs /\
    agent_messages s' =
      agent_messages s ++ map (fun m => row_of_message W m tid) msgs /\
    trace s' = trace s ++ evs /\
    turn_shape W userMessage (agent (turn_start W s)) tid msgs evs r.
Proof.
  intros Hwf E.
  destruct (chat_inv W userMessage s r s' Hwf E) as (tid & msgs & evs & Ht & D & T).
  exists tid, msgs, evs.
  destruct (turn_start_frame s) as (Etr & Emsg).
  pose proof (delta_thread W _ _ _ _ _ D Ht) as Ht'.
  destruct D as (_ & _ & D3 & D4 & _ & D6 & _).
  rewrite Etr in D6. rewrite Emsg in D4. auto.
Qed.

Lemma tool_round_events tcs tevs tms :
  tool_round W tcs tevs tms ->
  Forall2 (fun tc ev => exists out, ev = EvTool tc out) tcs tevs.
Proof.
  induction 1; constructor; eauto.
Qed.

Lemma tool_round_messages tcs tevs tms :
  tool_round W tcs tevs tms ->
  Forall2 (fun tc t => role t = tool /\ toolCallId t = Some (tc_id tc)) tcs tms.
Proof.
  induction 1 as [|tc out m tcs evs ms (Hr & _ & _ & Hi) _ IH]; constructor; auto.
Qed.

Lemma tool_round_only_tools tcs tevs tms :
  tool_round W tcs tevs tms ->
  Forall (fun ev => exists tc out, ev = EvTool tc out) tevs.
Proof.
  induction 1; constructor; eauto.
Qed.

Lemma tool_round_roles tcs tevs tms :
  tool_round W tcs tevs tms -> Forall (fun t => role t = tool) tms.
Proof.
  induction 1 as [|tc out m tcs evs ms (Hr & _) _ IH]; constructor; auto.
Qed.

Lemma tool_round_length tcs tevs tms :
  tool_round W tcs tevs tms -> length tms = length tcs /\ length tevs = length tcs.
Proof.
  induction 1 as [|tc out m tcs evs ms _ _ (IH1 & IH2)]; cbn; auto.
Qed.

Lemma tool_round_failed tcs tevs tms tc e :
  tool_round W tcs tevs tms -> In (EvTool tc (Throw e)) tevs ->
  exists m, In m tms /\ is_tool_msg W tc (Throw e) m.
Proof.
  induction 1 as [|tc0 out m tcs evs ms Hm _ IH]; intros Hin; [destruct Hin|].
  destruct Hin as [[= -> ->]|Hin].
  - exists m. split; [now left|exact Hm].
  - destruct (IH Hin) as (m' & Hin' & Hm'). exists m'. split; [now right|exact Hm'].
Qed.

Lemma not_completion_in_round tcs tevs tms req r :
  tool_round W tcs tevs tms -> ~ In (EvCompletion req r) tevs.
Proof.
  intros R Hin. apply tool_round_only_tools in R.
  rewrite Forall_forall in R. destruct (R _ Hin) as (tc & out & [=]).
Qed.

End Turn.

Lemma answered_turn_returns W userMessage s r s' evs :
  wf W s ->
  chat W userMessage s = (r, s') ->
  trace s' = trace s ++ evs ->
  Forall answered evs ->
  exists result, r = Ok result /\ res_threadId result = threadId (agent s').
Proof.
  intros Hwf E Etr Hans.
  destruct (chat_outcome W userMessage s r s' Hwf E)
    as (tid & msgs & evs' & Ht & Eh & Em & Etr' & T).
  rewrite Etr in Etr'. apply app_inv_head in Etr'. subst evs'.
  destruct T as [u tools r1 e H1 H2 | u tools r1 m f H1 H2 H3 H4
                | u tools r1 m a tevs tms r2 e H1 H2 H3 H4 H5 H6
                | u tools r1 m a tevs tms r2 m2 f H1 H2 H3 H4 H5 H6 H7].
  - exfalso. inversion Hans as [|? ? Hm _]; subst.
    destruct Hm as (m & Hm). congruence.
  - eexists; split; [reflexivity|now rewrite Ht].
  - exfalso. inversion Hans as [|? ? _ Hrest]; subst.
    apply Forall_app in Hrest. destruct Hrest as (_ & Hlast).
    inversion Hlast as [|? ? Hm _]; subst.
    destruct Hm as (m' & Hm'). congruence.
  - eexists; split; [reflexivity|now rewrite Ht].
Qed.

Lemma or_null_nonempty x : x <> "" -> or_null (Some x) = Some x.
Proof.
  intros H. unfold or_null, truthy_opt, truthy.
  now destruct (String.eqb_spec x "").
Qed.

Lemma or_null_empty : or_null (Some "") = None.
Proof. reflexivity. Qed.

(** C2. Whatever the tools do, a turn whose completion requests are answered
    returns a result.  A tool invocation that fails with [e] (tool not
    found, provider error, unparsable arguments) leaves a tool message with
    content [{error: message}] and the failing call's id in the
    history, and the turn adds to the store a row for it: of that thread, of
    role tool, with the same payload as content and the call's id as
    tool_call_id (NULL when the id is the empty string).  Every call of the
    completion is still invoked and the follow-up completion is requested. *)
Theorem tool_failure_does_not_abort W userMessage s r s' evs :
  wf W s ->
  chat W userMessage s = (r, s') ->
  trace s' = trace s ++ evs ->
  Forall answered evs ->
  (exists result, r = Ok result /\ res_threadId result = threadId (agent s')) /\
  forall tc e, In (EvTool tc (Throw e)) evs ->
    exists tid m row added,
      threadId (agent s') = Some tid /\
      In m (conversationHistory (agent s')) /\
      In (row_of_message W m tid) (agent_messages s') /\
      role m = tool /\
      content m =
        JSON_stringify W
          (JObj [("error", JStr (error_message e "Tool execution failed"))]) /\
      toolCallId m = Some (tc_id tc) /\
      agent_messages s' = agent_messages s ++ added /\
      In row added /\
      row_id row = m_id m /\
      thread_id row = tid /\
      row_role row = tool /\
      row_content row =
        JSON_stringify W
          (JObj [("error", JStr (error_message e "Tool execution failed"))]) /\
      tool_calls row = None /\
      (tc_id tc <> "" -> tool_call_id row = Some (tc_id tc)) /\
      (tc_id tc = "" -> tool_call_id row = None) /\
      exists req1 c1 m1 tevs req2 c2,
        evs = EvCompletion req1 (Ok c1) :: tevs ++ [EvCompletion req2 (Ok c2)] /\
        choice_of (Ok c1) = Ok m1 /\
        Forall2 (fun call ev => exists out, ev = EvTool call out)
                (offered_calls m1) tevs.
Proof.
  intros Hwf E Etr Hans.
  split; [exact (answered_turn_returns W userMessage s r s' evs Hwf E Etr Hans)|].
  destruct (chat_outcome W userMessage s r s' Hwf E)
    as (tid & msgs & evs' & Ht & Eh & Em & Etr' & T).
  rewrite Etr in Etr'. apply app_inv_head in Etr'. subst evs'.
  intros tc e Hin.
  destruct T as [u tools r1 e1 H1 H2 | u tools r1 m f H1 H2 H3 H4
                | u tools r1 m a tevs tms r2 e2 H1 H2 H3 H4 H5 H6
                | u tools r1 m a tevs tms r2 m2 f H1 H2 H3 H4 H5 H6 H7].
  - destruct Hin as [[=]|[]].
  - destruct Hin as [[=]|[]].
  - exfalso. inversion Hans as [|? ? _ Hrest]; subst.
    apply Forall_app in Hrest. destruct Hrest as (_ & Hlast).
    inversion Hlast as [|? ? Hm _]; subst.
    destruct Hm as (m' & Hm'). congruence.
  - destruct Hin as [[=]|Hin]. apply in_app_iff in Hin.
    destruct Hin as [Hin|[[=]|[]]].
    destruct (tool_round_failed W _ _ _ tc e H5 Hin) as (t & Hint & (R1 & R2 & R3 & R4)).
    assert (Hmsgs : In t (u :: a :: tms ++ [f])).
    { right. right. apply in_app_iff. now left. }
    exists tid, t, (row_of_message W t tid),
      (map (fun m0 => row_of_message W m0 tid) (u :: a :: tms ++ [f])).
    split; [exact Ht|]. split.
    { rewrite Eh. apply in_app_iff. now right. }
    split.
    { rewrite Em. apply in_app_iff. right.
      apply (in_map (fun m0 => row_of_message W m0 tid)). exact Hmsgs. }
    split; [exact R1|]. split; [exact R2|]. split; [exact R4|].
    split; [exact Em|].
    split; [exact (in_map (fun m0 => row_of_message W m0 tid) _ _ Hmsgs)|].
    split; [reflexivity|]. split; [reflexivity|]. split; [exact R1|].
    split; [exact R2|].
    split; [cbn; now rewrite R3|].
    split; [intros Hne; cbn; rewrite R4; now apply or_null_nonempty|].
    split; [intros He; cbn; rewrite R4, He; reflexivity|].
    destruct r1 as [c1|e1]; [|discriminate].
    destruct r2 as [c2|e2]; [|discriminate].
    exists (first_request_of (agent (turn_start W s)) u tools), c1, m, tevs,
           (followUp_request_of (agent (turn_start W s)) (u :: a :: tms)), c2.
    split; [reflexivity|]. split; [exact H2|].
    exact (tool_round_events W _ _ _ H5).
Qed.

(** A turn whose first completion asks for tools, taken apart. *)
Lemma tool_branch_inv W userMessage s r s' req1 c1 m1 rest :
  wf W s ->
  chat W userMessage s = (r, s') ->
  trace s' = trace s ++ EvCompletion req1 (Ok c1) :: rest ->
  choice_of (Ok c1) = Ok m1 ->
  offered_calls m1 <> [] ->
  exists tid u a tevs tms r2 finals,
    threadId (agent s') = Some tid /\
    rest = tevs ++
           [EvCompletion
              (followUp_request_of (agent (turn_start W s)) (u :: a :: tms)) r2] /\
    is_user_msg userMessage u /\
    is_assistant_calls (or_empty (cm_content m1)) (offered_calls m1) a /\
    tool_round W (offered_calls m1) tevs tms /\
    conversationHistory (agent s') =
      conversationHistory (agent (turn_start W s)) ++ u :: a :: tms ++ finals /\
    agent_messages s' =
      agent_messages s ++
      map (fun m => row_of_message W m tid) (u :: a :: tms ++ finals) /\
    ((exists e, choice_of r2 = Throw e /\ r = Throw e /\ finals = []) \/
     (exists m2 f,
        choice_of r2 = Ok m2 /\ is_final (or_empty (cm_content m2)) f /\
        finals = [f] /\
        r = Ok (mkChatResult (or_empty (cm_content m2)) (Some tid)))).
Proof.
  intros Hwf E Etr Hc Hoff.
  destruct (chat_outcome W userMessage s r s' Hwf E)
    as (tid & msgs & evs' & Ht & Eh & Em & Etr' & T).
  rewrite Etr in Etr'. apply app_inv_head in Etr'. subst evs'.
  inversion T as [u tools r1 e H1 H2 | u tools r1 m f H1 H2 H3 H4
                 | u tools r1 m a tevs tms r2 e H1 H2 H3 H4 H5 H6
                 | u tools r1 m a tevs tms r2 m2 f H1 H2 H3 H4 H5 H6 H7];
    subst.
  - congruence.
  - assert (m = m1) by congruence. subst m. contradiction.
  - assert (m = m1) by congruence. subst m.
    exists tid, u, a, tevs, tms, r2, []. rewrite app_nil_r.
    repeat (split; [assumption || reflexivity|]).
    left. now exists e.
  - assert (m = m1) by congruence. subst m.
    exists tid, u, a, tevs, tms, r2, [f].
    repeat (split; [assumption || reflexivity|]).
    right. now exists m2, f.
Qed.


(** C4. A turn that enters the tool branch requests exactly one more
    completion, after the tool round; that request carries the history as
    extended by the assistant and tool messages, offers no tools and no
    tool choice.  When it answers, its text is the response the turn
    returns (the empty string when it has no text) and the content of the
    final assistant message, in the history and in the store; when it
    fails, the turn fails with the same error. *)
Theorem single_follow_up_without_tools W userMessage s r s' req1 c1 m1 rest :
  wf W s ->
  chat W userMessage s = (r, s') ->
  trace s' = trace s ++ EvCompletion req1 (Ok c1) :: rest ->
  choice_of (Ok c1) = Ok m1 ->
  offered_calls m1 <> [] ->
  exists tid tevs req2 r2 u a tms,
    rest = tevs ++ [EvCompletion req2 r2] /\
    Forall (fun ev => exists call out, ev = EvTool call out) tevs /\
    req_tools req2 = None /\
    tool_choice req2 = None /\
    messages req2 =
      request_messages (agent s')
        (conversationHistory (agent (turn_start W s)) ++ u :: a :: tms) /\
    toolCalls a = Some (offered_calls m1) /\
    Forall2 (fun call t => role t = tool /\ toolCallId t = Some (tc_id call))
            (offered_calls m1) tms /\
    r = match choice_of r2 with
        | Ok m2 => Ok (mkChatResult (or_empty (cm_content m2)) (Some tid))
        | Throw e => Throw e
        end /\
    (forall e, choice_of r2 = Throw e -> r = Throw e) /\
    (forall m2, choice_of r2 = Ok m2 ->
       exists result h f rows,
         r = Ok result /\
         res_threadId result = Some tid /\
         (forall text, cm_content m2 = Some text -> response result = text) /\
         (cm_content m2 = None -> response result = "") /\
         conversationHistory (agent s') = h ++ [f] /\
         role f = assistant /\
         content f = response result /\
         agent_messages s' = rows ++ [row_of_message W f tid] /\
         row_role (row_of_message W f tid) = assistant /\
         row_content (row_of_message W f tid) = response result).
Proof.
  intros Hwf E Etr Hc Hoff.
  destruct (tool_branch_inv W userMessage s r s' req1 c1 m1 rest Hwf E Etr Hc Hoff)
    as (tid & u & a & tevs & tms & r2 & finals & Ht & Erest & Hu & Ha & Round
        & Eh & Em & Hfin).
  exists tid, tevs,
    (followUp_request_of (agent (turn_start W s)) (u :: a :: tms)), r2, u, a, tms.
  split; [exact Erest|].
  split; [exact (tool_round_only_tools W _ _ _ Round)|].
  split; [reflexivity|]. split; [reflexivity|]. split.
  { cbn. apply request_messages_eq; [|reflexivity].
    destruct (chat_inv W userMessage s r s' Hwf E) as (? & ? & ? & _ & D & _).
    destruct D as (_ & D2 & _). now rewrite D2. }
  split; [apply Ha|].
  split; [exact (tool_round_messages W _ _ _ Round)|].
  destruct Hfin as [(e & Ec2 & -> & _)|(m2 & f & Ec2 & (F1 & F2 & _) & -> & ->)].
  - rewrite Ec2. split; [reflexivity|]. split; [now intros e0 [= <-]|].
    discriminate.
  - rewrite Ec2. split; [reflexivity|]. split; [discriminate|].
    intros m2' [= <-].
    exists (mkChatResult (or_empty (cm_content m2)) (Some tid)),
      (conversationHistory (agent (turn_start W s)) ++ u :: a :: tms), f,
      (agent_messages s ++ map (fun m => row_of_message W m tid) (u :: a :: tms)).
    split; [reflexivity|]. split; [reflexivity|].
    split; [now intros text ->|]. split; [now intros ->|].
    split.
    { rewrite Eh, <- app_assoc. reflexivity. }
    split; [exact F1|]. split; [exact F2|].
    split.
    { rewrite Em, <- app_assoc. f_equal.
      change (u :: a :: tms ++ [f]) with ((u :: a :: tms) ++ [f]).
      now rewrite map_app. }
    split; [exact F1|exact F2].
Qed.

Lemma rows_of_tool_messages W tms tid :
  Forall (fun t => role t = tool) tms ->
  Forall (fun row => row_role row = tool)
         (map (fun m => row_of_message W m tid) tms).
Proof.
  induction 1 as [|t tms Ht _ IH]; cbn; constructor; [exact Ht|exact IH].
Qed.

(** C5. When a completion request of the turn fails with [e], chat() throws
    [e]; the user message of the turn is in the history and in the store
    all the same: the first row the turn added is of the turn's thread, of
    role user, with the text the user sent as content.  Nothing was appended
    for the failed request: either the user message is the only addition
    (the first request failed), or the additions are the user message, the
    assistant message of the first, successful, completion, which carries
    its tool calls, and the tool messages (the follow-up failed). *)
Theorem llm_failure_keeps_user_message W userMessage s r s' evs req e :
  wf W s ->
  chat W userMessage s = (r, s') ->
  trace s' = trace s ++ evs ->
  In (EvCompletion req (Throw e)) evs ->
  r = Throw e /\
  exists tid u others urow orows,
    threadId (agent s') = Some tid /\
    is_user_msg userMessage u /\
    conversationHistory (agent s') =
      conversationHistory (agent (turn_start W s)) ++ u :: others /\
    agent_messages s' =
      agent_messages s ++ map (fun m => row_of_message W m tid) (u :: others) /\
    agent_messages s' = agent_messages s ++ urow :: orows /\
    row_id urow = m_id u /\
    thread_id urow = tid /\
    row_role urow = user /\
    row_content urow = userMessage /\
    tool_calls urow = None /\
    tool_call_id urow = None /\
    ((evs = [EvCompletion req (Throw e)] /\ others = [] /\ orows = []) \/
     (exists req1 c1 m1 tevs a tms arow trows,
        evs = EvCompletion req1 (Ok c1) :: tevs ++ [EvCompletion req (Throw e)] /\
        choice_of (Ok c1) = Ok m1 /\
        others = a :: tms /\
        is_assistant_calls (or_empty (cm_content m1)) (offered_calls m1) a /\
        Forall (fun t => role t = tool) tms /\
        orows = arow :: trows /\
        row_role arow = assistant /\
        tool_calls arow = Some (JSON_stringify_toolCalls W (offered_calls m1)) /\
        length trows = length (offered_calls m1) /\
        Forall (fun row => row_role row = tool) trows)).
Proof.
  intros Hwf E Etr Hin.
  destruct (chat_outcome W userMessage s r s' Hwf E)
    as (tid & msgs & evs' & Ht & Eh & Em & Etr' & T).
  rewrite Etr in Etr'. apply app_inv_head in Etr'. subst evs'.
  destruct T as [u tools r1 e1 H1 H2 | u tools r1 m f H1 H2 H3 H4
                | u tools r1 m a tevs tms r2 e2 H1 H2 H3 H4 H5 H6
                | u tools r1 m a tevs tms r2 m2 f H1 H2 H3 H4 H5 H6 H7].
  - destruct Hin as [[= <- ->]|[]]. cbn in H2. injection H2 as <-.
    split; [reflexivity|]. exists tid, u, [], (row_of_message W u tid), [].
    destruct H1 as (U1 & U2 & U3 & U4).
    split; [exact Ht|]. split; [repeat split; assumption|].
    split; [exact Eh|]. split; [exact Em|]. split; [exact Em|].
    split; [reflexivity|]. split; [reflexivity|]. split; [exact U1|].
    split; [exact U2|]. split; [cbn; now rewrite U3|].
    split; [cbn; now rewrite U4|]. left. auto.
  - destruct Hin as [[= <- ->]|[]]. discriminate.
  - destruct Hin as [[= <- ->]|Hin]; [discriminate|].
    apply in_app_iff in Hin. destruct Hin as [Hin|[[= <- ->]|[]]].
    { exfalso. exact (not_completion_in_round W _ _ _ _ _ H5 Hin). }
    cbn in H6. injection H6 as <-.
    split; [reflexivity|].
    exists tid, u, (a :: tms), (row_of_message W u tid),
      (map (fun m0 => row_of_message W m0 tid) (a :: tms)).
    pose proof H1 as (U1 & U2 & U3 & U4).
    split; [exact Ht|]. split; [exact H1|].
    split; [exact Eh|]. split; [exact Em|]. split; [exact Em|].
    split; [reflexivity|]. split; [reflexivity|]. split; [exact U1|].
    split; [exact U2|]. split; [cbn; now rewrite U3|].
    split; [cbn; now rewrite U4|]. right.
    destruct r1 as [c1|]; [|discriminate].
    exists (first_request_of (agent (turn_start W s)) u tools), c1, m, tevs, a, tms,
      (row_of_message W a tid), (map (fun m0 => row_of_message W m0 tid) tms).
    pose proof H4 as (A1 & A2 & A3 & A4).
    split; [reflexivity|]. split; [exact H2|]. split; [reflexivity|].
    split; [exact H4|]. split; [exact (tool_round_roles W _ _ _ H5)|].
    split; [reflexivity|]. split; [exact A1|].
    split; [cbn; now rewrite A3|].
    split.
    { rewrite length_map. exact (proj1 (tool_round_length W _ _ _ H5)). }
    exact (rows_of_tool_messages W tms tid (tool_round_roles W _ _ _ H5)).
  - destruct Hin as [[= <- ->]|Hin]; [discriminate|].
    apply in_app_iff in Hin. destruct Hin as [Hin|[[= <- ->]|[]]].
    { exfalso. exact (not_completion_in_round W _ _ _ _ _ H5 Hin). }
    discriminate.
Qed.

(** C10. The response of a successful turn is the content of the last
    completion of the turn with the empty string standing in for a null or
    missing content, whether that is the only completion or the follow-up;
    the final assistant message, in the history and in the store, carries
    that same string. *)
Theorem null_content_becomes_empty_string W userMessage s result s' evs :
  wf W s ->
  chat W userMessage s = (Ok result, s') ->
  trace s' = trace s ++ evs ->
  exists before req c m tid h f rows,
    evs = before ++ [EvCompletion req (Ok c)] /\
    choice_of (Ok c) = Ok m /\
    response result = or_empty (cm_content m) /\
    (cm_content m = None -> response result = "") /\
    threadId (agent s') = Some tid /\
    conversationHistory (agent s') = h ++ [f] /\
    agent_messages s' = rows ++ [row_of_message W f tid] /\
    role f = assistant /\
    content f = response result /\
    row_content (row_of_message W f tid) = response result.
Proof.
  intros Hwf E Etr.
  destruct (chat_outcome W userMessage s (Ok result) s' Hwf E)
    as (tid & msgs & evs' & Ht & Eh & Em & Etr' & T).
  rewrite Etr in Etr'. apply app_inv_head in Etr'. subst evs'.
  inversion T as [| u tools r1 m f H1 H2 H3 (F1 & F2 & _) |
                 | u tools r1 m a tevs tms r2 m2 f H1 H2 H3 H4 H5 H6 (F1 & F2 & _)];
    subst.
  - destruct r1 as [c|]; [|discriminate].
    exists [], (first_request_of (agent (turn_start W s)) u tools), c, m, tid,
      (conversationHistory (agent (turn_start W s)) ++ [u]), f,
      (agent_messages s ++ [row_of_message W u tid]).
    split; [reflexivity|]. split; [exact H2|]. split; [reflexivity|].
    split; [now intros ->|]. split; [exact Ht|]. split.
    { rewrite Eh. now rewrite <- app_assoc. }
    split; [rewrite Em; cbn; now rewrite <- app_assoc|]. auto.
  - destruct r2 as [c|]; [|discriminate].
    exists (EvCompletion (first_request_of (agent (turn_start W s)) u tools) r1 :: tevs),
      (followUp_request_of (agent (turn_start W s)) (u :: a :: tms)), c, m2, tid,
      (conversationHistory (agent (turn_start W s)) ++ u :: a :: tms), f,
      (agent_messages s ++ map (fun m0 => row_of_message W m0 tid) (u :: a :: tms)).
    split; [reflexivity|]. split; [exact H6|]. split; [reflexivity|].
    split; [now intros ->|]. split; [exact Ht|]. split.
    { rewrite Eh. rewrite <- app_assoc. reflexivity. }
    split; [|auto].
    rewrite Em. rewrite <- app_assoc. f_equal.
    change (u :: a :: tms ++ [f]) with ((u :: a :: tms) ++ [f]).
    now rewrite map_app.
Qed.

(** ** Loading a thread *)

Section Loading.

Variable W : World.

Lemma filter_thread_absent i l :
  ~ In i (map t_id l) -> filter (fun t => t_id t =? i) l = [].
Proof.
  induction l as [|t l IH]; cbn; intros H; [reflexivity|].
  destruct (String.eqb_spec (t_id t) i) as [E|E]; [tauto|]. apply IH. tauto.
Qed.

Lemma filter_thread_present i l :
  In i (map t_id l) -> filter (fun t => t_id t =? i) l <> [].
Proof.
  induction l as [|t l IH]; cbn; intros H; [destruct H|].
  destruct (String.eqb_spec (t_id t) i) as [E|E]; [discriminate|].
  apply IH. destruct H; [contradiction|assumption].
Qed.

Lemma loadThread_present threadId s :
  In threadId (map t_id (agent_threads s)) ->
  loadThread W threadId s =
  match map_rows W (order_by_created_at W
                      (rows_of_thread threadId (agent_messages s))) with
  | Ok history => (Ok true, loaded threadId history s)
  | Throw e => (Throw e, s)
  end.
Proof.
  intros Hin. unfold loadThread, bind, sql_select_thread, sql_select_messages, lift.
  destruct (filter (fun t => t_id t =? threadId) (agent_threads s)) as [|t l] eqn:E.
  - exfalso. exact (filter_thread_present _ _ Hin E).
  - cbn. now destruct (map_rows W _).
Qed.

Lemma or_null_id o : o <> Some "" -> or_null (or_null o) = o.
Proof.
  destruct o as [x|]; [|reflexivity]. intros H. unfold or_null. cbn.
  unfold truthy. destruct (String.eqb_spec x "") as [->|N]; cbn.
  - congruence.
  - unfold truthy. destruct (String.eqb_spec x ""); [contradiction|reflexivity].
Qed.

Lemma message_of_row_of_message m tid :
  toolCallId m <> Some "" -> calls_survive_json W m ->
  message_of_row W (row_of_message W m tid) = Ok m.
Proof.
  intros Hid Hjson. unfold message_of_row, row_of_message. cbn.
  rewrite (or_null_id _ Hid).
  destruct m as [i r c tcs tci t]. cbn in *.
  destruct tcs as [tcs|]; cbn; [|reflexivity].
  destruct (Hjson tcs eq_refl) as (Hne & Hparse).
  unfold truthy. destruct (String.eqb_spec (JSON_stringify_toolCalls W tcs) "");
    [contradiction|]. cbn. now rewrite Hparse.
Qed.

Lemma map_rows_of_messages msgs tid :
  Forall (fun m => toolCallId m <> Some "") msgs ->
  Forall (calls_survive_json W) msgs ->
  map_rows W (map (fun m => row_of_message W m tid) msgs) = Ok msgs.
Proof.
  induction msgs as [|m msgs IH]; intros H1 H2; [reflexivity|].
  inversion H1; subst. inversion H2; subst. cbn [map map_rows].
  rewrite message_of_row_of_message by assumption. now rewrite IH.
Qed.

Lemma Sorted_rows_of_messages msgs tid :
  Sorted earlier msgs ->
  Sorted earlier_row (map (fun m => row_of_message W m tid) msgs).
Proof.
  induction 1 as [|m msgs _ IH Hd]; cbn; constructor; [exact IH|].
  destruct Hd; cbn; constructor. assumption.
Qed.

End Loading.

(** C6. loadThread of an id that names no stored thread returns false and
    leaves the whole agent untouched: thread id, system prompt, history, and
    the tables. *)
Theorem loadThread_unknown_leaves_state W threadId s :
  ~ In threadId (map t_id (agent_threads s)) ->
  loadThread W threadId s = (Ok false, s).
Proof.
  intros H. unfold loadThread, bind, sql_select_thread.
  now rewrite (filter_thread_absent _ _ H).
Qed.

Lemma request_messages_orphan a before m after :
  role m = tool ->
  truthy_opt (toolCallId m) = false ->
  request_messages a (before ++ m :: after) =
  ParamPlain system (systemPrompt a) ::
    map project before ++ ParamPlain tool (content m) :: map project after.
Proof.
  intros Hr Hi. unfold request_messages. rewrite map_app. cbn [map].
  unfold project at 2. rewrite Hr, Hi. cbn.
  now destruct (toolCalls m).
Qed.

(** C7, as the code has it. A tool message whose toolCallId is null, missing
    or empty is not rejected.  In a turn on a thread whose history holds
    such a message, every request sent to the completion service, the first
    and the follow-up after a tool round alike, keeps the message at its
    place as a plain entry of role tool without a tool_call_id, followed by
    what the turn has appended; the message stays in the history, and the
    turn returns a result whenever its completion requests are answered. *)
Theorem orphan_tool_message_projected_plain
    W userMessage s r s' evs before m after :
  wf W s ->
  truthy_opt (threadId (agent s)) = true ->
  conversationHistory (agent s) = before ++ m :: after ->
  role m = tool ->
  truthy_opt (toolCallId m) = false ->
  chat W userMessage s = (r, s') ->
  trace s' = trace s ++ evs ->
  (exists req r1 others u,
     evs = EvCompletion req r1 :: others /\
     is_user_msg userMessage u /\
     messages req =
       ParamPlain system (systemPrompt (agent s)) ::
         map project before ++ ParamPlain tool (content m) ::
         map project (after ++ [u])) /\
  (forall req r0,
     In (EvCompletion req r0) evs ->
     exists u later,
       is_user_msg userMessage u /\
       messages req =
         ParamPlain system (systemPrompt (agent s)) ::
           map project before ++ ParamPlain tool (content m) ::
           map project (after ++ u :: later)) /\
  (exists appended,
     conversationHistory (agent s') = before ++ m :: after ++ appended) /\
  (Forall answered evs -> exists result, r = Ok result).
Proof.
  intros Hwf Hthread Hhist Hr Hi E Etr.
  destruct (chat_outcome W userMessage s r s' Hwf E)
    as (tid & msgs & evs' & Ht & Eh & Em & Etr' & T).
  rewrite Etr in Etr'. apply app_inv_head in Etr'. subst evs'.
  assert (Ea : agent (turn_start W s) = agent s).
  { unfold turn_start. now rewrite Hthread. }
  rewrite Ea in T, Eh.
  assert (Hproj : forall later,
            request_messages (agent s) (conversationHistory (agent s) ++ later) =
            ParamPlain system (systemPrompt (agent s)) ::
              map project before ++ ParamPlain tool (content m) ::
              map project (after ++ later)).
  { intros later. rewrite Hhist, <- app_assoc. cbn [app].
    now apply request_messages_orphan. }
  assert (Hreq : forall u tools,
            messages (first_request_of (agent s) u tools) =
            ParamPlain system (systemPrompt (agent s)) ::
              map project before ++ ParamPlain tool (content m) ::
              map project (after ++ [u])).
  { intros u tools. exact (Hproj [u]). }
  assert (Hreq2 : forall u others,
            messages (followUp_request_of (agent s) (u :: others)) =
            ParamPlain system (systemPrompt (agent s)) ::
              map project before ++ ParamPlain tool (content m) ::
              map project (after ++ u :: others)).
  { intros u others. exact (Hproj (u :: others)). }
  split; [|split; [|split]].
  - destruct T as [u tools r1 e H1 H2 | u tools r1 m0 f H1 H2 H3 H4
                  | u tools r1 m0 a tevs tms r2 e H1 H2 H3 H4 H5 H6
                  | u tools r1 m0 a tevs tms r2 m2 f H1 H2 H3 H4 H5 H6 H7];
      eexists _, r1, _, u; (split; [reflexivity|]); (split; [exact H1|]);
      apply Hreq.
  - intros req r0 Hin.
    destruct T as [u tools r1 e H1 H2 | u tools r1 m0 f H1 H2 H3 H4
                  | u tools r1 m0 a tevs tms r2 e H1 H2 H3 H4 H5 H6
                  | u tools r1 m0 a tevs tms r2 m2 f H1 H2 H3 H4 H5 H6 H7].
    + destruct Hin as [[= <- <-]|[]]. exists u, []. split; [exact H1|apply Hreq].
    + destruct Hin as [[= <- <-]|[]]. exists u, []. split; [exact H1|apply Hreq].
    + destruct Hin as [[= <- <-]|Hin]; [exists u, []; split; [exact H1|apply Hreq]|].
      apply in_app_iff in Hin. destruct Hin as [Hin|[[= <- <-]|[]]].
      { exfalso. exact (not_completion_in_round W _ _ _ _ _ H5 Hin). }
      exists u, (a :: tms). split; [exact H1|apply Hreq2].
    + destruct Hin as [[= <- <-]|Hin]; [exists u, []; split; [exact H1|apply Hreq]|].
      apply in_app_iff in Hin. destruct Hin as [Hin|[[= <- <-]|[]]].
      { exfalso. exact (not_completion_in_round W _ _ _ _ _ H5 Hin). }
      exists u, (a :: tms). split; [exact H1|apply Hreq2].
  - exists msgs. rewrite Eh, Hhist, <- app_assoc. reflexivity.
  - intros Hans.
    destruct (answered_turn_returns W userMessage s r s' evs Hwf E Etr Hans)
      as (result & Hres & _).
    now exists result.
Qed.

(** C8, as the code has it. After createThread() and successful chat() calls,
    loadThread of that thread rebuilds from the stored rows the very history
    that was appended, message by message and in order, whatever the agent
    has in memory by then: it may still be on the thread, or on another
    thread, with another history, as long as the thread and its rows are
    stored as the turns left them.  Rows of equal created_at stay in
    insertion order, the engine's ORDER BY being stable.  This holds
    provided the createdAt values never decrease along the history and no
    tool message carries an empty call id; the tool calls are taken to
    survive the trip through JSON. *)
Theorem loadThread_rebuilds_history W title s0 tid s1 userMessages results s2 :
  wf W s0 ->
  createThread W title s0 = (Ok tid, s1) ->
  chats W userMessages s1 = (Ok results, s2) ->
  keeps_insertion_order W ->
  Sorted earlier (conversationHistory (agent s2)) ->
  Forall (fun m => toolCallId m <> Some "") (conversationHistory (agent s2)) ->
  Forall (calls_survive_json W) (conversationHistory (agent s2)) ->
  exists active s3,
    threadId (agent s2) = Some active /\
    (truthy tid = true -> active = tid) /\
    loadThread W active s2 = (Ok true, s3) /\
    conversationHistory (agent s3) = conversationHistory (agent s2) /\
    forall s',
      In active (map t_id (agent_threads s')) ->
      rows_of_thread active (agent_messages s') =
        rows_of_thread active (agent_messages s2) ->
      exists s3',
        loadThread W active s' = (Ok true, s3') /\
        threadId (agent s3') = Some active /\
        conversationHistory (agent s3') = conversationHistory (agent s2) /\
        systemPrompt (agent s3') = systemPrompt (agent s') /\
        agent_messages s3' = agent_messages s' /\
        agent_threads s3' = agent_threads s'.
Proof.
  intros Hwf Ec Eseq Hengine Hsorted Hids Hjson.
  rewrite (createThread_eq W title s0 Hwf) in Ec. injection Ec as <- <-.
  destruct (chats_invariant W userMessages (created W title s0) results s2
              (created_wf W title s0 Hwf) (created_agrees W title s0 Hwf) Eseq)
    as (Hwf2 & A & Hkeep & Hact).
  destruct Hact as (active & Ha); [now eexists|].
  assert (Hrows : map_rows W (order_by_created_at W
                               (rows_of_thread active (agent_messages s2))) =
                  Ok (conversationHistory (agent s2))).
  { rewrite (A active Ha).
    rewrite (Hengine _ (Sorted_rows_of_messages W _ active Hsorted)).
    exact (map_rows_of_messages W _ active Hids Hjson). }
  exists active, (loaded active (conversationHistory (agent s2)) s2).
  split; [exact Ha|]. split.
  { intros Hy. specialize (Hkeep _ eq_refl Hy). congruence. }
  split.
  { destruct Hwf2 as (_ & (_ & R2)).
    rewrite (loadThread_present W active s2 (R2 _ Ha)). now rewrite Hrows. }
  split; [reflexivity|].
  intros s' Hin Hsame.
  exists (loaded active (conversationHistory (agent s2)) s').
  split.
  { rewrite (loadThread_present W active s' Hin). now rewrite Hsame, Hrows. }
  repeat split.
Qed.

(** ** The route *)

Lemma loadThread_absent W threadId s :
  ~ In threadId (map t_id (agent_threads s)) ->
  loadThread W threadId s = (Ok false, s).
Proof.
  intros Hin. unfold loadThread, bind, sql_select_thread.
  now rewrite (filter_thread_absent _ _ Hin).
Qed.

Lemma loaded_wf W tid history s :
  wf W s -> In tid (map t_id (agent_threads s)) -> wf W (loaded tid history s).
Proof.
  intros ((F1 & F2 & F3) & (R1 & R2)) Hin. split; [repeat split|split]; cbn; auto.
  now intros i [= <-].
Qed.

(** A thread load that does not throw leaves a well-formed state and asks
    nothing of the completion service or the tools. *)
Lemma loadThread_ok_wf W threadId s b s1 :
  wf W s -> loadThread W threadId s = (Ok b, s1) ->
  wf W s1 /\ trace s1 = trace s.
Proof.
  intros Hwf E.
  destruct (in_dec string_dec threadId (map t_id (agent_threads s))) as [Hin|Hin].
  - rewrite (loadThread_present W threadId s Hin) in E.
    destruct (map_rows W _) as [history|e]; [|discriminate].
    injection E as _ <-. split; [now apply loaded_wf|reflexivity].
  - rewrite (loadThread_absent W threadId s Hin) in E.
    injection E as _ <-. now split.
Qed.

(** The turn behind a request returns a result, with a thread id, when the
    thread load does not throw and the completion requests are answered. *)
Lemma turn_of_request_returns W body w evs :
  wf W (UX_ARCHITECT_AGENT w (agent_of_request W body w)) ->
  (forall tid e,
     fst (loadThread W tid (UX_ARCHITECT_AGENT w (agent_of_request W body w)))
     <> Throw e) ->
  trace (snd (turn_of_request W body w)) =
    trace (UX_ARCHITECT_AGENT w (agent_of_request W body w)) ++ evs ->
  Forall answered evs ->
  exists result tid st',
    turn_of_request W body w = (Ok result, st') /\
    res_threadId result = Some tid.
Proof.
  unfold turn_of_request.
  set (st := UX_ARCHITECT_AGENT w (agent_of_request W body w)).
  intros Hwf Hload Etr Hans.
  assert (Hchat : forall s0, wf W s0 -> trace s0 = trace st ->
            trace (snd (chat W (or_empty (body_message body)) s0)) = trace st ++ evs ->
            exists result tid st',
              chat W (or_empty (body_message body)) s0 = (Ok result, st') /\
              res_threadId result = Some tid).
  { intros s0 Hwf0 Etr0 Etr1.
    destruct (chat W (or_empty (body_message body)) s0) as [r st'] eqn:Ec.
    cbn [snd] in Etr1. rewrite <- Etr0 in Etr1.
    destruct (answered_turn_returns W _ s0 r st' evs Hwf0 Ec Etr1 Hans)
      as (result & -> & Hres).
    destruct (chat_outcome W _ s0 _ st' Hwf0 Ec) as (tid & _ & _ & Ht & _).
    exists result, tid, st'. split; [reflexivity|]. now rewrite Hres. }
  unfold onRequest_chat in *. unfold bind at 1 in Etr. unfold bind at 1.
  destruct (truthy_opt (body_threadId body)).
  - unfold bind at 1 in Etr. unfold bind at 1.
    specialize (Hload (or_empty (body_threadId body))).
    destruct (loadThread W (or_empty (body_threadId body)) st) as [[b|e] s1] eqn:El.
    + destruct (loadThread_ok_wf W _ st b s1 Hwf El) as (Hwf1 & Etr1).
      cbn in Etr |- *. exact (Hchat s1 Hwf1 Etr1 Etr).
    + exfalso. exact (Hload e eq_refl).
  - cbn in Etr |- *. exact (Hchat st Hwf eq_refl Etr).
Qed.

Lemma existsb_d1m_id_false i rows :
  ~ In i (map d1m_id rows) -> existsb (fun m => d1m_id m =? i) rows = false.
Proof.
  induction rows as [|m rows IH]; cbn; intros H; [reflexivity|].
  destruct (String.eqb_spec (d1m_id m) i) as [E|E]; [tauto|].
  cbn. apply IH. tauto.
Qed.

Lemma d1_upsert_thread_present tid now rows :
  existsb (fun th => opt_string_eqb (d1t_id th) (Some tid))
          (d1_upsert_thread (Some tid) now rows) = true.
Proof.
  unfold d1_upsert_thread.
  destruct (existsb (fun t => opt_string_eqb (d1t_id t) (Some tid)) rows) eqn:E.
  - induction rows as [|t rows IH]; cbn in *; [discriminate|].
    destruct (opt_string_eqb (d1t_id t) (Some tid)) eqn:Et; cbn.
    + now rewrite Et.
    + rewrite Et. cbn. apply IH. exact E.
  - rewrite existsb_app. cbn. rewrite String.eqb_refl. now rewrite orb_true_r.
Qed.

(** A completed turn reaches the caller when D1 takes the two rows. *)
Lemma api_chat_completed W body w result st' tid :
  truthy_opt (body_message body) = true ->
  turn_of_request W body w = (Ok result, st') ->
  res_threadId result = Some tid ->
  d1_ids_fresh W body w ->
  fst (api_chat W (Ok body) w) = JsonChat result.
Proof.
  unfold api_chat, turn_of_request, agent_of_request, d1_ids_fresh, route_tick.
  intros Hm Hturn Htid (F1 & F2 & F3). rewrite Hm. cbn [negb].
  destruct (truthy_opt (body_threadId body)); rewrite Hturn, Htid;
    unfold d1_insert_message;
    rewrite (existsb_d1m_id_false _ _ F1), d1_upsert_thread_present;
    rewrite existsb_app, (existsb_d1m_id_false _ _ F2);
    cbn [existsb d1m_id orb];
    (match goal with
     | |- context [(?a =? ?b)%string] =>
         destruct (String.eqb_spec a b) as [Eq|Eq]; [contradiction|]
     end);
    reflexivity.
Qed.

(** C9. With an empty or missing message the route answers with a 400 error
    and touches nothing.  With a message it hands the turn to the agent and
    answers with the turn's {response, threadId}, the threadId being a
    string, whenever the turn goes through: the stored thread, if one is
    named, loads, the completion requests are answered and D1 takes the two
    rows.  It has no other answers than that result and the 500 error it
    gives when the turn fails. *)
Theorem api_chat_requires_message W body w :
  (truthy_opt (body_message body) = false ->
   api_chat W (Ok body) w = (JsonError 400 "Message is required", w)) /\
  (truthy_opt (body_message body) = true ->
   (forall e, fst (turn_of_request W body w) = Throw e ->
      fst (api_chat W (Ok body) w) = JsonError 500 "Failed to process chat message") /\
   (forall result, fst (api_chat W (Ok body) w) = JsonChat result ->
      fst (turn_of_request W body w) = Ok result) /\
   (forall status text, fst (api_chat W (Ok body) w) = JsonError status text ->
      status = 500 /\ text = "Failed to process chat message")) /\
  (truthy_opt (body_message body) = true ->
   wf W (UX_ARCHITECT_AGENT w (agent_of_request W body w)) ->
   (forall tid e,
      fst (loadThread W tid (UX_ARCHITECT_AGENT w (agent_of_request W body w)))
      <> Throw e) ->
   d1_ids_fresh W body w ->
   forall evs,
     trace (snd (turn_of_request W body w)) =
       trace (UX_ARCHITECT_AGENT w (agent_of_request W body w)) ++ evs ->
     Forall answered evs ->
     exists result tid,
       fst (api_chat W (Ok body) w) = JsonChat result /\
       res_threadId result = Some tid /\
       fst (turn_of_request W body w) = Ok result).
Proof.
  split; [|split].
  3:{ intros Hm Hwf Hload Hfresh evs Etr Hans.
      destruct (turn_of_request_returns W body w evs Hwf Hload Etr Hans)
        as (result & tid & st' & Hturn & Htid).
      exists result, tid.
      split; [exact (api_chat_completed W body w result st' tid Hm Hturn Htid Hfresh)|].
      split; [exact Htid|]. now rewrite Hturn. }
  - intros H. unfold api_chat. now rewrite H.
  - intros H. unfold api_chat, turn_of_request, agent_of_request. rewrite H. cbn [negb].
    destruct (truthy_opt (body_threadId body));
      match goal with
      | |- context [onRequest_chat ?a ?b ?c ?d] =>
          destruct (onRequest_chat a b c d) as [[result|e0] st]
      end; cbn [fst];
      try (repeat split; intros; try discriminate;
           match goal with
           | H : FAILED = JsonError _ _ |- _ => now inversion H
           end);
      (destruct (d1_insert_message _ _ _ _ _ _ (DB_messages w)) as [rows1|e1];
       [destruct (d1_insert_message _ _ _ _ _ _ rows1) as [rows2|e2]|]);
      cbn [fst]; repeat split; intros; try discriminate; try congruence;
      match goal with
      | H : FAILED = JsonError _ _ |- _ => now inversion H
      end.
Qed.

(** ** Sample runs *)

Lemma sample_uuid_inj i j : sample_uuid i = sample_uuid j -> i = j.
Proof.
  unfold sample_uuid. cbn. intros [= H].
  apply Unsigned.to_uint_inj.
  assert (E : Some (Nat.to_uint i) = Some (Nat.to_uint j)).
  { rewrite <- !NilEmpty.usu. now rewrite H. }
  now injection E.
Qed.

Lemma wf_sample clock llm servers call known :
  wf (sample_world clock llm servers call known) onStart_state.
Proof. apply wf_onStart. exact sample_uuid_inj. Qed.

Lemma insert_row_last r rows :
  Forall (fun x => earlier_row x r) rows -> insert_row r rows = rows ++ [r].
Proof.
  induction 1 as [|x rows Hx _ IH]; [reflexivity|]. cbn.
  unfold earlier_row in Hx.
  destruct (Z.ltb_spec (created_at r) (created_at x)); [lia|]. now rewrite IH.
Qed.

Lemma StronglySorted_before acc r rest :
  StronglySorted earlier_row (acc ++ r :: rest) ->
  Forall (fun x => earlier_row x r) acc.
Proof.
  induction acc as [|x acc IH]; cbn; intros H; [constructor|].
  inversion H as [|? ? Hs Hf]; subst. constructor.
  - rewrite Forall_forall in Hf. apply Hf. apply in_app_iff. right. now left.
  - now apply IH.
Qed.

Lemma stable_fold rows : forall acc,
  StronglySorted earlier_row (acc ++ rows) ->
  fold_left (fun a r => insert_row r a) rows acc = acc ++ rows.
Proof.
  induction rows as [|r rows IH]; intros acc H; cbn.
  - now rewrite app_nil_r.
  - rewrite (insert_row_last r acc (StronglySorted_before acc r rows H)).
    rewrite IH; rewrite <- app_assoc; [reflexivity|exact H].
Qed.

Lemma stable_order_by_keeps clock llm servers call known :
  keeps_insertion_order (sample_world clock llm servers call known).
Proof.
  intros rows H. cbn. unfold stable_order_by. apply (stable_fold rows []).
  cbn. apply Sorted_StronglySorted; [|exact H].
  intros a b c. unfold earlier_row. lia.
Qed.

Lemma history_agrees_with_store_witness :
  exists rs sn active,
    chats world_tool_ok (firstn 2 ["Design a login form"; "Make it darker"])
          (created world_tool_ok None onStart_state) = (Ok rs, sn) /\
    threadId (agent sn) = Some active /\
    (truthy "id-0" = true -> active = "id-0") /\
    rows_of_thread active (agent_messages sn) =
      map (fun m => row_of_message world_tool_ok m active)
          (conversationHistory (agent sn)) /\
    length (conversationHistory (agent sn)) =
      length (rows_of_thread active (agent_messages sn)).
Proof.
  apply (history_agrees_with_store world_tool_ok None onStart_state "id-0"
           (created world_tool_ok None onStart_state)
           ["Design a login form"; "Make it darker"]
           (results_of (two_turns world_tool_ok))
           (snd (two_turns world_tool_ok))).
  - apply wf_sample.
  - vm_compute. reflexivity.
  - vm_compute. reflexivity.
Defined.

Lemma tool_failure_does_not_abort_witness :
  exists result m row added,
    fst failing_turn = Ok result /\
    In m (conversationHistory (agent (snd failing_turn))) /\
    role m = tool /\
    content m = sample_stringify (JObj [("error", JStr "upstream timeout")]) /\
    toolCallId m = Some "call_1" /\
    agent_messages (snd failing_turn) = agent_messages onStart_state ++ added /\
    In row added /\
    row_role row = tool /\
    row_content row = sample_stringify (JObj [("error", JStr "upstream timeout")]) /\
    tool_call_id row = Some "call_1".
Proof.
  destruct (tool_failure_does_not_abort world_tool_fails "Design a login form"
              onStart_state (fst failing_turn) (snd failing_turn)
              (trace (snd failing_turn)))
    as ((result & Hr & _) & Hfail).
  - apply wf_sample.
  - vm_compute. reflexivity.
  - vm_compute. reflexivity.
  - vm_compute. repeat constructor; eexists; reflexivity.
  - destruct (Hfail search_call (JsError "upstream timeout"))
      as (tid & m & row & added & _ & Hin & _ & Hrole & Hcontent & Hid & Hadded
          & Hrow & _ & _ & Hrrole & Hrcontent & _ & Hrid & _).
    + vm_compute. right. left. reflexivity.
    + exists result, m, row, added.
      split; [exact Hr|]. split; [exact Hin|]. split; [exact Hrole|].
      split; [exact Hcontent|]. split; [exact Hid|]. split; [exact Hadded|].
      split; [exact Hrow|]. split; [exact Hrrole|]. split; [exact Hrcontent|].
      apply Hrid. discriminate.
Defined.


Lemma single_follow_up_without_tools_witness :
  exists tevs req2 r2 result,
    tl (trace (snd tool_turn)) = tevs ++ [EvCompletion req2 r2] /\
    Forall (fun ev => exists call out, ev = EvTool call out) tevs /\
    req_tools req2 = None /\
    tool_choice req2 = None /\
    r2 = completion_text "Here is the design." /\
    fst tool_turn = Ok result /\
    response result = "Here is the design.".
Proof.
  destruct (single_follow_up_without_tools world_tool_ok "Design a login form"
              onStart_state (fst tool_turn) (snd tool_turn)
              (first_request_in (trace (snd tool_turn)))
              (mkCompletion [asks_for_search]) asks_for_search
              (tl (trace (snd tool_turn))))
    as (tid & tevs & req2 & r2 & u & a & tms & Hrest & Honly & Htools & Hchoice
        & _ & _ & _ & _ & _ & Hanswer).
  - apply wf_sample.
  - vm_compute. reflexivity.
  - vm_compute. reflexivity.
  - vm_compute. reflexivity.
  - vm_compute. discriminate.
  - assert (Hlast : tl (trace (snd tool_turn)) =
                    [EvTool search_call (Ok (JStr "found"))] ++
                    [EvCompletion
                       (first_request_in (tl (tl (trace (snd tool_turn)))))
                       (completion_text "Here is the design.")])
      by (vm_compute; reflexivity).
    pose proof Hrest as Hsame. rewrite Hlast in Hsame.
    apply app_inj_tail in Hsame. destruct Hsame as (_ & Hev).
    assert (Hr2 : r2 = completion_text "Here is the design.") by congruence.
    destruct (Hanswer (mkChoiceMessage (Some "Here is the design.") None))
      as (result & h & f & rows & Hres & _ & Htext & _).
    + rewrite Hr2. reflexivity.
    + exists tevs, req2, r2, result.
      split; [exact Hrest|]. split; [exact Honly|]. split; [exact Htools|].
      split; [exact Hchoice|]. split; [exact Hr2|]. split; [exact Hres|].
      now apply Htext.
Defined.

Lemma llm_failure_keeps_user_message_witness :
  fst down_turn = Throw (JsError "503 Service Unavailable") /\
  exists tid u others urow orows,
    threadId (agent (snd down_turn)) = Some tid /\
    is_user_msg "Design a login form" u /\
    agent_messages (snd down_turn) =
      agent_messages onStart_state ++
      map (fun m => row_of_message world_llm_down m tid) (u :: others) /\
    agent_messages (snd down_turn) = agent_messages onStart_state ++ urow :: orows /\
    thread_id urow = tid /\
    row_role urow = user /\
    row_content urow = "Design a login form".
Proof.
  destruct (llm_failure_keeps_user_message world_llm_down "Design a login form"
              onStart_state (fst down_turn) (snd down_turn)
              (trace (snd down_turn))
              (first_request_in (trace (snd down_turn)))
              (JsError "503 Service Unavailable"))
    as (Hr & tid & u & others & urow & orows & Ht & Hu & Hh & Hm & Hrows & _
        & Hthread & Hrole & Hcontent & _).
  - apply wf_sample.
  - vm_compute. reflexivity.
  - vm_compute. reflexivity.
  - vm_compute. left. reflexivity.
  - split; [exact Hr|]. exists tid, u, others, urow, orows.
    split; [exact Ht|]. split; [exact Hu|]. split; [exact Hm|].
    split; [exact Hrows|]. split; [exact Hthread|]. split; [exact Hrole|exact Hcontent].
Defined.

Lemma null_content_becomes_empty_string_witness :
  response silent_result = "" /\
  exists h f,
    conversationHistory (agent (snd silent_turn)) = h ++ [f] /\
    role f = assistant /\ content f = response silent_result.
Proof.
  destruct (null_content_becomes_empty_string world_silent "Design a login form"
              onStart_state silent_result (snd silent_turn)
              (trace (snd silent_turn)))
    as (before & req & c & m & tid & h & f & rows & _ & _ & _ & _ & _ & Hh & _
        & Hrole & Hcontent & _).
  - apply wf_sample.
  - vm_compute. reflexivity.
  - vm_compute. reflexivity.
  - split; [reflexivity|]. exists h, f.
    split; [exact Hh|]. split; [exact Hrole|exact Hcontent].
Defined.

Lemma loadThread_unknown_leaves_state_witness :
  loadThread world_tool_ok "unknown-id" (snd tool_turn) = (Ok false, snd tool_turn).
Proof.
  apply (loadThread_unknown_leaves_state world_tool_ok "unknown-id" (snd tool_turn)).
  vm_compute. intros [H|[]]. discriminate.
Defined.

(** *** A tool message without a call id *)

(** C7 fails on the code: the history holds a tool message with no
    toolCallId, the turn completes, and the request carried the message as a
    plain entry of role tool; so did both requests of a turn with a tool
    round. *)
Lemma orphan_tool_message_not_rejected :
  role orphan_message = tool /\
  toolCallId orphan_message = None /\
  In orphan_message (conversationHistory (agent orphan_state)) /\
  fst orphan_turn = Ok (mkChatResult "Use a single column." (Some "t-1")) /\
  messages (first_request_in (trace (snd orphan_turn))) =
    [ParamPlain system UX_ARCHITECT_SYSTEM_PROMPT;
     ParamPlain tool "stale result";
     ParamPlain user "And the footer?"] /\
  fst orphan_tool_turn = Ok (mkChatResult "Here is the design." (Some "t-1")) /\
  messages (first_request_in (trace (snd orphan_tool_turn))) =
    [ParamPlain system UX_ARCHITECT_SYSTEM_PROMPT;
     ParamPlain tool "stale result";
     ParamPlain user "And the footer?"] /\
  messages (followUp_request_in (trace (snd orphan_tool_turn))) =
    [ParamPlain system UX_ARCHITECT_SYSTEM_PROMPT;
     ParamPlain tool "stale result";
     ParamPlain user "And the footer?";
     ParamAssistantCalls "" [search_call];
     ParamTool (sample_stringify (JStr "found")) "call_1"] /\
  map (fun m => (role m, content m, toolCallId m))
      (conversationHistory (agent (snd orphan_tool_turn))) =
    [(tool, "stale result", None);
     (user, "And the footer?", None);
     (assistant, "", None);
     (tool, sample_stringify (JStr "found"), Some "call_1");
     (assistant, "Here is the design.", None)].
Proof.
  split; [reflexivity|]. split; [reflexivity|]. split; [now left|].
  repeat split; vm_compute; reflexivity.
Qed.

Lemma wf_orphan_state clock llm servers call known :
  wf (sample_world clock llm servers call known) orphan_state.
Proof.
  split; [repeat split|split]; cbn.
  - intros k _ [H|[]]. discriminate H.
  - intros k _ [H|[]]. discriminate H.
  - intros i j _ _. apply sample_uuid_inj.
  - intros r [<-|[]]. now left.
  - intros i [= <-]. now left.
Qed.

Lemma orphan_tool_message_projected_plain_witness :
  (exists req r1 others u,
     trace (snd orphan_tool_turn) = EvCompletion req r1 :: others /\
     is_user_msg "And the footer?" u /\
     messages req =
       ParamPlain system (systemPrompt (agent orphan_state)) ::
         map project [] ++ ParamPlain tool (content orphan_message) ::
         map project ([] ++ [u])) /\
  (forall req r0,
     In (EvCompletion req r0) (trace (snd orphan_tool_turn)) ->
     exists u later,
       is_user_msg "And the footer?" u /\
       messages req =
         ParamPlain system (systemPrompt (agent orphan_state)) ::
           map project [] ++ ParamPlain tool (content orphan_message) ::
           map project ([] ++ u :: later)) /\
  (exists appended,
     conversationHistory (agent (snd orphan_tool_turn)) =
     [] ++ orphan_message :: [] ++ appended) /\
  (Forall answered (trace (snd orphan_tool_turn)) ->
   exists result, fst orphan_tool_turn = Ok result).
Proof.
  apply (orphan_tool_message_projected_plain world_tool_ok "And the footer?"
           orphan_state (fst orphan_tool_turn) (snd orphan_tool_turn)
           (trace (snd orphan_tool_turn)) [] orphan_message []).
  - apply wf_orphan_state.
  - reflexivity.
  - reflexivity.
  - reflexivity.
  - reflexivity.
  - vm_compute. reflexivity.
  - vm_compute. reflexivity.
Defined.

(** *** Reloading a thread *)

(** C8 fails on the code: the clock is set back between the user message
    and the reply, and the reloaded history lists the reply first. *)
Lemma reload_follows_clock_not_insertion :
  createThread world_clock_back None onStart_state =
    (Ok "id-0", created world_clock_back None onStart_state) /\
  fst back_turn =
    Ok [mkChatResult "Use a single column." (Some "id-0")] /\
  map (fun m => (role m, content m)) (conversationHistory (agent (snd back_turn))) =
    [(user, "Design a login form"); (assistant, "Use a single column.")] /\
  fst back_reload = Ok true /\
  map (fun m => (role m, content m)) (conversationHistory (agent (snd back_reload))) =
    [(assistant, "Use a single column."); (user, "Design a login form")].
Proof.
  repeat split; vm_compute; reflexivity.
Qed.

(** A tool call with an empty id: the tool message carries the empty id in
    the history, NULL in the store and no id after a reload; the follow-up
    request of the same turn already sends it as a plain entry. *)
Example empty_call_id_is_lost :
  map toolCallId (conversationHistory (agent (snd anonymous_turn))) =
    [None; None; Some ""; None] /\
  map tool_call_id (agent_messages (snd anonymous_turn)) =
    [None; None; None; None] /\
  fst anonymous_reload = Ok true /\
  map toolCallId (conversationHistory (agent (snd anonymous_reload))) =
    [None; None; None; None] /\
  In (ParamPlain tool (sample_stringify (JStr "found")))
     (messages (first_request_in (tl (tl (trace (snd anonymous_turn)))))).
Proof.
  split; [vm_compute; reflexivity|]. split; [vm_compute; reflexivity|].
  split; [vm_compute; reflexivity|]. split; [vm_compute; reflexivity|].
  vm_compute. right. right. right. left. reflexivity.
Qed.

Ltac compute_list :=
  match goal with
  | |- ?P ?h =>
      let v := eval vm_compute in h in
      replace h with v by (vm_compute; reflexivity)
  end.

Ltac survive_json :=
  compute_list;
  repeat (constructor;
          [let tcs := fresh "tcs" in
           let H := fresh "H" in
           intros tcs H; cbn in H;
           first [discriminate H
                 | injection H as <-; split; vm_compute; [discriminate|reflexivity]]
          |]);
  constructor.

Lemma loadThread_rebuilds_history_witness :
  threadId (agent (snd (two_turns world_tool_ok))) = Some "id-0" /\
  threadId (agent elsewhere) <> Some "id-0" /\
  length (conversationHistory (agent elsewhere)) = 4 /\
  exists s3,
    loadThread world_tool_ok "id-0" elsewhere = (Ok true, s3) /\
    threadId (agent s3) = Some "id-0" /\
    conversationHistory (agent s3) =
      conversationHistory (agent (snd (two_turns world_tool_ok))) /\
    length (conversationHistory (agent s3)) = 8.
Proof.
  destruct (loadThread_rebuilds_history world_tool_ok None onStart_state "id-0"
              (created world_tool_ok None onStart_state)
              ["Design a login form"; "Make it darker"]
              (results_of (two_turns world_tool_ok))
              (snd (two_turns world_tool_ok)))
    as (active & s3 & Ha & Hkeep & _ & _ & Hany).
  - apply wf_sample.
  - vm_compute. reflexivity.
  - vm_compute. reflexivity.
  - apply stable_order_by_keeps.
  - vm_compute. repeat constructor; discriminate.
  - vm_compute. repeat constructor; discriminate.
  - survive_json.
  - assert (Eactive : active = "id-0") by (apply Hkeep; reflexivity).
    subst active.
    destruct (Hany elsewhere) as (s3' & Hload & Hthread & Hhistory & _).
    + vm_compute. left. reflexivity.
    + vm_compute. reflexivity.
    + split; [exact Ha|]. split; [vm_compute; discriminate|].
      split; [vm_compute; reflexivity|].
      exists s3'. split; [exact Hload|]. split; [exact Hthread|].
      split; [exact Hhistory|]. rewrite Hhistory. vm_compute. reflexivity.
Defined.

(** *** The route *)

(** The turn failure of C5 as the caller of the route sees it: with the
    completion service down the answer is the 500 error. *)
Example api_chat_reports_turn_failure :
  truthy_opt (body_message login_request) = true /\
  fst (api_chat world_llm_down (Ok login_request) fresh_worker) =
    JsonError 500 "Failed to process chat message".
Proof.
  repeat split; vm_compute; reflexivity.
Qed.

(** The scenario of a turn without tools: two rows, user then assistant. *)
Example plain_turn_persists_two :
  fst (chat world_plain "Design a login form" onStart_state) =
    Ok (mkChatResult "Use a single column." (Some "id-0")) /\
  map (fun r => (row_role r, row_content r, tool_calls r))
      (agent_messages (snd (chat world_plain "Design a login form" onStart_state))) =
    [(user, "Design a login form", None);
     (assistant, "Use a single column.", None)].
Proof.
  split; vm_compute; reflexivity.
Qed.

(** A call to a tool no ready server offers is answered with the error
    of [executeMcpTool], and the turn goes on. *)
Example unknown_tool_is_reported :
  fst (chat world_no_servers "Design a login form" onStart_state) =
    Ok (mkChatResult "Here is the design." (Some "id-0")) /\
  map (fun m => (role m, content m, toolCallId m))
      (conversationHistory
         (agent (snd (chat world_no_servers "Design a login form" onStart_state)))) =
    [(user, "Design a login form", None);
     (assistant, "", None);
     (tool, sample_stringify (JObj [("error", JStr "Tool not found: search")]),
      Some "call_1");
     (assistant, "Here is the design.", None)].
Proof.
  split; vm_compute; reflexivity.
Qed.

(** With every timestamp equal, the sample ORDER BY returns the rows in
    insertion order and the reload gives the history back. *)
Example reload_with_equal_timestamps :
  fst frozen_reload = Ok true /\
  conversationHistory (agent (snd frozen_reload)) =
    conversationHistory (agent (snd (two_turns world_frozen_clock))) /\
  length (conversationHistory (agent (snd (two_turns world_frozen_clock)))) = 8.
Proof.
  split; [vm_compute; reflexivity|]. split; vm_compute; reflexivity.
Qed.

Lemma api_chat_requires_message_witness :
  api_chat world_plain (Ok (mkChatBody (Some "") None)) fresh_worker =
    (JsonError 400 "Message is required", fresh_worker) /\
  (forall result,
     fst (api_chat world_plain (Ok login_request) fresh_worker) = JsonChat result ->
     fst (turn_of_request world_plain login_request fresh_worker) = Ok result) /\
  exists result tid,
    fst (api_chat world_plain (Ok login_request) fresh_worker) = JsonChat result /\
    res_threadId result = Some tid /\
    fst (turn_of_request world_plain login_request fresh_worker) = Ok result.
Proof.
  split; [|split].
  - apply (proj1 (api_chat_requires_message world_plain
                    (mkChatBody (Some "") None) fresh_worker)).
    reflexivity.
  - apply (proj1 (proj2 (api_chat_requires_message world_plain login_request
                           fresh_worker))).
    reflexivity.
  - apply (proj2 (proj2 (api_chat_requires_message world_plain login_request
                           fresh_worker))
             eq_refl)
      with (evs := trace (snd (turn_of_request world_plain login_request fresh_worker))).
    + apply wf_sample.
    + intros tid e. cbn. discriminate.
    + repeat split; vm_compute; solve [discriminate | intros []].
    + vm_compute. reflexivity.
    + vm_compute. repeat constructor; eexists; reflexivity.
Defined.

Example api_chat_answers :
  fst (api_chat world_plain (Ok login_request) fresh_worker) =
    JsonChat (mkChatResult "Use a single column." (Some "id-0")) /\
  fst (api_chat world_plain (Ok (mkChatBody (Some "") None)) fresh_worker) =
    JsonError 400 "Message is required" /\
  fst (api_chat world_plain (Ok (mkChatBody None None)) fresh_worker) =
    JsonError 400 "Message is required".
Proof.
  repeat split; vm_compute; reflexivity.
Qed.

(** ** The tool catalogue *)

Ltac settle_cases :=
  repeat match goal with
         | |- _ /\ _ => split
         | |- _ -> _ => intro
         | |- forall _, _ => intro
         | H : Ok _ = Ok _ |- _ => injection H as H; subst
         | H : Throw _ = Throw _ |- _ => injection H as H; subst
         | H : _ \/ _ |- _ => destruct H
         end;
  try discriminate; try contradiction; try reflexivity; eauto.

(** X1. connectToStitch never throws and touches neither the agent state nor
    the tables; it reports success exactly when the agent ends up marked
    connected, gives a reason when it reports failure, and once the agent
    is connected it returns at once without asking the world again.  When
    the agent is not connected: an addMcpServer that throws an Error gives
    {success: false, error: its message}, one that throws anything else
    gives {success: false, error: "Unknown error"}, one that returns an
    authUrl gives {success: false, error: "Authentication required: " +
    authUrl}, and in these three cases the agent stays unconnected; one that
    returns no authUrl gives {success: true} and marks the agent
    connected. *)
Theorem connectToStitch_contained W s :
  exists c s',
    connectToStitch W s = (Ok c, s') /\
    agent s' = agent s /\
    agent_messages s' = agent_messages s /\
    agent_threads s' = agent_threads s /\
    trace s' = trace s /\
    success c = mcpConnected s' /\
    (success c = false -> exists reason, error c = Some reason) /\
    (mcpConnected s = true -> s' = s) /\
    (mcpConnected s = false ->
     (forall message,
        addMcpServer W (tick s) = Throw (JsError message) ->
        c = mkConnectResult false (Some message) /\ mcpConnected s' = false) /\
     (forall v,
        addMcpServer W (tick s) = Throw (JsThrown v) ->
        c = mkConnectResult false (Some "Unknown error") /\
        mcpConnected s' = false) /\
     (forall authUrl,
        addMcpServer W (tick s) = Ok (Some authUrl) -> authUrl <> "" ->
        c = mkConnectResult false
              (Some ("Authentication required: " ++ authUrl)%string) /\
        mcpConnected s' = false) /\
     (addMcpServer W (tick s) = Ok None \/ addMcpServer W (tick s) = Ok (Some "") ->
      c = mkConnectResult true None /\ mcpConnected s' = true)).
Proof.
  unfold connectToStitch. destruct (mcpConnected s) eqn:Hc.
  - exists (mkConnectResult true None), s. cbn. rewrite Hc.
    repeat split; auto; discriminate.
  - unfold try_catch, bind, this_addMcpServer, ret.
    destruct (addMcpServer W (tick s)) as [[authUrl|]|[message|v]] eqn:Ea.
    + cbn [truthy_opt]. unfold truthy.
      destruct (String.eqb_spec authUrl "") as [->|Hne]; cbn [negb];
        eexists _, _; (split; [reflexivity|]);
        cbn [agent agent_messages agent_threads trace mcpConnected success error
             advance];
        rewrite ?Hc; settle_cases.
    + eexists _, _. split; [reflexivity|].
      cbn [agent agent_messages agent_threads trace mcpConnected success error
           advance truthy_opt negb].
      rewrite ?Hc. settle_cases.
    + eexists _, _. split; [reflexivity|].
      cbn [agent agent_messages agent_threads trace mcpConnected success error
           advance error_message].
      rewrite ?Hc. settle_cases.
    + eexists _, _. split; [reflexivity|].
      cbn [agent agent_messages agent_threads trace mcpConnected success error
           advance error_message].
      rewrite ?Hc. settle_cases.
Qed.

Lemma is_ready_true server : is_ready server = true <-> state server = Some "ready".
Proof.
  unfold is_ready. destruct (state server) as [st|]; [|split; discriminate].
  destruct (String.eqb_spec st "ready") as [->|N]; split; auto; try discriminate.
  intros [= E]. contradiction.
Qed.

Lemma has_tool_true toolName ts :
  has_tool toolName ts = true <-> exists t, In t ts /\ name t = toolName.
Proof.
  unfold has_tool. rewrite existsb_exists. split; intros (t & Hin & H); exists t;
    (split; [exact Hin|]).
  - now apply String.eqb_eq.
  - now apply String.eqb_eq.
Qed.

(** X2. getMcpTools returns exactly the tools of the servers that are in
    state "ready", each with its name, its description or the empty string,
    and its input schema; servers in any other state and a missing server
    table contribute nothing. *)
Theorem getMcpTools_only_ready W s :
  exists offered,
    getMcpTools W s = (Ok offered, advance s) /\
    forall ct,
      In ct offered <->
      exists entries key server ts t,
        getMcpServers W (tick s) = Some entries /\
        In (key, Some server) entries /\
        state server = Some "ready" /\
        tools server = Some ts /\
        In t ts /\
        ct = mkChatTool (name t) (or_empty (description t)) (inputSchema t).
Proof.
  exists (available_tools W (tick s)). split; [apply getMcpTools_eq|].
  intros ct. unfold available_tools.
  destruct (getMcpServers W (tick s)) as [entries|].
  - rewrite in_flat_map. split.
    + intros ([key [server|]] & Hin & Hct); unfold server_chat_tools in Hct; cbn in Hct;
        [|destruct Hct].
      destruct (tools server) as [ts|] eqn:Ets; [|destruct Hct].
      destruct (is_ready server) eqn:Er; [|destruct Hct].
      apply in_map_iff in Hct. destruct Hct as (t & <- & Ht).
      exists entries, key, server, ts, t.
      repeat split; auto. now apply is_ready_true.
    + intros (entries' & key & server & ts & t & [= <-] & Hin & Hs & Ets & Ht & ->).
      exists (key, Some server). split; [exact Hin|].
      unfold server_chat_tools. cbn. rewrite Ets.
      rewrite (proj2 (is_ready_true server) Hs).
      apply in_map_iff. exists t. split; [reflexivity|exact Ht].
  - split; [intros []|]. intros (entries & _ & _ & _ & _ & [=] & _).
Qed.

Lemma find_and_call_none W toolName args entries s :
  (forall key server c, In (key, Some server) entries -> ~ serves toolName server c) ->
  find_and_call W toolName args entries s = (Throw (tool_not_found toolName), s).
Proof.
  induction entries as [|[key [server|]] rest IH]; intros Hnone; cbn.
  - reflexivity.
  - assert (Hrest : forall key0 server0 c, In (key0, Some server0) rest ->
                      ~ serves toolName server0 c).
    { intros key0 server0 c Hin. apply (Hnone key0). now right. }
    destruct (tools server) as [ts|] eqn:Ets; [|now apply IH].
    destruct (client server) as [c|] eqn:Ec; [|now apply IH].
    destruct (is_ready server && has_tool toolName ts) eqn:Eb; [|now apply IH].
    exfalso. apply andb_true_iff in Eb. destruct Eb as (Er & Eh).
    apply (Hnone key server c); [now left|].
    split; [now apply is_ready_true|]. split; [exact Ec|].
    apply has_tool_true in Eh. destruct Eh as (t & Hin & Hn).
    now exists ts, t.
  - apply IH. intros key0 server0 c Hin. apply (Hnone key0). now right.
Qed.

Lemma find_and_call_first W toolName args before key server c after s :
  (forall key0 server0 c0, In (key0, Some server0) before ->
                           ~ serves toolName server0 c0) ->
  serves toolName server c ->
  find_and_call W toolName args (before ++ (key, Some server) :: after) s =
  (callTool W (tick s) c toolName args, advance s).
Proof.
  intros Hnone (Hs & Hc & ts & t & Ets & Hin & Hn).
  induction before as [|[key0 [server0|]] rest IH]; cbn.
  - rewrite Ets, Hc, (proj2 (is_ready_true server) Hs).
    rewrite (proj2 (has_tool_true toolName ts)) by (now exists t). reflexivity.
  - assert (Hrest : forall k sv c0, In (k, Some sv) rest -> ~ serves toolName sv c0).
    { intros k sv c0 H. apply (Hnone k). now right. }
    destruct (tools server0) as [ts0|] eqn:Ets0; [|now apply IH].
    destruct (client server0) as [c0|] eqn:Ec0; [|now apply IH].
    destruct (is_ready server0 && has_tool toolName ts0) eqn:Eb; [|now apply IH].
    exfalso. apply andb_true_iff in Eb. destruct Eb as (Er & Eh).
    apply (Hnone key0 server0 c0); [now left|].
    split; [now apply is_ready_true|]. split; [exact Ec0|].
    apply has_tool_true in Eh. destruct Eh as (t0 & Hin0 & Hn0).
    now exists ts0, t0.
  - apply IH. intros k sv c0 H. apply (Hnone k). now right.
Qed.

(** X3. executeMcpTool fails with "Tool not found: <name>" when no server is
    at once ready, listing the tool and holding a client, and then no
    client is called; otherwise the call goes to the first such server, and
    what its client answers or throws is what executeMcpTool answers or
    throws. *)
Theorem executeMcpTool_finds_first_server W toolName args s :
  (forall entries,
     getMcpServers W (tick s) = Some entries ->
     forall before key server c after,
       entries = before ++ (key, Some server) :: after ->
       (forall key0 server0 c0, In (key0, Some server0) before ->
                                ~ serves toolName server0 c0) ->
       serves toolName server c ->
       executeMcpTool W toolName args s =
       (callTool W (S (tick s)) c toolName args, advance (advance s))) /\
  ((forall entries key server c,
      getMcpServers W (tick s) = Some entries ->
      In (key, Some server) entries -> ~ serves toolName server c) ->
   executeMcpTool W toolName args s =
   (Throw (JsError ("Tool not found: " ++ toolName)%string), advance s)).
Proof.
  split.
  - intros entries Hs before key server c after -> Hnone Hserves.
    unfold executeMcpTool, bind, this_getMcpServers. rewrite Hs.
    now rewrite (find_and_call_first W toolName args before key server c after
                   (advance s) Hnone Hserves).
  - intros Hnone. unfold executeMcpTool, bind, this_getMcpServers.
    destruct (getMcpServers W (tick s)) as [entries|] eqn:Hs; [|reflexivity].
    rewrite find_and_call_none; [reflexivity|].
    intros key server c Hin. now apply (Hnone entries key server c).
Qed.

Lemma in_split_first {A} (P : A -> Prop) (Pdec : forall a, {P a} + {~ P a}) l :
  (exists a, In a l /\ P a) ->
  exists before a after,
    l = before ++ a :: after /\ P a /\ forall b, In b before -> ~ P b.
Proof.
  induction l as [|x l IH]; intros (a & Hin & Ha); [destruct Hin|].
  destruct (Pdec x) as [Hx|Hx].
  - exists [], x, l. split; [reflexivity|]. split; [exact Hx|]. intros b [].
  - destruct IH as (before & a' & after & -> & Ha' & Hb).
    { destruct Hin as [->|Hin]; [contradiction|]. now exists a. }
    exists (x :: before), a', after. split; [reflexivity|]. split; [exact Ha'|].
    intros b [<-|Hin']; auto.
Qed.

(** X4. A tool that getMcpTools advertises can be executed, provided every
    ready server holds a client: with the same server table,
    executeMcpTool on the advertised name reaches a client and does not
    answer "Tool not found". *)
Theorem advertised_tool_is_served W args s entries ct :
  getMcpServers W (tick s) = Some entries ->
  In ct (flat_map server_chat_tools entries) ->
  (forall key server, In (key, Some server) entries ->
     state server = Some "ready" -> exists c, client server = Some c) ->
  exists c,
    executeMcpTool W (ct_name ct) args s =
    (callTool W (S (tick s)) c (ct_name ct) args, advance (advance s)).
Proof.
  intros Hs Hct Hclients.
  set (can := fun e : string * option MCPServerInfo =>
                match snd e with
                | Some server =>
                    is_ready server &&
                    match tools server with
                    | Some ts => has_tool (ct_name ct) ts
                    | None => false
                    end &&
                    match client server with Some _ => true | None => false end
                | None => false
                end = true).
  destruct (in_split_first can
              (fun e => bool_dec _ true) entries) as (before & e & after & E & He & Hb).
  { apply in_flat_map in Hct. destruct Hct as ([key [server|]] & Hin & Hin');
      unfold server_chat_tools in Hin'; cbn in Hin'; [|destruct Hin'].
    destruct (tools server) as [ts|] eqn:Ets; [|destruct Hin'].
    destruct (is_ready server) eqn:Er; [|destruct Hin'].
    apply in_map_iff in Hin'. destruct Hin' as (t & <- & Ht).
    destruct (Hclients key server Hin (proj1 (is_ready_true server) Er)) as (c & Ec).
    exists (key, Some server). split; [exact Hin|].
    unfold can. cbn. rewrite Er, Ets, Ec.
    rewrite (proj2 (has_tool_true (name t) ts)) by (now exists t). reflexivity. }
  destruct e as [key [server|]]; unfold can in He; cbn in He; [|discriminate].
  apply andb_true_iff in He. destruct He as (He & Hcl).
  apply andb_true_iff in He. destruct He as (Er & Eh).
  destruct (client server) as [c|] eqn:Ec; [|discriminate].
  destruct (tools server) as [ts|] eqn:Ets; [|discriminate].
  exists c. unfold executeMcpTool, bind, this_getMcpServers. rewrite Hs, E.
  apply (find_and_call_first W (ct_name ct) args before key server c after (advance s)).
  - intros key0 server0 c0 Hin (Hs0 & Hc0 & ts0 & t0 & Ets0 & Hin0 & Hn0).
    apply (Hb (key0, Some server0) Hin). unfold can. cbn.
    rewrite (proj2 (is_ready_true server0) Hs0), Ets0, Hc0.
    rewrite (proj2 (has_tool_true (ct_name ct) ts0)) by (now exists t0). reflexivity.
  - split; [now apply is_ready_true|]. split; [exact Ec|].
    apply has_tool_true in Eh. destruct Eh as (t & Hin & Hn). now exists ts, t.
Qed.

(** ** Threads *)

(** X5. createThread either fails because the minted id is already the id of
    a stored thread, and then changes neither the agent state nor the
    tables, or succeeds: the agent is on the new thread with an empty
    history and its system prompt kept, the messages table is as before, and
    the thread table has one more row, with the new id, the title (an empty
    title stored as null) and created_at equal to updated_at. *)
Theorem createThread_outcome W title s r s' :
  createThread W title s = (r, s') ->
  agent_messages s' = agent_messages s /\
  systemPrompt (agent s') = systemPrompt (agent s) /\
  ((In (randomUUID W (tick s)) (map t_id (agent_threads s)) /\
    (exists e, r = Throw e) /\
    agent s' = agent s /\ agent_threads s' = agent_threads s) \/
   (~ In (randomUUID W (tick s)) (map t_id (agent_threads s)) /\
    r = Ok (randomUUID W (tick s)) /\
    threadId (agent s') = Some (randomUUID W (tick s)) /\
    conversationHistory (agent s') = [] /\
    exists now,
      agent_threads s' =
      agent_threads s ++
      [mkThread (randomUUID W (tick s)) (or_null title) now now])).
Proof.
  unfold createThread, bind, crypto_randomUUID, now_, sql_insert_thread. cbn.
  destruct (existsb (fun r0 => t_id r0 =? randomUUID W (tick s)) (agent_threads s))
    eqn:Ex; intros [= <- <-]; cbn.
  - split; [reflexivity|]. split; [reflexivity|]. left.
    split; [|split; [eauto|split; reflexivity]].
    apply existsb_exists in Ex. destruct Ex as (t & Hin & Ht).
    apply String.eqb_eq in Ht. rewrite <- Ht. now apply in_map.
  - split; [reflexivity|]. split; [reflexivity|]. right.
    split.
    { intros Hin. apply in_map_iff in Hin. destruct Hin as (t & Ht & Hin).
      assert (existsb (fun r0 => t_id r0 =? randomUUID W (tick s))
                      (agent_threads s) = true).
      { apply existsb_exists. exists t. split; [exact Hin|]. now apply String.eqb_eq. }
      congruence. }
    repeat split. eauto.
Qed.

(** X6. A thread that createThread has just made can be loaded: loadThread
    of the returned id answers true and leaves the agent exactly as
    createThread left it, on that thread with an empty history (the engine
    being one that returns no rows when there are none). *)
Theorem loadThread_after_createThread W title s tid s1 :
  wf W s ->
  order_by_created_at W [] = [] ->
  createThread W title s = (Ok tid, s1) ->
  loadThread W tid s1 = (Ok true, s1).
Proof.
  intros Hwf Hengine Ec.
  rewrite (createThread_eq W title s Hwf) in Ec. injection Ec as <- <-.
  rewrite loadThread_present.
  - cbn [agent_messages created]. rewrite (rows_of_thread_fresh W s Hwf), Hengine.
    reflexivity.
  - cbn. rewrite map_app, in_app_iff. right. now left.
Qed.

Lemma map_rows_fields W rows : forall history,
  map_rows W rows = Ok history ->
  map (fun m => (m_id m, role m, content m, createdAt m)) history =
  map (fun r => (row_id r, row_role r, row_content r, created_at r)) rows.
Proof.
  induction rows as [|r rows IH]; intros history E; cbn in E.
  - now injection E as <-.
  - destruct (message_of_row W r) as [m|e] eqn:Em; [|discriminate].
    destruct (map_rows W rows) as [ms|e] eqn:Ems; [|discriminate].
    injection E as <-. cbn. rewrite (IH ms eq_refl). f_equal.
    unfold message_of_row in Em.
    destruct (if truthy_opt (tool_calls r) then _ else _); [|discriminate].
    now injection Em as <-.
Qed.

(** X7. loadThread never writes to the tables and never changes the system
    prompt.  When it answers true the agent is on the requested thread and
    its history has one message per stored row of that thread, with the
    row's id, role, content and timestamp, in the order the engine returned
    the rows; in every other case (unknown thread, stored tool calls that do
    not parse) the whole state is as before. *)
Theorem loadThread_outcome W tid s r s' :
  loadThread W tid s = (r, s') ->
  agent_messages s' = agent_messages s /\
  agent_threads s' = agent_threads s /\
  systemPrompt (agent s') = systemPrompt (agent s) /\
  ((r = Ok true /\
    threadId (agent s') = Some tid /\
    map (fun m => (m_id m, role m, content m, createdAt m))
        (conversationHistory (agent s')) =
    map (fun x => (row_id x, row_role x, row_content x, created_at x))
        (order_by_created_at W (rows_of_thread tid (agent_messages s)))) \/
   (r <> Ok true /\ s' = s)).
Proof.
  unfold loadThread, bind, sql_select_thread, sql_select_messages, lift.
  destruct (filter (fun t => t_id t =? tid) (agent_threads s)) as [|t l]; cbn.
  - intros [= <- <-]. repeat split. right. split; [discriminate|reflexivity].
  - destruct (map_rows W (order_by_created_at W (rows_of_thread tid (agent_messages s))))
      as [history|e] eqn:Eh; cbn; intros [= <- <-]; cbn.
    + repeat split. left. split; [reflexivity|]. split; [reflexivity|].
      now apply (map_rows_fields W).
    + repeat split. right. split; [discriminate|reflexivity].
Qed.

(** X8. After loadThread has put the agent on a thread, a turn works on that
    thread: what chat() stores goes under the loaded thread's id, the
    history grows from the loaded history by the same messages, starting
    with the user message, and a successful turn returns that thread id. *)
Theorem chat_after_loadThread W tid s s1 userMessage r s2 :
  wf W s ->
  truthy tid = true ->
  loadThread W tid s = (Ok true, s1) ->
  chat W userMessage s1 = (r, s2) ->
  exists u others,
    is_user_msg userMessage u /\
    conversationHistory (agent s2) = conversationHistory (agent s1) ++ u :: others /\
    agent_messages s2 =
      agent_messages s ++ map (fun m => row_of_message W m tid) (u :: others) /\
    threadId (agent s2) = Some tid /\
    (forall result, r = Ok result -> res_threadId result = Some tid).
Proof.
  intros Hwf Hy El Ec.
  assert (Hin : In tid (map t_id (agent_threads s))).
  { unfold loadThread, bind, sql_select_thread in El.
    destruct (filter (fun t => t_id t =? tid) (agent_threads s)) as [|t l] eqn:Ef;
      [cbn in El; discriminate|].
    assert (Ht : In t (filter (fun t0 => t_id t0 =? tid) (agent_threads s)))
      by (rewrite Ef; now left).
    apply filter_In in Ht. destruct Ht as (Ht & E). apply String.eqb_eq in E.
    rewrite <- E. now apply in_map. }
  rewrite (loadThread_present W tid s Hin) in El.
  destruct (map_rows W _) as [history|e]; [|discriminate].
  injection El as <-.
  pose proof (loaded_wf W tid history s Hwf Hin) as Hwf1.
  destruct (chat_outcome W userMessage _ r s2 Hwf1 Ec)
    as (tid' & msgs & evs & Ht & Eh & Em & Etr & T).
  assert (Estart : turn_start W (loaded tid history s) = loaded tid history s).
  { unfold turn_start. cbn. now rewrite Hy. }
  rewrite Estart in *.
  assert (tid' = tid).
  { destruct (chat_inv W userMessage _ r s2 Hwf1 Ec) as (t0 & ? & ? & _ & D & _).
    destruct D as (D1 & _). rewrite Estart in D1. cbn in D1. congruence. }
  subst tid'.
  assert (Hshape : exists u others, is_user_msg userMessage u /\ msgs = u :: others).
  { destruct T; eauto. }
  destruct Hshape as (u & others & Hu & ->).
  exists u, others. repeat split; try assumption; try apply Hu.
  intros result ->. inversion T; reflexivity.
Qed.

(** X9. persistMessage leaves the agent state alone and never changes the
    id, title or created_at of a thread.  It fails, storing nothing, when
    the agent has no thread or the message id is already stored; when it
    succeeds it has added exactly one row, under the active thread, and has
    set updated_at on that thread only. *)
Theorem persistMessage_outcome W message s r s' :
  persistMessage W message s = (r, s') ->
  agent s' = agent s /\
  map (fun t => (t_id t, title t, t_created_at t)) (agent_threads s') =
    map (fun t => (t_id t, title t, t_created_at t)) (agent_threads s) /\
  (((exists e, r = Throw e) /\
    agent_messages s' = agent_messages s /\
    agent_threads s' = agent_threads s /\
    (threadId (agent s) = None \/
     In (m_id message) (map row_id (agent_messages s)))) \/
   (r = Ok tt /\
    exists tid now,
      threadId (agent s) = Some tid /\
      ~ In (m_id message) (map row_id (agent_messages s)) /\
      agent_messages s' = agent_messages s ++ [row_of_message W message tid] /\
      agent_threads s' =
        map (fun t => if t_id t =? tid
                      then mkThread (t_id t) (title t) (t_created_at t) now
                      else t)
            (agent_threads s))).
Proof.
  unfold persistMessage, bind, get_agent, sql_insert_message.
  destruct (threadId (agent s)) as [tid|] eqn:Et.
  - rewrite row_id_row_of_message.
    destruct (existsb (fun r0 => row_id r0 =? m_id message) (agent_messages s)) eqn:Ex.
    + intros [= <- <-]. repeat split. left. repeat split; eauto. right.
      apply existsb_exists in Ex. destruct Ex as (x & Hin & Hx).
      apply String.eqb_eq in Hx. rewrite <- Hx. now apply in_map.
    + cbn. rewrite Et. intros [= <- <-]. cbn. split; [reflexivity|]. split.
      { rewrite map_map. apply map_ext. intros t. cbn.
        now destruct (t_id t =? tid). }
      right. split; [reflexivity|]. exists tid, (Date_now W (tick s)).
      split; [reflexivity|]. split; [|split; reflexivity].
      intros Hin. apply in_map_iff in Hin. destruct Hin as (x & Hx & Hin).
      assert (existsb (fun r0 => row_id r0 =? m_id message) (agent_messages s) = true).
      { apply existsb_exists. exists x. split; [exact Hin|]. now apply String.eqb_eq. }
      congruence.
  - intros [= <- <-]. repeat split. left. repeat split; eauto.
Qed.

(** ** More about a turn *)

(** X10. A turn never changes the system prompt, never alters or removes a
    stored message (the messages table only grows at its end), and leaves
    the set of thread ids as it is, except that a turn started without an
    active thread adds exactly one thread, with the id minted at its
    start. *)
Theorem chat_is_append_only W userMessage s r s' :
  wf W s ->
  chat W userMessage s = (r, s') ->
  systemPrompt (agent s') = systemPrompt (agent s) /\
  (exists added, added <> [] /\ agent_messages s' = agent_messages s ++ added) /\
  map t_id (agent_threads s') =
    map t_id (agent_threads s) ++
    (if truthy_opt (threadId (agent s)) then [] else [randomUUID W (tick s)]).
Proof.
  intros Hwf E.
  destruct (chat_inv W userMessage s r s' Hwf E) as (tid & msgs & evs & Ht & D & T).
  destruct (turn_start_frame W s) as (_ & Emsg).
  destruct D as (_ & D2 & _ & D4 & D5 & _).
  split; [|split].
  - rewrite D2. unfold turn_start.
    now destruct (truthy_opt (threadId (agent s))).
  - exists (map (fun m => row_of_message W m tid) msgs). split.
    + destruct T; discriminate.
    + now rewrite D4, Emsg.
  - rewrite D5. unfold turn_start.
    destruct (truthy_opt (threadId (agent s))); cbn.
    + now rewrite app_nil_r.
    + now rewrite map_app.
Qed.

(** X11. A successful turn stores exactly two messages when the first
    completion asks for no tool, and three plus one per tool call when it
    does; the history grows by the same number. *)
Theorem turn_message_count W userMessage s result s' req1 r1 m1 rest :
  wf W s ->
  chat W userMessage s = (Ok result, s') ->
  trace s' = trace s ++ EvCompletion req1 r1 :: rest ->
  choice_of r1 = Ok m1 ->
  let n := match offered_calls m1 with
           | [] => 2
           | calls => 3 + length calls
           end in
  length (agent_messages s') = length (agent_messages s) + n /\
  length (conversationHistory (agent s')) =
    length (conversationHistory (agent (turn_start W s))) + n.
Proof.
  intros Hwf E Etr Hc n.
  destruct (chat_outcome W userMessage s (Ok result) s' Hwf E)
    as (tid & msgs & evs' & Ht & Eh & Em & Etr' & T).
  rewrite Etr in Etr'. apply app_inv_head in Etr'. subst evs'.
  assert (Hlen : length msgs = n).
  { inversion T as [| u tools r1' m f H1 H2 H3 H4 |
                   | u tools r1' m a tevs tms r2 m2 f H1 H2 H3 H4 H5 H6 H7]; subst.
    - assert (m = m1) by congruence. subst m. unfold n. now rewrite H3.
    - assert (m = m1) by congruence. subst m. unfold n.
      destruct (tool_round_length W _ _ _ H5) as (L & _).
      destruct (offered_calls m1) as [|c cs] eqn:Eo; [contradiction|].
      cbn [length]. rewrite length_app, L. cbn. lia. }
  rewrite Em, Eh, !length_app, length_map, Hlen. auto.
Qed.

(** X12. Every turn makes a completion request first, to the model
    "gpt-4-turbo-preview", whose messages are the system prompt followed by
    the projected history with the user message last.  The tools it offers
    are the tools getMcpTools returns when the turn asks for them: all of
    them, with tool_choice "auto", when there are any, and neither field
    otherwise (never an empty tool list). *)
Theorem first_request_shape W userMessage s r s' evs :
  wf W s ->
  chat W userMessage s = (r, s') ->
  trace s' = trace s ++ evs ->
  exists req r1 others u tools,
    evs = EvCompletion req r1 :: others /\
    is_user_msg userMessage u /\
    model req = "gpt-4-turbo-preview" /\
    messages req =
      ParamPlain system (systemPrompt (agent s)) ::
      map project (conversationHistory (agent (turn_start W s)) ++ [u]) /\
    (forall sg, tick sg = tools_tick W s -> fst (getMcpTools W sg) = Ok tools) /\
    (tools = [] -> req_tools req = None /\ tool_choice req = None) /\
    (tools <> [] -> req_tools req = Some tools /\ tool_choice req = Some "auto") /\
    ((req_tools req = None /\ tool_choice req = None) \/
     (exists ts, ts <> [] /\ req_tools req = Some ts /\
                 tool_choice req = Some "auto")).
Proof.
  intros Hwf E Etr.
  destruct (chat_turn_tools W userMessage s Hwf)
    as (r0 & s0 & tid & msgs & evs0 & E0 & Ht & D & T
        & (u & r1 & others & Hu & Hfirst)).
  rewrite E in E0. injection E0 as <- <-.
  destruct D as (_ & _ & _ & _ & _ & D6 & _).
  rewrite (proj1 (turn_start_frame W s)), Etr in D6.
  apply app_inv_head in D6. subst evs0. clear T.
  assert (Hp : systemPrompt (agent (turn_start W s)) = systemPrompt (agent s)).
  { unfold turn_start. now destruct (truthy_opt (threadId (agent s))). }
  set (tools := available_tools W (tools_tick W s)) in *.
  exists (first_request_of (agent (turn_start W s)) u tools), r1, others, u, tools.
  split; [exact Hfirst|].
  split; [exact Hu|].
  split; [reflexivity|]. split.
  { cbn. unfold request_messages. now rewrite Hp. }
  split.
  { intros sg Hsg. rewrite getMcpTools_eq. cbn. now rewrite Hsg. }
  split.
  { intros Hnil. rewrite Hnil. now split. }
  split.
  { intros Hne. destruct tools as [|t ts]; [contradiction|]. now split. }
  destruct tools as [|t ts]; [now left|]. right. exists (t :: ts).
  repeat split. discriminate.
Qed.

(** X13. A successful turn returns the id of the thread it worked on: the
    thread that was active when it started, or, when there was none, the
    thread it created. *)
Theorem chat_returns_its_thread W userMessage s result s' :
  wf W s ->
  chat W userMessage s = (Ok result, s') ->
  res_threadId result = threadId (agent s') /\
  (forall tid, threadId (agent s) = Some tid -> truthy tid = true ->
               res_threadId result = Some tid) /\
  (truthy_opt (threadId (agent s)) = false ->
   res_threadId result = Some (randomUUID W (tick s))).
Proof.
  intros Hwf E.
  destruct (chat_inv W userMessage s (Ok result) s' Hwf E)
    as (tid & msgs & evs & Ht & D & T).
  pose proof (delta_thread W _ _ _ _ _ D Ht) as Ht'.
  assert (Hres : res_threadId result = Some tid) by (inversion T; reflexivity).
  split; [congruence|]. split.
  - intros tid0 H0 Hy. unfold turn_start in Ht. rewrite H0 in Ht. cbn in Ht.
    rewrite Hy in Ht. congruence.
  - intros Hn. unfold turn_start in Ht. rewrite Hn in Ht. cbn in Ht. congruence.
Qed.

(** ** The handlers *)

Lemma substring_all s : substring 0 (String.length s) s = s.
Proof. induction s as [|c s IH]; cbn; [reflexivity|now rewrite IH]. Qed.

Lemma thread_of_path_app threadId :
  thread_of_path ("/threads/" ++ threadId)%string = threadId.
Proof. unfold thread_of_path. cbn. rewrite Nat.sub_0_r. apply substring_all. Qed.

(** X14. onMessage never throws, whatever the message and whatever the
    operation it starts does.  For a chat message the state it leaves is the
    state chat() leaves, also when chat() fails: the error is swallowed, what
    the turn stored before it stays. *)
Theorem onMessage_swallows_errors W order message s :
  fst (onMessage W order message s) = Ok tt /\
  forall data,
    message = Some (Ok data) ->
    has_type data "chat" = true ->
    truthy_opt (ws_message data) = true ->
    snd (onMessage W order message s) =
    snd (chat W (or_empty (ws_message data)) s).
Proof.
  split.
  - destruct message as [[data|e]|]; [| reflexivity | reflexivity].
    unfold onMessage, try_catch, bind, lift, ret, listThreads.
    destruct (has_type data "chat" && truthy_opt (ws_message data)).
    { now destruct (chat W _ s) as [[x|e] s1]. }
    destruct (has_type data "create_thread").
    { now destruct (createThread W _ s) as [[x|e] s1]. }
    destruct (has_type data "load_thread" && truthy_opt (ws_threadId data)).
    { now destruct (loadThread W _ s) as [[x|e] s1]. }
    now destruct (has_type data "list_threads").
  - intros data -> Ht Hm.
    unfold onMessage, try_catch, bind, lift, ret. rewrite Ht, Hm. cbn [andb].
    now destruct (chat W (or_empty (ws_message data)) s) as [[x|e] s1].
Qed.

(** X15. onMessage changes nothing for a message that is not a string, is
    not JSON, has an unknown type, asks for the thread list, is a chat
    without message or a load_thread without threadId; nor for a
    load_thread that names a thread the agent does not have. *)
Theorem onMessage_ignores W order message s :
  (forall data,
     message = Some (Ok data) ->
     has_type data "chat" && truthy_opt (ws_message data) = false /\
     has_type data "create_thread" = false /\
     (has_type data "load_thread" && truthy_opt (ws_threadId data) = false \/
      ~ In (or_empty (ws_threadId data)) (map t_id (agent_threads s)))) ->
  onMessage W order message s = (Ok tt, s).
Proof.
  intros H. destruct message as [[data|e]|]; [| reflexivity | reflexivity].
  destruct (H data eq_refl) as (Hc & Hn & Hl).
  unfold onMessage, try_catch, bind, lift, ret, listThreads.
  rewrite Hc, Hn.
  destruct (has_type data "load_thread" && truthy_opt (ws_threadId data)) eqn:El.
  - destruct Hl as [Hl|Hl]; [discriminate|].
    now rewrite (loadThread_absent W _ s Hl).
  - now destruct (has_type data "list_threads").
Qed.

(** X16. GET /threads/<id> on the agent answers 404 "Thread not found",
    with the state unchanged, when the agent has no such thread; when it has,
    it switches the agent to that thread and answers with the thread id and
    the history rebuilt from the stored rows. *)
Theorem onRequest_get_thread W order threadId body s :
  let request := mkAgentRequest "GET" ("/threads/" ++ threadId)%string body in
  (~ In threadId (map t_id (agent_threads s)) ->
   onRequest W order request s = (Ok (RespError 404 "Thread not found"), s)) /\
  (In threadId (map t_id (agent_threads s)) ->
   forall history,
     map_rows W (order_by_created_at W
                   (rows_of_thread threadId (agent_messages s))) = Ok history ->
     onRequest W order request s =
     (Ok (RespThread threadId history), loaded threadId history s)).
Proof.
  intros request. unfold onRequest. cbn [req_path req_method request].
  replace (("/threads/" ++ threadId)%string =? "/threads") with false
    by (cbn; now destruct threadId).
  replace (("/threads/" ++ threadId)%string =? "/chat") with false by reflexivity.
  replace (prefix "/threads/" ("/threads/" ++ threadId)%string) with true
    by (cbn; now destruct threadId).
  cbn [andb]. replace ("GET" =? "GET") with true by reflexivity.
  rewrite thread_of_path_app. split.
  - intros Hin. unfold bind. now rewrite (loadThread_absent W _ s Hin).
  - intros Hin history Eh. unfold bind.
    rewrite (loadThread_present W _ s Hin), Eh. reflexivity.
Qed.

(** X17. POST /chat on the agent with a threadId the agent does not have is
    not rejected: the failed loadThread is ignored and the turn runs on
    whatever thread the agent is on, exactly as chat() alone would. *)
Theorem onRequest_chat_unknown_thread W order title message threadId s :
  ~ In threadId (map t_id (agent_threads s)) ->
  onRequest W order
    (mkAgentRequest "POST" "/chat"
       (Ok (mkRequestBody title message (Some threadId)))) s =
  match chat W message s with
  | (Ok result, s') => (Ok (RespChat result), s')
  | (Throw e, s') => (Throw e, s')
  end.
Proof.
  intros Hin. unfold onRequest. cbn [req_path req_method req_body].
  replace ("/chat" =? "/threads") with false by reflexivity.
  replace ("/chat" =? "/chat") with true by reflexivity.
  replace ("POST" =? "POST") with true by reflexivity.
  cbn [andb]. unfold bind at 1. unfold lift. cbn [rb_message rb_threadId].
  unfold bind at 1. unfold onRequest_chat. unfold bind at 1.
  destruct (truthy_opt (Some threadId)) eqn:Ey.
  - unfold bind at 1. cbn [or_empty].
    rewrite (loadThread_absent W _ s Hin). cbn.
    now destruct (chat W message s) as [[x|e] s1].
  - cbn. now destruct (chat W message s) as [[x|e] s1].
Qed.

(** ** The D1 database behind the routes *)

Lemma d1_thread_ids_app rows1 rows2 :
  d1_thread_ids (rows1 ++ rows2) = d1_thread_ids rows1 ++ d1_thread_ids rows2.
Proof. unfold d1_thread_ids. now rewrite flat_map_app. Qed.

Lemma existsb_d1_thread i rows :
  existsb (fun t => opt_string_eqb (d1t_id t) (Some i)) rows = true <->
  In i (d1_thread_ids rows).
Proof.
  unfold d1_thread_ids. induction rows as [|t rows IH]; cbn; [intuition discriminate|].
  rewrite orb_true_iff, in_app_iff, IH.
  destruct (d1t_id t) as [x|]; cbn.
  - destruct (String.eqb_spec x i); intuition (try discriminate; try congruence).
  - intuition discriminate.
Qed.

Lemma existsb_d1_thread_null rows :
  existsb (fun t => opt_string_eqb (d1t_id t) None) rows = false.
Proof.
  induction rows as [|t rows IH]; cbn; [reflexivity|].
  rewrite IH. now destruct (d1t_id t).
Qed.

Lemma d1_thread_ids_touch threadId now rows :
  d1_thread_ids
    (map (fun t => if opt_string_eqb (d1t_id t) threadId
                   then mkD1Thread (d1t_id t) (d1t_title t) (d1t_created_at t) now
                   else t) rows) =
  d1_thread_ids rows.
Proof.
  unfold d1_thread_ids. induction rows as [|t rows IH]; cbn; [reflexivity|].
  rewrite IH. now destruct (opt_string_eqb (d1t_id t) threadId).
Qed.

Lemma d1_upsert_thread_ids threadId now rows :
  d1_thread_ids (d1_upsert_thread threadId now rows) =
  d1_thread_ids rows ++
  match threadId with
  | Some i => if existsb (fun t => opt_string_eqb (d1t_id t) (Some i)) rows
              then [] else [i]
  | None => []
  end.
Proof.
  unfold d1_upsert_thread. destruct threadId as [i|].
  - destruct (existsb _ rows).
    + now rewrite d1_thread_ids_touch, app_nil_r.
    + now rewrite d1_thread_ids_app.
  - rewrite existsb_d1_thread_null, d1_thread_ids_app. reflexivity.
Qed.

Lemma d1_upsert_thread_NoDup threadId now rows :
  NoDup (d1_thread_ids rows) ->
  NoDup (d1_thread_ids (d1_upsert_thread threadId now rows)).
Proof.
  intros H. rewrite d1_upsert_thread_ids. destruct threadId as [i|].
  - destruct (existsb _ rows) eqn:E; [now rewrite app_nil_r|].
    apply NoDup_app; [exact H|repeat constructor; intros []|].
    intros x Hx [<-|[]]. apply existsb_d1_thread in Hx. congruence.
  - now rewrite app_nil_r.
Qed.

Lemma d1_insert_message_ok id threadId r text now threads rows rows' :
  d1_insert_message id threadId r text now threads rows = Ok rows' ->
  exists t, threadId = Some t /\
            rows' = rows ++ [mkD1Message id t r text now] /\
            ~ In id (map d1m_id rows) /\
            In t (d1_thread_ids threads).
Proof.
  unfold d1_insert_message. destruct threadId as [t|]; [|discriminate].
  destruct (existsb (fun m => d1m_id m =? id) rows) eqn:E1; [discriminate|].
  destruct (existsb _ threads) eqn:E2; [|discriminate].
  intros [= <-]. exists t. repeat split.
  - intros Hin. apply in_map_iff in Hin. destruct Hin as (m & Hm & Hin).
    assert (existsb (fun m => d1m_id m =? id) rows = true).
    { apply existsb_exists. exists m. split; [exact Hin|]. now apply String.eqb_eq. }
    congruence.
  - now apply existsb_d1_thread.
Qed.

Lemma d1_consistent_add agents threads rows t0 id t r text now agents' t1 :
  d1_consistent (mkWorker agents threads rows t0) ->
  ~ In id (map d1m_id rows) ->
  In t (d1_thread_ids threads) ->
  d1_consistent (mkWorker agents' threads (rows ++ [mkD1Message id t r text now]) t1).
Proof.
  unfold d1_consistent. cbn [DB_threads DB_messages].
  intros (N1 & N2 & R) Hid Ht. split; [exact N1|]. split.
  - rewrite map_app. cbn. apply NoDup_app; [exact N2|repeat constructor; intros []|].
    intros x Hx [<-|[]]. contradiction.
  - intros m Hm. apply in_app_iff in Hm. destruct Hm as [Hm|[<-|[]]]; auto.
Qed.

Lemma d1_consistent_upsert agents threads rows t0 threadId now agents' t1 :
  d1_consistent (mkWorker agents threads rows t0) ->
  d1_consistent (mkWorker agents' (d1_upsert_thread threadId now threads) rows t1).
Proof.
  unfold d1_consistent. cbn [DB_threads DB_messages].
  intros (N1 & N2 & R). split; [now apply d1_upsert_thread_NoDup|].
  split; [exact N2|]. intros m Hm. rewrite d1_upsert_thread_ids, in_app_iff.
  left. now apply R.
Qed.

Lemma d1_thread_ids_delete threadId rows :
  d1_thread_ids (d1_delete_thread threadId rows) =
  filter (fun i => negb (i =? threadId)) (d1_thread_ids rows).
Proof.
  unfold d1_thread_ids, d1_delete_thread.
  induction rows as [|[[x|] title c u] rows IH]; cbn; [reflexivity| |exact IH].
  destruct (x =? threadId); cbn; [exact IH|now rewrite IH].
Qed.

Lemma d1_cascade_absent threadId threads rows :
  (forall m, In m rows -> In (d1m_thread_id m) (d1_thread_ids threads)) ->
  existsb (fun t => opt_string_eqb (d1t_id t) (Some threadId)) threads = false ->
  d1_cascade threadId rows = rows.
Proof.
  intros R E. unfold d1_cascade. induction rows as [|m rows IH]; cbn; [reflexivity|].
  destruct (String.eqb_spec (d1m_thread_id m) threadId) as [Em|Em]; cbn.
  - exfalso. assert (H : In threadId (d1_thread_ids threads)).
    { rewrite <- Em. apply R. now left. }
    apply existsb_d1_thread in H. congruence.
  - f_equal. apply IH. intros m' Hm'. apply R. now right.
Qed.

(** X18. The routes that write to D1 keep the database consistent: after
    POST /api/chat, POST /api/threads and DELETE /api/threads/:threadId,
    whatever they answer, thread ids and message ids are still unique and
    every message still belongs to a stored thread. *)
Theorem routes_keep_d1_consistent W chatBody threadBody threadId w :
  d1_consistent w ->
  d1_consistent (snd (api_chat W chatBody w)) /\
  d1_consistent (snd (api_create_thread W threadBody w)) /\
  d1_consistent (snd (api_delete_thread threadId w)).
Proof.
  intros Hw. destruct w as [agents threads rows t]. split; [|split].
  - unfold api_chat. destruct chatBody as [body|e]; [|exact Hw].
    destruct (negb (truthy_opt (body_message body))); [exact Hw|].
    cbn [worker_tick UX_ARCHITECT_AGENT DB_threads DB_messages].
    destruct (if truthy_opt (body_threadId body)
              then (or_empty (body_threadId body), t)
              else (randomUUID W t, S t)) as [agentId t0].
    destruct (onRequest_chat W (or_empty (body_message body)) (body_threadId body)
                (agents agentId)) as [[result|e] st]; [|exact Hw].
    pose proof (d1_consistent_upsert agents threads rows t (res_threadId result)
                  (Date_now W t0 / 1000)%Z) as Hu.
    destruct (d1_insert_message (randomUUID W (S t0)) _ user _ _ _ rows)
      as [rows1|e] eqn:E1; [|now apply Hu].
    apply d1_insert_message_ok in E1. destruct E1 as (tid & Et & -> & Hid & Hin).
    pose proof (d1_consistent_add agents _ rows t (randomUUID W (S t0)) tid user
                  (or_empty (body_message body)) (Date_now W t0 / 1000)%Z
                  agents t (Hu agents t Hw) Hid Hin) as H1.
    destruct (d1_insert_message (randomUUID W (S (S t0))) _ assistant _ _ _ _)
      as [rows2|e] eqn:E2.
    + apply d1_insert_message_ok in E2. destruct E2 as (tid' & Et' & -> & Hid' & Hin').
      cbn [snd]. eapply d1_consistent_add; [exact H1|exact Hid'|exact Hin'].
    + cbn [snd]. destruct H1 as (N1 & N2 & R). split; [exact N1|]. split; assumption.
  - unfold api_create_thread. destruct threadBody as [title|e]; [|exact Hw].
    cbn [worker_tick UX_ARCHITECT_AGENT DB_threads DB_messages].
    unfold d1_insert_thread. cbn [d1t_id].
    destruct (existsb _ threads) eqn:E; cbn [snd].
    + destruct Hw as (N1 & N2 & R). split; [exact N1|]. split; assumption.
    + destruct Hw as (N1 & N2 & R). cbn in N1, N2, R. split; [|split]; cbn.
      * rewrite d1_thread_ids_app. cbn.
        apply NoDup_app; [exact N1|repeat constructor; intros []|].
        intros x Hx [<-|[]]. apply existsb_d1_thread in Hx. congruence.
      * exact N2.
      * intros m Hm. rewrite d1_thread_ids_app, in_app_iff. left. now apply R.
  - unfold api_delete_thread.
    cbn [worker_tick UX_ARCHITECT_AGENT DB_threads DB_messages snd].
    destruct Hw as (N1 & N2 & R). cbn in N1, N2, R.
    assert (Ec : (if existsb (fun t1 => opt_string_eqb (d1t_id t1) (Some threadId)) threads
                  then d1_cascade threadId rows else rows) = d1_cascade threadId rows).
    { destruct (existsb _ threads) eqn:E; [reflexivity|].
      symmetry. now apply (d1_cascade_absent threadId threads). }
    rewrite Ec. split; [|split]; cbn.
    + rewrite d1_thread_ids_delete. now apply NoDup_filter.
    + unfold d1_cascade. clear - N2. induction rows as [|m rows IH]; cbn; [constructor|].
      inversion N2 as [|? ? Hn Hr]; subst.
      destruct (negb (d1m_thread_id m =? threadId)); [|now apply IH].
      cbn. constructor; [|now apply IH].
      intros Hin. apply Hn. apply in_map_iff in Hin. destruct Hin as (x & Hx & Hin).
      apply filter_In in Hin. apply in_map_iff. exists x. tauto.
    + intros m Hm. unfold d1_cascade in Hm. apply filter_In in Hm.
      destruct Hm as (Hm & Hneq). rewrite d1_thread_ids_delete. apply filter_In.
      split; [now apply R|exact Hneq].
Qed.

Lemma d1_first_thread_deleted threadId rows :
  d1_first_thread threadId (d1_delete_thread threadId rows) = None.
Proof.
  unfold d1_first_thread, d1_delete_thread.
  induction rows as [|t rows IH]; cbn; [reflexivity|].
  destruct (opt_string_eqb (d1t_id t) (Some threadId)) eqn:E; cbn; [exact IH|].
  now rewrite E.
Qed.

(** X19. DELETE /api/threads/:threadId always answers success.  On a
    consistent database it removes the thread and, through the cascade,
    exactly the messages of that thread: the other threads and messages
    stay, in their order; a later GET of the thread answers 404.  The
    agents, and so the copy of the thread an agent keeps in its own tables,
    are not touched. *)
Theorem api_delete_thread_cascades order threadId w :
  d1_consistent w ->
  let w' := snd (api_delete_thread threadId w) in
  fst (api_delete_thread threadId w) = ApiSuccess /\
  DB_threads w' =
    filter (fun t => negb (opt_string_eqb (d1t_id t) (Some threadId)))
           (DB_threads w) /\
  DB_messages w' =
    filter (fun m => negb (d1m_thread_id m =? threadId)) (DB_messages w) /\
  UX_ARCHITECT_AGENT w' = UX_ARCHITECT_AGENT w /\
  api_get_thread order threadId w' = (ApiError 404 "Thread not found", w').
Proof.
  intros (N1 & N2 & R) w'. subst w'. unfold api_delete_thread. cbn [fst snd].
  cbn [DB_threads DB_messages UX_ARCHITECT_AGENT].
  split; [reflexivity|]. split; [reflexivity|]. split; [|split; [reflexivity|]].
  - destruct (existsb _ (DB_threads w)) eqn:E; [reflexivity|].
    symmetry. exact (d1_cascade_absent threadId (DB_threads w) _ R E).
  - unfold api_get_thread. cbn [DB_threads].
    now rewrite d1_first_thread_deleted.
Qed.

Lemma d1_first_thread_last threadId rows t :
  ~ In threadId (d1_thread_ids rows) ->
  d1t_id t = Some threadId ->
  d1_first_thread threadId (rows ++ [t]) = Some t.
Proof.
  unfold d1_first_thread, d1_thread_ids. intros Hn Ht.
  induction rows as [|[[x|] title c u] rows IH]; cbn in *.
  - rewrite Ht. cbn. now rewrite String.eqb_refl.
  - destruct (String.eqb_spec x threadId) as [E|E]; [tauto|]. apply IH. tauto.
  - apply IH. exact Hn.
Qed.

Lemma d1_messages_of_absent threadId threads rows :
  (forall m, In m rows -> In (d1m_thread_id m) (d1_thread_ids threads)) ->
  ~ In threadId (d1_thread_ids threads) ->
  filter (fun m => d1m_thread_id m =? threadId) rows = [].
Proof.
  intros R Hn. induction rows as [|m rows IH]; cbn; [reflexivity|].
  destruct (String.eqb_spec (d1m_thread_id m) threadId) as [E|E].
  - exfalso. apply Hn. rewrite <- E. apply R. now left.
  - apply IH. intros m' Hm'. apply R. now right.
Qed.

(** X20. A thread created through POST /api/threads can be read back: on a
    consistent database, GET /api/threads/:threadId with the id the route
    returned answers with the row that was inserted (title || null, both
    timestamps the second of creation) and with no messages. *)
Theorem api_get_after_create W order title w threadId w' :
  d1_consistent w ->
  api_create_thread W (Ok title) w = (ApiCreated threadId, w') ->
  let now := (Date_now W (S (worker_tick w)) / 1000)%Z in
  api_get_thread order threadId w' =
  (ApiThread (mkD1Thread (Some threadId) (or_null title) now now) (order []), w').
Proof.
  intros (N1 & N2 & R) E now. unfold api_create_thread, d1_insert_thread in E.
  cbn [d1t_id] in E.
  destruct (existsb _ (DB_threads w)) eqn:Ex; [discriminate|].
  injection E as <- <-.
  assert (Hn : ~ In (randomUUID W (worker_tick w)) (d1_thread_ids (DB_threads w))).
  { intros H. apply existsb_d1_thread in H. congruence. }
  subst now. set (now := (Date_now W (S (worker_tick w)) / 1000)%Z).
  unfold api_get_thread. cbn [DB_threads DB_messages].
  rewrite (d1_first_thread_last _ _
             (mkD1Thread (Some (randomUUID W (worker_tick w))) (or_null title) now now)
             Hn eq_refl).
  now rewrite (d1_messages_of_absent _ (DB_threads w) _ R Hn).
Qed.

(** X21. POST /api/chat and the D1 database.  A 400 answer leaves the
    Worker as it was.  The messages table only grows, by at most two rows.
    When the route answers with the agent's result, it has stored exactly
    the user message and the assistant response, in this order, under the
    thread the agent returned and with one timestamp, and that thread is in
    the threads table; at most one agent instance has changed. *)
Theorem api_chat_stores_exchange W body w r w' :
  api_chat W body w = (r, w') ->
  (forall error, r = JsonError 400 error -> w' = w) /\
  (exists added, DB_messages w' = DB_messages w ++ added /\ length added <= 2) /\
  (exists agentId, forall n, n <> agentId ->
                             UX_ARCHITECT_AGENT w' n = UX_ARCHITECT_AGENT w n) /\
  (forall result,
     r = JsonChat result ->
     exists b message threadId id1 id2 now,
       body = Ok b /\ body_message b = Some message /\
       res_threadId result = Some threadId /\
       DB_messages w' =
         DB_messages w ++
         [mkD1Message id1 threadId user message now;
          mkD1Message id2 threadId assistant (response result) now] /\
       In threadId (d1_thread_ids (DB_threads w'))).
Proof.
  unfold api_chat, FAILED. destruct body as [[message bt]|e].
  2:{ intros [= <- <-]. split; [reflexivity|]. split; [exists []; now rewrite app_nil_r; cbn; auto|].
      split; [exists ""; reflexivity|]. discriminate. }
  cbn [body_message body_threadId].
  destruct (negb (truthy_opt message)) eqn:Em.
  { intros [= <- <-]. split; [reflexivity|].
    split; [exists []; rewrite app_nil_r; cbn; auto|].
    split; [exists ""; reflexivity|]. discriminate. }
  destruct (if truthy_opt bt then (or_empty bt, worker_tick w)
            else (randomUUID W (worker_tick w), S (worker_tick w))) as [agentId t0].
  assert (Hagent : forall st n, n <> agentId ->
            set_agent_instance agentId st (UX_ARCHITECT_AGENT w) n =
            UX_ARCHITECT_AGENT w n).
  { intros st n Hn. unfold set_agent_instance.
    destruct (String.eqb_spec n agentId); [contradiction|reflexivity]. }
  destruct (onRequest_chat W (or_empty message) bt (UX_ARCHITECT_AGENT w agentId))
    as [[result|e] st].
  2:{ intros [= <- <-]. cbn. split; [discriminate|].
      split; [exists []; rewrite app_nil_r; cbn; auto|].
      split; [exists agentId; apply Hagent|]. discriminate. }
  destruct (d1_insert_message (randomUUID W (S t0)) _ user _ _ _ (DB_messages w))
    as [rows1|e] eqn:E1.
  2:{ intros [= <- <-]. cbn. split; [discriminate|].
      split; [exists []; rewrite app_nil_r; cbn; auto|].
      split; [exists agentId; apply Hagent|]. discriminate. }
  apply d1_insert_message_ok in E1. destruct E1 as (tid & Et & -> & Hid & Hin).
  destruct (d1_insert_message (randomUUID W (S (S t0))) _ assistant _ _ _ _)
    as [rows2|e] eqn:E2.
  2:{ intros [= <- <-]. cbn. split; [discriminate|].
      split; [eexists [_]; split; [reflexivity|cbn; auto]|].
      split; [exists agentId; apply Hagent|]. discriminate. }
  apply d1_insert_message_ok in E2. destruct E2 as (tid' & Et' & -> & Hid' & Hin').
  assert (tid' = tid) by congruence. subst tid'.
  intros [= <- <-]. cbn. split; [discriminate|].
  split; [eexists [_; _]; split; [now rewrite <- app_assoc|cbn; auto]|].
  split; [exists agentId; apply Hagent|].
  intros result0 [= <-].
  destruct message as [message|]; [|discriminate].
  exists (mkChatBody (Some message) bt), message, tid,
         (randomUUID W (S t0)), (randomUUID W (S (S t0))), (Date_now W t0 / 1000)%Z.
  split; [reflexivity|]. split; [reflexivity|]. split; [exact Et|]. split; [|exact Hin].
  now rewrite <- app_assoc.
Qed.

Lemma onRequest_chat_absent W message threadId s :
  ~ In threadId (map t_id (agent_threads s)) ->
  onRequest_chat W message (Some threadId) s = chat W message s.
Proof.
  intros Hin. unfold onRequest_chat. unfold bind at 1.
  destruct (truthy_opt (Some threadId)); [|reflexivity].
  unfold bind at 1. cbn [or_empty]. now rewrite (loadThread_absent W _ s Hin).
Qed.

(** X22. POST /api/chat with a threadId goes to the agent instance of that
    name.  When this instance has no thread of that id (as an instance
    addressed for the first time has not), the request is not rejected: the
    instance runs the turn as chat() alone would and is left in the state
    chat() leaves.  When the turn throws, the route answers 500 and writes
    nothing to D1. *)
Theorem api_chat_unknown_thread W message threadId w :
  truthy message = true ->
  truthy threadId = true ->
  ~ In threadId (map t_id (agent_threads (UX_ARCHITECT_AGENT w threadId))) ->
  let turn := chat W message (UX_ARCHITECT_AGENT w threadId) in
  let answer := api_chat W (Ok (mkChatBody (Some message) (Some threadId))) w in
  UX_ARCHITECT_AGENT (snd answer) threadId = snd turn /\
  (forall e, fst turn = Throw e ->
             fst answer = JsonError 500 "Failed to process chat message" /\
             DB_threads (snd answer) = DB_threads w /\
             DB_messages (snd answer) = DB_messages w) /\
  (forall result, fst answer = JsonChat result -> fst turn = Ok result).
Proof.
  intros Hm Ht Hin turn answer. subst turn answer. unfold api_chat, FAILED.
  cbn [body_message body_threadId truthy_opt or_empty]. rewrite Hm, Ht.
  cbn [negb]. rewrite (onRequest_chat_absent W message threadId _ Hin).
  assert (Hset : forall st, set_agent_instance threadId st (UX_ARCHITECT_AGENT w)
                              threadId = st).
  { intros st. unfold set_agent_instance. now rewrite String.eqb_refl. }
  destruct (chat W message (UX_ARCHITECT_AGENT w threadId)) as [[result|e] st].
  - destruct (d1_insert_message (randomUUID W (S (worker_tick w))) _ user _ _ _ _)
      as [rows1|e1].
    + destruct (d1_insert_message (randomUUID W (S (S (worker_tick w)))) _
                  assistant _ _ _ _) as [rows2|e2]; cbn.
      * split; [apply Hset|]. split; [discriminate|]. now intros result0 [= <-].
      * split; [apply Hset|]. split; discriminate.
    + cbn. split; [apply Hset|]. split; discriminate.
  - cbn. split; [apply Hset|]. split; [|discriminate].
    intros e0 _. repeat split.
Qed.

Lemma api_chat_answered W body w result w' :
  api_chat W body w = (JsonChat result, w') ->
  exists message threadId id1 id2 now,
    (exists b, body = Ok b /\ body_message b = Some message) /\
    res_threadId result = Some threadId /\
    DB_messages w' =
      DB_messages w ++
      [mkD1Message id1 threadId user message now;
       mkD1Message id2 threadId assistant (response result) now] /\
    In threadId (d1_thread_ids (DB_threads w')).
Proof.
  unfold api_chat, FAILED. destruct body as [[message bt]|e]; [|discriminate].
  cbn [body_message body_threadId].
  destruct (negb (truthy_opt message)) eqn:Hm; [discriminate|].
  destruct message as [message|]; [|discriminate Hm].
  destruct (if truthy_opt bt then (or_empty bt, worker_tick w)
            else (randomUUID W (worker_tick w), S (worker_tick w))) as [agentId t0].
  destruct (onRequest_chat W (or_empty (Some message)) bt
              (UX_ARCHITECT_AGENT w agentId))
    as [[result0|e] st]; [|discriminate].
  destruct (d1_insert_message (randomUUID W (S t0)) _ user _ _ _ (DB_messages w))
    as [rows1|e] eqn:E1; [|discriminate].
  apply d1_insert_message_ok in E1. destruct E1 as (tid & Et & -> & _ & Hin).
  destruct (d1_insert_message (randomUUID W (S (S t0))) _ assistant _ _ _ _)
    as [rows2|e] eqn:E2; [|discriminate].
  apply d1_insert_message_ok in E2. destruct E2 as (tid' & Et' & -> & _ & _).
  assert (tid' = tid) by congruence. subst tid'.
  intros [= <- <-]. cbn.
  exists message, tid, (randomUUID W (S t0)), (randomUUID W (S (S t0))),
         (Date_now W t0 / 1000)%Z.
  split; [now exists (mkChatBody (Some message) bt)|].
  split; [exact Et|]. split; [now rewrite <- app_assoc|exact Hin].
Qed.

(** The rows POST /api/chat added carry ids that differ. *)
Lemma api_chat_stored_ids W body w result w' :
  api_chat W body w = (JsonChat result, w') ->
  exists added,
    DB_messages w' = DB_messages w ++ added /\ NoDup (map d1m_id added).
Proof.
  unfold api_chat, FAILED. destruct body as [[message bt]|e]; [|discriminate].
  cbn [body_message body_threadId].
  destruct (negb (truthy_opt message)); [discriminate|].
  destruct (if truthy_opt bt then (or_empty bt, worker_tick w)
            else (randomUUID W (worker_tick w), S (worker_tick w))) as [agentId t0].
  destruct (onRequest_chat W (or_empty message) bt (UX_ARCHITECT_AGENT w agentId))
    as [[result0|e] st]; [|discriminate].
  destruct (d1_insert_message (randomUUID W (S t0)) _ user _ _ _ (DB_messages w))
    as [rows1|e] eqn:E1; [|discriminate].
  apply d1_insert_message_ok in E1. destruct E1 as (tid & Et & -> & _ & _).
  destruct (d1_insert_message (randomUUID W (S (S t0))) _ assistant _ _ _ _)
    as [rows2|e] eqn:E2; [|discriminate].
  apply d1_insert_message_ok in E2. destruct E2 as (tid' & Et' & -> & Hid & _).
  intros [= <- <-]. cbn [DB_messages].
  eexists [_; _]. split; [now rewrite <- app_assoc|].
  cbn. constructor; [|repeat constructor; intros []].
  intros [H|[]]. apply Hid. rewrite map_app, in_app_iff. right. cbn. now left.
Qed.

Lemma d1_first_thread_present threadId rows :
  In threadId (d1_thread_ids rows) ->
  exists t, d1_first_thread threadId rows = Some t /\ d1t_id t = Some threadId.
Proof.
  unfold d1_first_thread, d1_thread_ids.
  induction rows as [|[[x|] title c u] rows IH]; cbn; [intros []| |exact IH].
  intros [E|H].
  - subst x. rewrite String.eqb_refl. eexists. split; reflexivity.
  - destruct (String.eqb_spec x threadId) as [E|E]; [|now apply IH].
    subst x. eexists. split; reflexivity.
Qed.

(** X23. What POST /api/chat answered can be read back: GET
    /api/threads/:threadId with the thread id of the answer finds the
    thread, and its messages are those the thread had before followed by
    the user message, with the text of the request, and the assistant
    message, with the response of the answer, both of that thread, as the
    engine orders them. *)
Theorem api_get_after_chat W order body w result w' :
  api_chat W body w = (JsonChat result, w') ->
  exists threadId thread u a message,
    res_threadId result = Some threadId /\
    d1t_id thread = Some threadId /\
    (exists b, body = Ok b /\ body_message b = Some message) /\
    d1m_role u = user /\ d1m_content u = message /\
    d1m_thread_id u = threadId /\
    d1m_role a = assistant /\ d1m_content a = response result /\
    d1m_thread_id a = threadId /\
    d1m_id u <> d1m_id a /\
    api_get_thread order threadId w' =
    (ApiThread thread
       (order (filter (fun m => d1m_thread_id m =? threadId) (DB_messages w) ++
               [u; a])),
     w').
Proof.
  intros E.
  destruct (api_chat_answered W body w result w' E)
    as (message & tid & id1 & id2 & now & Hbody & Et & Em & Hin).
  destruct (d1_first_thread_present tid _ Hin) as (thread & Ef & Eid).
  assert (Hids : id1 <> id2).
  { intros ->.
    destruct (api_chat_stored_ids W body w result w' E) as (rows & Hrows & Hnd).
    rewrite Em in Hrows. apply app_inv_head in Hrows. subst rows.
    cbn in Hnd. inversion Hnd as [|? ? Hn _]; subst. apply Hn. now left. }
  exists tid, thread, (mkD1Message id1 tid user message now),
         (mkD1Message id2 tid assistant (response result) now), message.
  split; [exact Et|]. split; [exact Eid|]. split; [exact Hbody|].
  split; [reflexivity|]. split; [reflexivity|]. split; [reflexivity|].
  split; [reflexivity|]. split; [reflexivity|]. split; [reflexivity|].
  split; [exact Hids|].
  unfold api_get_thread. rewrite Ef, Em, filter_app. cbn.
  now rewrite String.eqb_refl.
Qed.

Lemma loadThread_true W threadId s s1 :
  loadThread W threadId s = (Ok true, s1) ->
  In threadId (map t_id (agent_threads s)) /\
  exists history,
    map_rows W (order_by_created_at W
                  (rows_of_thread threadId (agent_messages s))) = Ok history /\
    s1 = loaded threadId history s.
Proof.
  intros E.
  assert (Hin : In threadId (map t_id (agent_threads s))).
  { unfold loadThread, bind, sql_select_thread in E.
    destruct (filter (fun t => t_id t =? threadId) (agent_threads s)) as [|t l] eqn:Ef;
      [cbn in E; discriminate|].
    assert (Ht : In t (filter (fun t0 => t_id t0 =? threadId) (agent_threads s)))
      by (rewrite Ef; now left).
    apply filter_In in Ht. destruct Ht as (Ht & E'). apply String.eqb_eq in E'.
    rewrite <- E'. now apply in_map. }
  split; [exact Hin|]. rewrite (loadThread_present W threadId s Hin) in E.
  destruct (map_rows W _) as [history|e]; [|discriminate].
  injection E as <-. now exists history.
Qed.

(** X24. loadThread is idempotent: loading a thread a second time answers
    true again and changes nothing, since it reads the tables only and the
    first load did not write to them. *)
Theorem loadThread_twice W threadId s s1 :
  loadThread W threadId s = (Ok true, s1) ->
  loadThread W threadId s1 = (Ok true, s1).
Proof.
  intros E. destruct (loadThread_true W threadId s s1 E) as (Hin & history & Eh & ->).
  rewrite loadThread_present by exact Hin.
  cbn [loaded agent_messages]. rewrite Eh. reflexivity.
Qed.

(** ** The further properties on the sample runs *)

Lemma advertised_tool_is_served_witness :
  exists c,
    executeMcpTool world_tool_ok (ct_name search_tool) (JObj []) onStart_state =
    (callTool world_tool_ok (S (tick onStart_state)) c (ct_name search_tool) (JObj []),
     advance (advance onStart_state)).
Proof.
  apply (advertised_tool_is_served world_tool_ok (JObj []) onStart_state
           [("Stitch", Some stitch_server)] search_tool).
  - reflexivity.
  - vm_compute. left. reflexivity.
  - intros key server [H|[]] _. injection H as _ <-. exists 0. reflexivity.
Defined.

Lemma createThread_outcome_witness :
  agent_messages (snd login_thread) = agent_messages onStart_state /\
  systemPrompt (agent (snd login_thread)) = systemPrompt (agent onStart_state).
Proof.
  destruct (createThread_outcome world_plain (Some "Login") onStart_state
              (fst login_thread) (snd login_thread)) as (H1 & H2 & _).
  - vm_compute. reflexivity.
  - split; [exact H1|exact H2].
Defined.

Lemma loadThread_after_createThread_witness :
  loadThread world_plain "id-0" (created world_plain (Some "Login") onStart_state) =
  (Ok true, created world_plain (Some "Login") onStart_state).
Proof.
  apply (loadThread_after_createThread world_plain (Some "Login") onStart_state
           "id-0" (created world_plain (Some "Login") onStart_state)).
  - apply wf_sample.
  - reflexivity.
  - vm_compute. reflexivity.
Defined.

Lemma loadThread_outcome_witness :
  agent_messages (snd tool_reload) = agent_messages (snd tool_turn) /\
  agent_threads (snd tool_reload) = agent_threads (snd tool_turn).
Proof.
  destruct (loadThread_outcome world_tool_ok "id-0" (snd tool_turn)
              (fst tool_reload) (snd tool_reload)) as (H1 & H2 & _).
  - vm_compute. reflexivity.
  - split; [exact H1|exact H2].
Defined.

Lemma chat_after_loadThread_witness :
  threadId (agent (snd darker_turn)) = Some "id-0".
Proof.
  destruct (chat_after_loadThread world_tool_ok "id-0" (snd tool_turn)
              (snd tool_reload) "Make it darker"
              (fst darker_turn) (snd darker_turn))
    as (u & others & _ & _ & _ & H & _).
  - apply (chat_wf world_tool_ok "Design a login form" onStart_state
             (fst tool_turn) (snd tool_turn)).
    + apply wf_sample.
    + vm_compute. reflexivity.
  - reflexivity.
  - vm_compute. reflexivity.
  - vm_compute. reflexivity.
  - exact H.
Defined.

Lemma persistMessage_outcome_witness :
  agent (snd header_stored) = agent orphan_state.
Proof.
  destruct (persistMessage_outcome world_plain header_message orphan_state
              (fst header_stored) (snd header_stored)) as (H & _).
  - vm_compute. reflexivity.
  - exact H.
Defined.

Lemma chat_is_append_only_witness :
  systemPrompt (agent (snd plain_turn)) = systemPrompt (agent onStart_state).
Proof.
  destruct (chat_is_append_only world_plain "Design a login form" onStart_state
              (fst plain_turn) (snd plain_turn)) as (H & _).
  - apply wf_sample.
  - vm_compute. reflexivity.
  - exact H.
Defined.

Lemma turn_message_count_witness :
  length (agent_messages (snd tool_turn)) =
  length (agent_messages onStart_state) + 4.
Proof.
  destruct (turn_message_count world_tool_ok "Design a login form" onStart_state
              tool_result (snd tool_turn)
              (first_request_in (trace (snd tool_turn)))
              (completion_calls [search_call])
              asks_for_search
              (tl (trace (snd tool_turn)))) as (H & _).
  - apply wf_sample.
  - vm_compute. reflexivity.
  - vm_compute. reflexivity.
  - reflexivity.
  - exact H.
Defined.

Lemma first_request_shape_witness :
  exists req r1 others,
    trace (snd tool_turn) = EvCompletion req r1 :: others /\
    model req = "gpt-4-turbo-preview" /\
    req_tools req = Some [search_tool] /\
    tool_choice req = Some "auto".
Proof.
  destruct (first_request_shape world_tool_ok "Design a login form" onStart_state
              (fst tool_turn) (snd tool_turn) (trace (snd tool_turn)))
    as (req & r1 & others & u & tools & H1 & _ & H2 & _ & Hget & _ & Hsome & _).
  - apply wf_sample.
  - vm_compute. reflexivity.
  - vm_compute. reflexivity.
  - assert (Htools : tools = [search_tool]).
    { specialize (Hget (mkSt (agent onStart_state) false [] []
                             (tools_tick world_tool_ok onStart_state) [])
                       eq_refl).
      vm_compute in Hget. now injection Hget as <-. }
    destruct Hsome as (Hreq & Hchoice); [rewrite Htools; discriminate|].
    exists req, r1, others. split; [exact H1|]. split; [exact H2|].
    split; [now rewrite Hreq, Htools|exact Hchoice].
Defined.

Lemma chat_returns_its_thread_witness :
  res_threadId plain_result = threadId (agent (snd plain_turn)).
Proof.
  destruct (chat_returns_its_thread world_plain "Design a login form" onStart_state
              plain_result (snd plain_turn)) as (H & _).
  - apply wf_sample.
  - vm_compute. reflexivity.
  - exact H.
Defined.

Lemma onMessage_ignores_witness :
  onMessage world_plain as_stored (Some (Ok chat_without_message)) orphan_state =
  (Ok tt, orphan_state).
Proof.
  apply (onMessage_ignores world_plain as_stored (Some (Ok chat_without_message))
           orphan_state).
  intros data [= <-]. split; [reflexivity|]. split; [reflexivity|].
  left. reflexivity.
Defined.

Lemma onRequest_chat_unknown_thread_witness :
  onRequest world_plain as_stored
    (mkAgentRequest "POST" "/chat"
       (Ok (mkRequestBody None "And the footer?" (Some "t-9")))) orphan_state =
  match chat world_plain "And the footer?" orphan_state with
  | (Ok result, s') => (Ok (RespChat result), s')
  | (Throw e, s') => (Throw e, s')
  end.
Proof.
  apply (onRequest_chat_unknown_thread world_plain as_stored None
           "And the footer?" "t-9" orphan_state).
  cbn. intros [H|[]]. discriminate.
Defined.

Lemma fresh_worker_consistent : d1_consistent fresh_worker.
Proof.
  split; [constructor|]. split; [constructor|]. intros m [].
Qed.

Lemma login_answer_consistent : d1_consistent (snd login_answer).
Proof.
  unfold d1_consistent.
  replace (DB_threads (snd login_answer))
    with [mkD1Thread (Some "id-0") None 1700000000 1700000000]
    by (vm_compute; reflexivity).
  replace (DB_messages (snd login_answer))
    with [mkD1Message "id-102" "id-0" user "Design a login form" 1700000000;
          mkD1Message "id-103" "id-0" assistant "Use a single column." 1700000000]
    by (vm_compute; reflexivity).
  split; [|split].
  - repeat constructor. intros [].
  - repeat constructor; cbn; intuition discriminate.
  - intros m [<-|[<-|[]]]; now left.
Qed.

Lemma routes_keep_d1_consistent_witness :
  d1_consistent (snd (api_chat world_plain (Ok login_request) fresh_worker)) /\
  d1_consistent (snd (api_create_thread world_plain (Ok (Some "Login")) fresh_worker)) /\
  d1_consistent (snd (api_delete_thread "id-0" fresh_worker)).
Proof.
  apply (routes_keep_d1_consistent world_plain (Ok login_request) (Ok (Some "Login"))
           "id-0" fresh_worker).
  exact fresh_worker_consistent.
Defined.

Lemma api_delete_thread_cascades_witness :
  api_get_thread as_stored "id-0" (snd (api_delete_thread "id-0" (snd login_answer))) =
  (ApiError 404 "Thread not found", snd (api_delete_thread "id-0" (snd login_answer))).
Proof.
  destruct (api_delete_thread_cascades as_stored "id-0" (snd login_answer))
    as (_ & _ & _ & _ & H).
  - exact login_answer_consistent.
  - exact H.
Defined.

Lemma api_get_after_create_witness :
  api_get_thread as_stored "id-100" (snd titled_thread) =
  (ApiThread (mkD1Thread (Some "id-100") (or_null (Some "Login"))
                (Date_now world_plain (S (worker_tick fresh_worker)) / 1000)
                (Date_now world_plain (S (worker_tick fresh_worker)) / 1000))
             (as_stored []),
   snd titled_thread).
Proof.
  apply (api_get_after_create world_plain as_stored (Some "Login") fresh_worker
           "id-100" (snd titled_thread)).
  - exact fresh_worker_consistent.
  - vm_compute. reflexivity.
Defined.

Lemma api_chat_stores_exchange_witness :
  exists added,
    DB_messages (snd login_answer) = DB_messages fresh_worker ++ added /\
    length added <= 2.
Proof.
  destruct (api_chat_stores_exchange world_plain (Ok login_request) fresh_worker
              (fst login_answer) (snd login_answer)) as (_ & H & _).
  - vm_compute. reflexivity.
  - exact H.
Defined.

Lemma api_chat_unknown_thread_witness :
  UX_ARCHITECT_AGENT
    (snd (api_chat world_plain
            (Ok (mkChatBody (Some "Design a login form") (Some "t-9")))
            fresh_worker)) "t-9" =
  snd (chat world_plain "Design a login form" (UX_ARCHITECT_AGENT fresh_worker "t-9")).
Proof.
  destruct (api_chat_unknown_thread world_plain "Design a login form" "t-9"
              fresh_worker) as (H & _).
  - reflexivity.
  - reflexivity.
  - cbn. intros [].
  - exact H.
Defined.

Lemma api_get_after_chat_witness :
  exists threadId thread u a message,
    res_threadId plain_result = Some threadId /\
    d1t_id thread = Some threadId /\
    (exists b, Ok login_request = Ok b /\ body_message b = Some message) /\
    d1m_role u = user /\ d1m_content u = message /\
    d1m_thread_id u = threadId /\
    d1m_role a = assistant /\ d1m_content a = response plain_result /\
    d1m_thread_id a = threadId /\
    d1m_id u <> d1m_id a /\
    api_get_thread as_stored threadId (snd login_answer) =
    (ApiThread thread
       (as_stored
          (filter (fun m => d1m_thread_id m =? threadId) (DB_messages fresh_worker) ++
           [u; a])),
     snd login_answer).
Proof.
  apply (api_get_after_chat world_plain as_stored (Ok login_request) fresh_worker
           plain_result (snd login_answer)).
  vm_compute. reflexivity.
Defined.

Lemma loadThread_twice_witness :
  loadThread world_tool_ok "id-0" (snd tool_reload) = (Ok true, snd tool_reload).
Proof.
  apply (loadThread_twice world_tool_ok "id-0" (snd tool_turn) (snd tool_reload)).
  vm_compute. reflexivity.
Defined.
